(** * Fleet-state aggregation and credential reconciliation of maestro

    A shallow embedding of the Go sources
      - [pkg/container/info.go]      (registry query, detail fetcher,
                                      credential store reader),
      - [pkg/container/operations]   ([AddDomainToContainer]),
      - [cmd/refresh-tokens.go]      (freshness reconciler),
      - [cmd/add-domain.go]          (domain whitelist propagator),
    together with the properties of their specification.

    Go strings are byte sequences: they are modelled by [string], whose
    characters are the 256 bytes.  [int64] values are modelled by [Z]; the
    only arithmetic the modelled code performs on them is comparison and the
    conversion [time.UnixMilli], which cannot overflow (lemma
    [TimeFacts.UnixMilli_sec_int64]).  The container engine, the file system and
    the clock are an explicit boundary: read-only answers are fields of a
    record, mutable state is threaded through the functions. *)

From Stdlib Require Import ZArith Bool List Ascii String Lia.
From stdpp Require Import base option list strings gmap.

Import ListNotations.
Local Open Scope Z_scope.

(* ===================================================================== *)
(** * The parts of Go's standard library the sources call *)
(* ===================================================================== *)

Module GoStrings.

(** [len(s)], in bytes. *)
Definition len (s : string) : nat := String.length s.

(** [s[i:j]] for [i <= j <= len(s)]. *)
Definition slice (s : string) (i j : nat) : string :=
  String.substring i (j - i) s.

(** [strings.HasPrefix]:
    [len(s) >= len(prefix) && s[:len(prefix)] == prefix]. *)
Definition HasPrefix (s prefix : string) : bool :=
  (len prefix <=? len s)%nat && String.eqb (slice s 0 (len prefix)) prefix.

(** [strings.Split(s, sep)] for a separator of one byte: the pieces of [s]
    between the occurrences of [sep]; a string without [sep] (the empty
    string too) gives one piece. *)
Fixpoint Split (s : string) (sep : ascii) : list string :=
  match s with
  | EmptyString => [EmptyString]
  | String c rest =>
      if Ascii.eqb c sep then EmptyString :: Split rest sep
      else match Split rest sep with
           | piece :: pieces => String c piece :: pieces
           | [] => [String c EmptyString]
           end
  end.

(** [strings.Join(elems, sep)]. *)
Fixpoint Join (elems : list string) (sep : string) : string :=
  match elems with
  | [] => EmptyString
  | [e] => e
  | e :: es => e +:+ sep +:+ Join es sep
  end.

(** [strings.Repeat(s, count)]. *)
Fixpoint Repeat (s : string) (count : nat) : string :=
  match count with
  | O => EmptyString
  | S n => s +:+ Repeat s n
  end.

Definition tab : ascii := Ascii.ascii_of_nat 9.
Definition newline : ascii := Ascii.ascii_of_nat 10.

(** [c] occurs nowhere in [s]. *)
Fixpoint free_of (c : ascii) (s : string) : bool :=
  match s with
  | EmptyString => true
  | String a rest => negb (Ascii.eqb a c) && free_of c rest
  end.

End GoStrings.

Module GoTime.

(** [time.Time] without a monotonic reading: seconds since January 1 of
    year 1 (the field [ext]) and nanoseconds within the second. *)
Record Time : Type := mkTime { ext : Z; nsec : Z }.

(** The zero value [time.Time{}]. *)
Definition zero : Time := {| ext := 0; nsec := 0 |}.

Definition unixToInternal : Z := (1969 * 365 + 1969 / 4 - 1969 / 100 + 1969 / 400) * 86400.

(** [time.Unix(sec, nsec)]: [nsec] outside [0, 1e9) is carried into [sec];
    Go's [/] truncates towards zero ([Z.quot]). *)
Definition Unix (sec nsec : Z) : Time :=
  if (nsec <? 0) || (1000000000 <=? nsec) then
    let n := Z.quot nsec 1000000000 in
    let sec := sec + n in
    let nsec := nsec - n * 1000000000 in
    if nsec <? 0 then {| ext := sec - 1 + unixToInternal; nsec := nsec + 1000000000 |}
    else {| ext := sec + unixToInternal; nsec := nsec |}
  else {| ext := sec + unixToInternal; nsec := nsec |}.

(** [time.UnixMilli(msec)] is [Unix(msec/1e3, (msec%1e3)*1e6)]. *)
Definition UnixMilli (msec : Z) : Time :=
  Unix (Z.quot msec 1000) (Z.rem msec 1000 * 1000000).

(** [t.After(u)]. *)
Definition After (t u : Time) : bool :=
  (ext u <? ext t) || ((ext t =? ext u) && (nsec u <? nsec t)).

(** The [ExpiresAt] value whose [UnixMilli] is the zero [Time]. *)
Definition zeroUnixMilli : Z := - (unixToInternal * 1000).

Definition int64_min : Z := - 2 ^ 63.
Definition int64_max : Z := 2 ^ 63 - 1.

End GoTime.

(* ===================================================================== *)
(** * pkg/container *)
(* ===================================================================== *)

Module Container.
Import GoStrings GoTime.

(** Modelled from the spec: the type of [Credentials.ClaudeAiOauth] (the
    types file of the package is absent).  Of the credential artifact the
    code reads only the nested expiry [ExpiresAt], epoch milliseconds, an
    [int64]. *)
Record OAuth : Type := { ExpiresAt : Z }.

(** Modelled from the spec: the declaration of [Credentials] (same absent
    file), an object with the nested expiry field. *)
Record Credentials : Type := { ClaudeAiOauth : OAuth }.

(** Modelled from the spec: the declaration of [Info] (same absent file);
    the fields are those [GetRunningContainers] and [GetAllContainers]
    assign, the SandboxRecord of the specification. *)
Record Info : Type := {
  Name : string;
  ShortName : string;
  Status : string;
  StatusDetails : string;
  CreatedAt : Time;
  Branch : string;
  NeedsAttention : bool;
  IsDormant : bool;
  AuthStatus : string;
  LastActivity : string;
  GitStatus : string
}.

(** Library calls whose results the package only passes on: they are the
    interface of the Go runtime to this code. *)
Class GoRuntime : Type := {
  (** [strings.TrimSpace] *)
  TrimSpace : string -> string;
  (** [strconv.ParseInt(s, 10, 64)] *)
  ParseInt : string -> option Z;
  (** [time.Parse("2006-01-02 15:04:05 -0700 MST", s)] *)
  ParseCreatedAt : string -> option Time;
  (** [json.Unmarshal(data, &creds)] *)
  Unmarshal : string -> option Credentials;
  (** [fmt.Sprintf("%.<prec>f", float64(d) / float64(unit))] *)
  Sprintf_f : nat -> Z -> Z -> string
}.

(** The read-only answers of the execution boundary during one query:
    standard output of a command, or [None] when it cannot run or exits
    nonzero.  Commands on a sandbox are indexed by the container name. *)
Record Engine : Type := {
  (** [time.Now()], nanoseconds since the Unix epoch *)
  nowNano : Z;
  (** [docker ps --format "{{.Names}}\t{{.Status}}\t{{.State}}\t{{.CreatedAt}}"] *)
  docker_ps : option string;
  (** the same with [-a] *)
  docker_ps_all : option string;
  (** [git -C /workspace branch --show-current] *)
  git_branch : string -> option string;
  (** [tmux list-windows -t main -F "#{window_bell_flag}:#{window_silence_flag}"] *)
  tmux_flags : string -> option string;
  (** [ps aux | grep -E '[c]laude' | grep -v -E <zombie>] *)
  ps_claude : string -> option string;
  (** [docker cp <name>:/home/node/.claude/.credentials.json <tmp>]: the
      bytes copied *)
  cp_credentials : string -> option string;
  (** [tmux display-message -t main:0 -p "#{pane_active_since}"] *)
  tmux_active_since : string -> option string;
  (** [test -d /workspace/.git] *)
  test_git_dir : string -> bool;
  (** [git status --porcelain | wc -l] *)
  git_dirty : string -> option string;
  (** [git rev-list --count @{u}..HEAD] *)
  git_ahead : string -> option string;
  (** [git rev-list --count HEAD..@{u}] *)
  git_behind : string -> option string
}.

(** [time.Duration] constants, in nanoseconds. *)
Definition Second : Z := 1000000000.
Definition Minute : Z := 60 * Second.
Definition Hour : Z := 60 * Minute.

(** A [time.Duration] saturates at the bounds of [int64] ([Time.Sub]). *)
Definition saturate (d : Z) : Z :=
  if d <? int64_min then int64_min
  else if int64_max <? d then int64_max else d.

(** [time.Now().UnixMilli()]. *)
Definition nowMilli (E : Engine) : Z := nowNano E / 1000000.

(** [IsTokenExpired]; [currentTimeMs] is [time.Now().UnixMilli()]. *)
Definition IsTokenExpired (currentTimeMs : Z) (creds : Credentials) : bool :=
  ExpiresAt (ClaudeAiOauth creds) <? currentTimeMs.

(** [TimeUntilExpiration]: [time.Until(time.UnixMilli(ExpiresAt))]. *)
Definition TimeUntilExpiration (E : Engine) (creds : Credentials) : Z :=
  saturate (ExpiresAt (ClaudeAiOauth creds) * 1000000 - nowNano E).

(** [GetShortName]. *)
Definition GetShortName (containerName prefix : string) : string :=
  if HasPrefix containerName prefix
  then slice containerName (len prefix) (len containerName)
  else containerName.

(** [padGitStatus]: pads to 10 bytes. *)
Definition padGitStatus (status : string) : string :=
  let width := 10%nat in
  if (width <=? len status)%nat then status
  else status +:+ Repeat " " (width - len status).

Section Probes.
Context {RT : GoRuntime}.
Variable E : Engine.

(** [FormatExpiration]. *)
Definition FormatExpiration (creds : Credentials) : string :=
  let duration := TimeUntilExpiration E creds in
  if duration <? 0 then "EXPIRED " +:+ Sprintf_f 1 (- duration) Hour +:+ "h ago"
  else if duration <? 24 * Hour then "Valid for " +:+ Sprintf_f 1 duration Hour +:+ "h"
  else "Valid for " +:+ Sprintf_f 1 duration (24 * Hour) +:+ "d".

(** [formatDuration]. *)
Definition formatDuration (d : Z) : string :=
  if d <? Minute then Sprintf_f 0 d Second +:+ "s"
  else if d <? Hour then Sprintf_f 0 d Minute +:+ "m"
  else if d <? 24 * Hour then Sprintf_f 1 d Hour +:+ "h"
  else Sprintf_f 1 d (24 * Hour) +:+ "d".

(** [GetBranchName]. *)
Definition GetBranchName (containerName : string) : string :=
  match git_branch E containerName with
  | None => "unknown"
  | Some output => TrimSpace output
  end.

(** [CheckBellStatus]: some window line is [b:s] with [b] or [s] equal
    to ["1"]. *)
Definition CheckBellStatus (containerName : string) : bool :=
  match tmux_flags E containerName with
  | None => false
  | Some output =>
      existsb
        (fun line =>
           match Split (TrimSpace line) ":" with
           | [bellFlag; silenceFlag] =>
               String.eqb bellFlag "1" || String.eqb silenceFlag "1"
           | _ => false
           end)
        (Split output newline)
  end.

(** [IsClaudeRunning]. *)
Definition IsClaudeRunning (containerName : string) : bool :=
  match ps_claude E containerName with
  | None => false
  | Some output => negb (String.eqb (TrimSpace output) "")
  end.

(** [GetAuthStatus]; the temporary file it extracts to is removed on
    every path ([defer os.Remove]) and read nowhere else, so it is not
    part of the state. *)
Definition GetAuthStatus (containerName : string) : string :=
  match cp_credentials E containerName with
  | None => "✗ NO AUTH"
  | Some data =>
      match Unmarshal data with
      | None => "✗ INVALID"
      | Some creds =>
          if IsTokenExpired (nowMilli E) creds then "✗ EXPIRED"
          else
            let duration := TimeUntilExpiration E creds in
            if duration <? 24 * Hour
            then "⚠ " +:+ Sprintf_f 1 duration Hour +:+ "h"
            else "✓ " +:+ Sprintf_f 1 duration Hour +:+ "h"
      end
  end.

(** [GetLastActivity]. *)
Definition GetLastActivity (containerName : string) : string :=
  match tmux_active_since E containerName with
  | None => "-"
  | Some output =>
      match ParseInt (TrimSpace output) with
      | None => "-"
      | Some timestamp => formatDuration (saturate (nowNano E - timestamp * Second))
      end
  end.

(** One counting command of [GetGitStatus]: the indicator it appends. *)
Definition indicator (mark : string) (keepEmpty : bool) (out : option string) : list string :=
  match out with
  | None => []
  | Some output =>
      let count := TrimSpace output in
      if negb (String.eqb count "0") && (keepEmpty || negb (String.eqb count ""))
      then [mark +:+ count] else []
  end.

(** [GetGitStatus]. *)
Definition GetGitStatus (containerName : string) : string :=
  if negb (test_git_dir E containerName) then padGitStatus "-"
  else
    let indicators :=
      indicator "Δ" true (git_dirty E containerName)
        ++ indicator "↑" false (git_ahead E containerName)
        ++ indicator "↓" false (git_behind E containerName) in
    match indicators with
    | [] => padGitStatus "✓"
    | _ => padGitStatus (Join indicators " ")
    end.

(** The local type [basicInfo] of both queries. *)
Record basicInfo : Type := {
  name : string;
  status : string;
  state : string;
  createdAt : Time
}.

(** The body of the parsing loop of [GetRunningContainers] and
    [GetAllContainers] (the two loops are the same text); [None] is
    [continue]. *)
Definition parseLine (prefix line : string) : option basicInfo :=
  if String.eqb line "" then None
  else
    let parts := Split line tab in
    if (length parts <? 4)%nat then None
    else
      let name := nth 0 parts ""%string in
      if negb (HasPrefix name prefix) then None
      else
        let createdAt :=
          match ParseCreatedAt (nth 3 parts ""%string) with
          | Some t => t
          | None => GoTime.zero
          end in
        Some {| name := name;
                status := nth 1 parts ""%string;
                state := nth 2 parts ""%string;
                createdAt := createdAt |}.

(** The parsing loop: [basics] after the last line. *)
Definition parseListing (prefix output : string) : list basicInfo :=
  omap (parseLine prefix) (Split output newline).

(** The goroutine body of [GetRunningContainers] for one row.  The three
    probes run concurrently and each stores into its own field under the
    row's mutex, so the joined record is the one below in every
    interleaving. *)
Definition fetchRunning (prefix : string) (basic : basicInfo) : Info :=
  {| Name := name basic;
     ShortName := GetShortName (name basic) prefix;
     Status := state basic;
     StatusDetails := status basic;
     CreatedAt := createdAt basic;
     Branch := GetBranchName (name basic);
     NeedsAttention := CheckBellStatus (name basic);
     IsDormant := negb (IsClaudeRunning (name basic));
     AuthStatus := "";
     LastActivity := "";
     GitStatus := "" |}.

(** The goroutine body of [GetAllContainers] for one row. *)
Definition fetchAll (prefix : string) (basic : basicInfo) : Info :=
  if String.eqb (state basic) "running" then
    {| Name := name basic;
       ShortName := GetShortName (name basic) prefix;
       Status := state basic;
       StatusDetails := status basic;
       CreatedAt := createdAt basic;
       Branch := GetBranchName (name basic);
       NeedsAttention := CheckBellStatus (name basic);
       IsDormant := negb (IsClaudeRunning (name basic));
       AuthStatus := GetAuthStatus (name basic);
       LastActivity := GetLastActivity (name basic);
       GitStatus := GetGitStatus (name basic) |}
  else
    {| Name := name basic;
       ShortName := GetShortName (name basic) prefix;
       Status := state basic;
       StatusDetails := status basic;
       CreatedAt := createdAt basic;
       Branch := GetBranchName (name basic);
       NeedsAttention := false;
       IsDormant := false;
       AuthStatus := "";
       LastActivity := "-";
       GitStatus := "-" |}.

(** [GetRunningContainers]: [None] is the error of the bulk call; row
    [i] of the result is written by the goroutine of [basics[i]]. *)
Definition GetRunningContainers (prefix : string) : option (list Info) :=
  match docker_ps E with
  | None => None
  | Some output => Some (map (fetchRunning prefix) (parseListing prefix output))
  end.

(** [GetAllContainers]. *)
Definition GetAllContainers (prefix : string) : option (list Info) :=
  match docker_ps_all E with
  | None => None
  | Some output => Some (map (fetchAll prefix) (parseListing prefix output))
  end.

End Probes.

End Container.

(* ===================================================================== *)
(** * pkg/container: operations on a sandbox *)
(* ===================================================================== *)

Module Operations.
Import GoStrings.

(** What the propagator can observe of a running sandbox: the lines of
    [/tmp/dnsmasq-firewall.conf] and how often the resolver was started. *)
Record Sandbox : Type := {
  dnsmasqConf : list string;
  resolverStarts : nat
}.

(** The commands the propagator sends through [docker exec].  The rules of
    [AppendRules] are the lines the two [echo] write when the shell reads
    the rule text between the single quotes as it stands. *)
Inductive Command : Type :=
| GrepRule (pattern : string)       (* grep -q <pattern> <conf> *)
| AppendRules (rules : list string) (* echo '<r1>' >> <conf> && echo '<r2>' >> <conf>, as root *)
| RestartResolver                   (* pkill -9 dnsmasq || true; sleep 0.2; dnsmasq --conf-file=<conf> *)
| Dig (domain : string).            (* dig +short <domain> | head -5 *)

(** The remote side: the running sandboxes by container name, and the
    commands executed so far, oldest first. *)
Record Remote : Type := {
  fleet : gmap string Sandbox;
  trace : list (string * Command)
}.

(** [grep] reads its pattern as a basic regular expression.  In a pattern
    built from a host name every byte is an ordinary character except
    ['.'], which matches any byte: that fragment is modelled ([bre_search]).
    So is the fragment with ['*'] after a byte, which stands for any number
    of repetitions of that byte, none included ([bre_atoms_search]).  What
    [grep] answers on any other pattern, where ['['], ['\'], a leading or
    a doubled ['*'] and the like have a meaning of their own, is left to
    the boundary. *)
Class RemoteTools : Type := {
  (** [grep -q pattern file] on a pattern outside the fragment *)
  grep_beyond : string -> list string -> bool
}.

Definition bre_char (p c : ascii) : bool :=
  Ascii.eqb p "." || Ascii.eqb p c.

Fixpoint bre_here (pattern text : string) : bool :=
  match pattern, text with
  | EmptyString, _ => true
  | String _ _, EmptyString => false
  | String p ps, String c cs => bre_char p c && bre_here ps cs
  end.

Fixpoint bre_search (pattern text : string) : bool :=
  bre_here pattern text ||
  match text with
  | EmptyString => false
  | String _ cs => bre_search pattern cs
  end.

(** Bytes of a host name: letters, digits, ['-'], ['_'] and ['.']. *)
Definition host_byte (c : ascii) : bool :=
  let n := Ascii.nat_of_ascii c in
  ((48 <=? n) && (n <=? 57) || (65 <=? n) && (n <=? 90) || (97 <=? n) && (n <=? 122)
   || (n =? 45) || (n =? 95) || (n =? 46))%nat.

Fixpoint host_name (domain : string) : bool :=
  match domain with
  | EmptyString => true
  | String c rest => host_byte c && host_name rest
  end.

(** The patterns of the fragment: host-name bytes, ['='] and ['/']. *)
Fixpoint plain_pattern (pattern : string) : bool :=
  match pattern with
  | EmptyString => true
  | String c rest =>
      (host_byte c || Ascii.eqb c "=" || Ascii.eqb c "/") && plain_pattern rest
  end.

(** The atoms of a pattern with ['*']: each byte, and whether ['*']
    follows it. *)
Fixpoint bre_atoms (pattern : string) : list (ascii * bool) :=
  match pattern with
  | EmptyString => []
  | String p (String "*" rest) => (p, true) :: bre_atoms rest
  | String p rest => (p, false) :: bre_atoms rest
  end.

(** The atoms match a prefix of [text]; a starred atom takes any number of
    the bytes it matches. *)
Fixpoint bre_atoms_here (atoms : list (ascii * bool)) (text : string) : bool :=
  match atoms with
  | [] => true
  | (p, false) :: rest =>
      match text with
      | EmptyString => false
      | String c cs => bre_char p c && bre_atoms_here rest cs
      end
  | (p, true) :: rest =>
      (fix many (text : string) : bool :=
         bre_atoms_here rest text ||
         match text with
         | EmptyString => false
         | String c cs => bre_char p c && many cs
         end) text
  end.

Fixpoint bre_atoms_search (atoms : list (ascii * bool)) (text : string) : bool :=
  bre_atoms_here atoms text ||
  match text with
  | EmptyString => false
  | String _ cs => bre_atoms_search atoms cs
  end.

(** The patterns of the fragment with ['*']: bytes of the plain fragment
    and ['*'], no ['*'] first and none after another. *)
Fixpoint starred_from (after_star : bool) (pattern : string) : bool :=
  match pattern with
  | EmptyString => true
  | String c rest =>
      if Ascii.eqb c "*" then negb after_star && starred_from true rest
      else (host_byte c || Ascii.eqb c "=" || Ascii.eqb c "/") && starred_from false rest
  end.

Definition starred_pattern (pattern : string) : bool := starred_from true pattern.

(** [grep -q pattern file]: exit status 0 iff some line matches. *)
Definition grep_q {RS : RemoteTools} (pattern : string) (lines : list string) : bool :=
  if plain_pattern pattern then existsb (bre_search pattern) lines
  else if starred_pattern pattern then existsb (bre_atoms_search (bre_atoms pattern)) lines
  else grep_beyond pattern lines.

(** Commands run in a state monad over the remote side; the value is the
    exit status ([true] is exit status 0). *)
Definition Exec (A : Type) : Type := Remote -> A * Remote.

#[global] Instance Exec_ret : MRet Exec := fun A a r => (a, r).

#[global] Instance Exec_bind : MBind Exec :=
  fun A B k m r => let (a, r') := m r in k a r'.

Section Exec.
Context {RS : RemoteTools}.

(** [exec.Command("docker", "exec", containerName, ...).Run() == nil]:
    a sandbox that is not running fails every command. *)
Definition run (containerName : string) (cmd : Command) : Exec bool :=
  fun r =>
    let r' := {| fleet := fleet r; trace := trace r ++ [(containerName, cmd)] |} in
    match fleet r !! containerName with
    | None => (false, r')
    | Some sb =>
        match cmd with
        | GrepRule pattern => (grep_q pattern (dnsmasqConf sb), r')
        | AppendRules rules =>
            (true,
             {| fleet := <[containerName :=
                            {| dnsmasqConf := dnsmasqConf sb ++ rules;
                               resolverStarts := resolverStarts sb |}]> (fleet r);
                trace := trace r' |})
        | RestartResolver =>
            (true,
             {| fleet := <[containerName :=
                            {| dnsmasqConf := dnsmasqConf sb;
                               resolverStarts := S (resolverStarts sb) |}]> (fleet r);
                trace := trace r' |})
        | Dig _ => (true, r')
        end
    end.

(** [fmt.Sprintf("ipset=/%s/", domain)]: the pattern of the check. *)
Definition rulePattern (domain : string) : string :=
  "ipset=/" +:+ domain +:+ "/".

(** The two lines the append command writes. *)
Definition ruleLines (domain : string) : list string :=
  ["ipset=/" +:+ domain +:+ "/allowed-domains";
   "server=/" +:+ domain +:+ "/8.8.8.8"].

(** [AddDomainToContainer]; [None] is a [nil] error. *)
Definition AddDomainToContainer (containerName domain : string) : Exec (option string) :=
  present ← run containerName (GrepRule (rulePattern domain));
  if present : bool then mret None
  else
    appended ← run containerName (AppendRules (ruleLines domain));
    if negb appended then mret (Some "failed to update dnsmasq config")
    else
      restarted ← run containerName RestartResolver;
      if negb restarted then mret (Some "failed to restart dnsmasq")
      else
        _ ← run containerName (Dig domain);
        mret None.

End Exec.

(** The configuration of a sandbox; a sandbox that is not running shows
    none. *)
Definition confOf (containerName : string) (r : Remote) : list string :=
  match fleet r !! containerName with
  | Some sb => dnsmasqConf sb
  | None => []
  end.

(** The append commands in a trace. *)
Definition isAppend (e : string * Command) : bool :=
  match snd e with
  | AppendRules _ => true
  | _ => false
  end.

Definition appends (t : list (string * Command)) : nat :=
  length (filter (fun e => isAppend e = true) t).

End Operations.

(* ===================================================================== *)
(** * cmd: refresh-tokens and add-domain *)
(* ===================================================================== *)

Module Cmd.
Import GoStrings GoTime Container Operations.

(** The files the reconciler touches on the host: the host credential file
    [paths.AuthDir()/.credentials.json], the extraction copies
    [os.TempDir()/maestro-creds-<name>.json], and the empty path of a
    zero-valued [tokenSource].  They are taken to be different files: the
    extraction copy of one container is neither the host credential file
    nor the copy of another container. *)
Inductive Path : Type :=
| HostCredPath
| TmpPath (containerName : string)
| EmptyPath.

(** The credential replicas and the extraction copies: the state a pass
    reads and writes. *)
Record Replicas : Type := {
  (** content of the host credential file, if it exists *)
  hostCred : option string;
  (** extraction copies on the host, by container name *)
  tmpFiles : gmap string string;
  (** [<name>:/home/node/.claude/.credentials.json], by container name *)
  sandboxCred : gmap string string
}.

(** Which calls of the boundary fail during the pass. *)
Record Faults : Type := {
  (** [docker cp <name>:... <tmp>] *)
  cpOutFails : string -> bool;
  (** [os.WriteFile] of the host credential file *)
  hostWriteFails : bool;
  (** [docker cp <tmp> <name>:...] *)
  cpInFails : string -> bool;
  (** [docker exec -u root <name> chown ...] *)
  chownFails : string -> bool
}.

(** The writes a pass attempts, oldest first, each with whether it
    succeeded. *)
Inductive Effect : Type :=
| CopyToHost (src : Path) (ok : bool)
| CopyToSandbox (src : Path) (target : string) (ok : bool)
| ChownSandbox (target : string) (ok : bool).

(** A target write is a copy to the host or into a sandbox. *)
Definition isCopy (e : Effect) : bool :=
  match e with
  | CopyToHost _ _ | CopyToSandbox _ _ _ => true
  | ChownSandbox _ _ => false
  end.

Definition copySucceeded (e : Effect) : bool :=
  match e with
  | CopyToHost _ ok | CopyToSandbox _ _ ok => ok
  | ChownSandbox _ _ => false
  end.

(** M, the target writes attempted, and N, those that succeeded. *)
Definition attempts (log : list Effect) : nat :=
  length (filter (fun e => isCopy e = true) log).

Definition successes (log : list Effect) : nat :=
  length (filter (fun e => copySucceeded e = true) log).

(** [tokenSource]; [creds] is a pointer, [None] is [nil]. *)
Record tokenSource : Type := {
  location : string;
  path : Path;
  creds : option Credentials;
  expiresAt : Time
}.

(** The zero value [var freshest tokenSource]. *)
Definition zeroSource : tokenSource :=
  {| location := ""; path := EmptyPath; creds := None; expiresAt := GoTime.zero |}.

(** What [runRefreshTokens] returns: [nil] with the count it prints, an
    error, or the run-time panic of a [nil] dereference. *)
Inductive Outcome : Type :=
| Synced (syncCount : nat)
| Failed (msg : string)
| Panicked.

(** The pass as a whole fails when it does not return [nil]. *)
Definition reportsFailure (o : Outcome) : bool :=
  match o with
  | Synced _ => false
  | Failed _ | Panicked => true
  end.

Record Pass : Type := {
  outcome : Outcome;
  after : Replicas;
  effects : list Effect
}.

(** [os.ReadFile]. *)
Definition ReadFile (st : Replicas) (p : Path) : option string :=
  match p with
  | HostCredPath => hostCred st
  | TmpPath n => tmpFiles st !! n
  | EmptyPath => None
  end.

(** [os.WriteFile]; [None] is an error. *)
Definition WriteFile (F : Faults) (st : Replicas) (p : Path) (data : string) : option Replicas :=
  match p with
  | HostCredPath =>
      if hostWriteFails F then None
      else Some {| hostCred := Some data; tmpFiles := tmpFiles st; sandboxCred := sandboxCred st |}
  | TmpPath n =>
      Some {| hostCred := hostCred st; tmpFiles := <[n := data]> (tmpFiles st);
              sandboxCred := sandboxCred st |}
  | EmptyPath => None
  end.

(** [os.Remove]. *)
Definition Remove (st : Replicas) (n : string) : Replicas :=
  {| hostCred := hostCred st; tmpFiles := delete n (tmpFiles st);
     sandboxCred := sandboxCred st |}.

(** [docker cp <name>:/home/node/.claude/.credentials.json <tmp>]. *)
Definition cpOut (F : Faults) (st : Replicas) (n : string) : option Replicas :=
  if cpOutFails F n then None
  else match sandboxCred st !! n with
       | None => None
       | Some data => WriteFile F st (TmpPath n) data
       end.

(** [docker cp <src> <name>:/home/node/.claude/.credentials.json]. *)
Definition cpIn (F : Faults) (st : Replicas) (src : Path) (n : string) : option Replicas :=
  if cpInFails F n then None
  else match ReadFile st src with
       | None => None
       | Some data =>
           Some {| hostCred := hostCred st; tmpFiles := tmpFiles st;
                   sandboxCred := <[n := data]> (sandboxCred st) |}
       end.

(** [copyCredentials(src, dst)]. *)
Definition copyCredentials (F : Faults) (st : Replicas) (src dst : Path) : option Replicas :=
  match ReadFile st src with
  | None => None
  | Some data => WriteFile F st dst data
  end.

(** The expiry of a source in epoch milliseconds; the zero-valued source
    stands at the zero [Time]. *)
Definition millis (s : tokenSource) : Z :=
  match creds s with
  | Some cr => ExpiresAt (ClaudeAiOauth cr)
  | None => zeroUnixMilli
  end.

(** A source as the scan builds it: its credentials were read and
    [expiresAt] is their expiry. *)
Definition scanned (s : tokenSource) : Prop :=
  creds s <> None /\ expiresAt s = UnixMilli (millis s).

Section RefreshTokens.
Context {RT : GoRuntime}.
Variable E : Engine.
Variable F : Faults.
(** [config.Containers.Prefix] *)
Variable configPrefix : string.

(** [container.ReadCredentials]. *)
Definition ReadCredentials (st : Replicas) (p : Path) : option Credentials :=
  match ReadFile st p with
  | None => None
  | Some data => Unmarshal data
  end.

(** Step 1 of [runRefreshTokens]: the host replica. *)
Definition scanHost (st : Replicas) : list tokenSource :=
  match ReadCredentials st HostCredPath with
  | Some hostCreds =>
      [ {| location := "host"; path := HostCredPath; creds := Some hostCreds;
           expiresAt := UnixMilli (ExpiresAt (ClaudeAiOauth hostCreds)) |} ]
  | None => []
  end.

(** The state of the scan loop: the sources found, the files, and the
    extraction copies whose removal is deferred. *)
Record Scan : Type := {
  sources : list tokenSource;
  files : Replicas;
  deferred : list string
}.

(** The body of the loop over [containers] of step 2. *)
Definition scanContainer (acc : Scan) (c : Info) : Scan :=
  let tmpFile := TmpPath (Name c) in
  match cpOut F (files acc) (Name c) with
  | None => acc
  | Some st =>
      let deferred' := Name c :: deferred acc in
      match ReadCredentials st tmpFile with
      | Some cr =>
          {| sources := sources acc ++
                        [ {| location := Name c; path := tmpFile; creds := Some cr;
                             expiresAt := UnixMilli (ExpiresAt (ClaudeAiOauth cr)) |} ];
             files := st; deferred := deferred' |}
      | None => {| sources := sources acc; files := st; deferred := deferred' |}
      end
  end.

(** The containers scanned: those of the configured prefix, then those of
    the legacy prefix when it differs (an error of the second listing is
    dropped). *)
Definition listContainers : option (list Info) :=
  match GetRunningContainers E configPrefix with
  | None => None
  | Some containers =>
      if negb (String.eqb configPrefix "mcl-")
      then Some (containers ++ default [] (GetRunningContainers E "mcl-"))
      else Some containers
  end.

Definition scan (st : Replicas) (containers : list Info) : Scan :=
  fold_left scanContainer containers
    {| sources := scanHost st; files := st; deferred := [] |}.

(** Step 3: the loop that finds the freshest token. *)
Definition Select (sources : list tokenSource) : tokenSource :=
  fold_left
    (fun freshest src =>
       if After (expiresAt src) (expiresAt freshest) then src else freshest)
    sources zeroSource.

(** The state of the propagation: [syncCount], the files, the writes
    attempted. *)
Record Sync : Type := {
  syncCount : nat;
  store : Replicas;
  attempted : list Effect
}.

(** Step 6, the host. *)
Definition syncHost (freshest : tokenSource) (s : Sync) : Sync :=
  if negb (String.eqb (location freshest) "host") then
    match copyCredentials F (store s) (path freshest) HostCredPath with
    | None =>
        {| syncCount := syncCount s; store := store s;
           attempted := attempted s ++ [CopyToHost (path freshest) false] |}
    | Some st =>
        {| syncCount := S (syncCount s); store := st;
           attempted := attempted s ++ [CopyToHost (path freshest) true] |}
    end
  else s.

(** Step 6, the body of the loop over [containers]. *)
Definition syncContainer (freshest : tokenSource) (s : Sync) (c : Info) : Sync :=
  if String.eqb (Name c) (location freshest) then s
  else
    let tmpFile :=
      if String.eqb (location freshest) "host" then HostCredPath else path freshest in
    match cpIn F (store s) tmpFile (Name c) with
    | None =>
        {| syncCount := syncCount s; store := store s;
           attempted := attempted s ++ [CopyToSandbox tmpFile (Name c) false] |}
    | Some st =>
        {| syncCount := S (syncCount s); store := st;
           attempted := attempted s ++
                        [CopyToSandbox tmpFile (Name c) true;
                         ChownSandbox (Name c) (negb (chownFails F (Name c)))] |}
    end.

Definition propagate (freshest : tokenSource) (containers : list Info) (st : Replicas) : Sync :=
  fold_left (syncContainer freshest) containers
    (syncHost freshest {| syncCount := 0; store := st; attempted := [] |}).

(** The deferred [os.Remove] calls, run when the function returns or
    panics. *)
Definition runDeferred (names : list string) (st : Replicas) : Replicas :=
  fold_left Remove names st.

(** How far a pass gets. *)
Inductive Stage : Type :=
| ListingFailed
| NoCredentialsFound (sc : Scan)
| NilDereference (sc : Scan)
| AllCredentialsExpired (sc : Scan) (freshest : tokenSource)
| Propagate (sc : Scan) (containers : list Info) (freshest : tokenSource).

(** Steps 1 to 4: scan, select, validate. *)
Definition stage (st : Replicas) : Stage :=
  match listContainers with
  | None => ListingFailed
  | Some containers =>
      let sc := scan st containers in
      if (length (sources sc) =? 0)%nat then NoCredentialsFound sc
      else
        let freshest := Select (sources sc) in
        match creds freshest with
        | None => NilDereference sc
        | Some cr =>
            if IsTokenExpired (nowMilli E) cr then AllCredentialsExpired sc freshest
            else Propagate sc containers freshest
        end
  end.

(** The pass reaches the Propagate stage. *)
Definition reachesPropagate (s : Stage) : bool :=
  match s with
  | Propagate _ _ _ => true
  | _ => false
  end.


(** [runRefreshTokens]; of a wrapped error the text of the boundary is left
    out. *)
Definition runRefreshTokens (st : Replicas) : Pass :=
  match stage st with
  | ListingFailed =>
      {| outcome := Failed "failed to list containers"; after := st; effects := [] |}
  | NoCredentialsFound sc =>
      {| outcome := Failed "no valid credentials found in host or containers";
         after := runDeferred (deferred sc) (files sc); effects := [] |}
  | NilDereference sc =>
      {| outcome := Panicked;
         after := runDeferred (deferred sc) (files sc); effects := [] |}
  | AllCredentialsExpired sc _ =>
      {| outcome := Failed "all tokens expired";
         after := runDeferred (deferred sc) (files sc); effects := [] |}
  | Propagate sc containers freshest =>
      let s := propagate freshest containers (files sc) in
      {| outcome := Synced (syncCount s);
         after := runDeferred (deferred sc) (store s);
         effects := attempted s |}
  end.

End RefreshTokens.

(** [syncCount] counts the target writes that succeeded. *)
Definition tallied (s : Sync) : Prop :=
  syncCount s = successes (attempted s)
  /\ (successes (attempted s) <= attempts (attempted s))%nat.

(** Two states hold the same replicas when they differ in extraction
    copies at most. *)
Definition sameReplicas (a b : Replicas) : Prop :=
  hostCred a = hostCred b /\ sandboxCred a = sandboxCred b.

Section AddDomain.
Context {RT : GoRuntime} {RS : RemoteTools}.
(** [resolveContainerName], defined in a file that is absent *)
Variable resolveContainerName : string -> string.
(** [docker ps --filter name=<containerName> --format {{.State}}] *)
Variable ps_state : string -> option string.

(** [runAddDomain] up to the closing message; the prompt that follows only
    edits the local configuration file.  [None] is a [nil] error; of a
    wrapped error the text of the boundary is left out. *)
Definition runAddDomain (shortName domain : string) : Exec (option string) :=
  let containerName := resolveContainerName shortName in
  match ps_state containerName with
  | None => mret (Some "failed to check container status")
  | Some output =>
      if negb (String.eqb (TrimSpace output) "running")
      then mret (Some ("container " +:+ shortName +:+ " is not running"))
      else
        present ← run containerName (GrepRule (rulePattern domain));
        updated ← (if present : bool then mret true
                   else run containerName (AppendRules (ruleLines domain)));
        if negb updated then mret (Some "failed to update dnsmasq config")
        else
          restarted ← run containerName RestartResolver;
          if negb restarted then mret (Some "failed to restart dnsmasq")
          else
            _ ← run containerName (Dig domain);
            mret None
  end.

End AddDomain.

End Cmd.

(* ===================================================================== *)
(** * Listings and fixtures *)
(* ===================================================================== *)

Module Listing.
Import GoStrings GoTime Container.

(** A row of the bulk list call: the four columns of the format string. *)
Record Row : Type := {
  rname : string;
  rstatus : string;
  rstate : string;
  rcreated : string
}.

(** A well-formed row: no column holds a tab or a line feed. *)
Definition wellFormed (r : Row) : bool :=
  forallb (fun col => free_of tab col && free_of newline col)
    [rname r; rstatus r; rstate r; rcreated r].

Definition TAB : string := String tab EmptyString.
Definition LF : string := String newline EmptyString.

(** The line the engine prints for a row. *)
Definition renderRow (r : Row) : string :=
  rname r +:+ TAB +:+ rstatus r +:+ TAB +:+ rstate r +:+ TAB +:+ rcreated r.

(** The output of the bulk list call: one line per row, each ended by a
    line feed. *)
Fixpoint renderListing (rows : list Row) : string :=
  match rows with
  | [] => EmptyString
  | r :: rest => renderRow r +:+ LF +:+ renderListing rest
  end.

(** The [basicInfo] the parsing loop builds from a row. *)
Definition basicOf {RT : GoRuntime} (r : Row) : basicInfo :=
  {| name := rname r; status := rstatus r; state := rstate r;
     createdAt := match ParseCreatedAt (rcreated r) with
                  | Some t => t
                  | None => GoTime.zero
                  end |}.

(** The rows whose name starts with the prefix. *)
Definition matching (prefix : string) (rows : list Row) : list Row :=
  filter (fun r => HasPrefix (rname r) prefix = true) rows.

(** Two engines answer alike for the sandbox [n]: the same clock and the
    same result of every probe on [n]. *)
Definition sameProbes (E E' : Engine) (n : string) : Prop :=
  nowNano E = nowNano E'
  /\ git_branch E n = git_branch E' n
  /\ tmux_flags E n = tmux_flags E' n
  /\ ps_claude E n = ps_claude E' n
  /\ cp_credentials E n = cp_credentials E' n
  /\ tmux_active_since E n = tmux_active_since E' n
  /\ test_git_dir E n = test_git_dir E' n
  /\ git_dirty E n = git_dirty E' n
  /\ git_ahead E n = git_ahead E' n
  /\ git_behind E n = git_behind E' n.

(** An engine whose bulk list calls print [output]. *)
Definition withListing (E : Engine) (output : string) : Engine :=
  {| nowNano := nowNano E;
     docker_ps := Some output;
     docker_ps_all := Some output;
     git_branch := git_branch E;
     tmux_flags := tmux_flags E;
     ps_claude := ps_claude E;
     cp_credentials := cp_credentials E;
     tmux_active_since := tmux_active_since E;
     test_git_dir := test_git_dir E;
     git_dirty := git_dirty E;
     git_ahead := git_ahead E;
     git_behind := git_behind E |}.

End Listing.

Module Fixtures.
Import GoStrings GoTime Container Operations Cmd Listing.

(** A small runtime for concrete runs: ASCII white space is trimmed,
    integers are decimal, a credential artifact is the decimal number of its
    expiry, and no creation time parses. *)
Definition isSpace (c : ascii) : bool :=
  let n := Ascii.nat_of_ascii c in
  ((n =? 32) || (9 <=? n) && (n <=? 13))%nat.

Fixpoint trimLeft (s : string) : string :=
  match s with
  | EmptyString => EmptyString
  | String c rest => if isSpace c then trimLeft rest else s
  end.

Fixpoint trimRight (s : string) : string :=
  match s with
  | EmptyString => EmptyString
  | String c rest =>
      match trimRight rest with
      | EmptyString => if isSpace c then EmptyString else String c EmptyString
      | kept => String c kept
      end
  end.

Fixpoint digits (s : string) (acc : Z) : option Z :=
  match s with
  | EmptyString => Some acc
  | String c rest =>
      let n := Ascii.nat_of_ascii c in
      if ((48 <=? n) && (n <=? 57))%nat
      then digits rest (acc * 10 + Z.of_nat (n - 48))
      else None
  end.

Definition decimal (s : string) : option Z :=
  match s with
  | EmptyString => None
  | String "-" (String c rest) => Z.opp <$> digits (String c rest) 0
  | String "-" EmptyString => None
  | _ => digits s 0
  end.

Definition credsAt (ms : Z) : Credentials :=
  {| ClaudeAiOauth := {| ExpiresAt := ms |} |}.

Definition plainRuntime : GoRuntime :=
  {| TrimSpace := fun s => trimRight (trimLeft s);
     ParseInt := decimal;
     ParseCreatedAt := fun _ => None;
     Unmarshal := fun data => credsAt <$> decimal data;
     Sprintf_f := fun _ _ _ => "?" |}.

(** 2023-11-14T22:13:20Z. *)
Definition noon : Z := 1700000000000.

(** An engine on which the bulk call and every probe fail. *)
Definition deadEngine : Engine :=
  {| nowNano := noon * 1000000;
     docker_ps := None;
     docker_ps_all := None;
     git_branch := fun _ => None;
     tmux_flags := fun _ => None;
     ps_claude := fun _ => None;
     cp_credentials := fun _ => None;
     tmux_active_since := fun _ => None;
     test_git_dir := fun _ => false;
     git_dirty := fun _ => None;
     git_ahead := fun _ => None;
     git_behind := fun _ => None |}.

Definition row (n st : string) : Row :=
  {| rname := n; rstatus := "Up 2 hours"; rstate := st;
     rcreated := "2025-10-18 06:33:27 -0700 PDT" |}.

(** Scenario C of the specification. *)
Definition scenarioC : list Row :=
  [row "mcl-foo" "running"; row "other-bar" "running"; row "mcl-baz" "exited"].

Definition noFaults : Faults :=
  {| cpOutFails := fun _ => false; hostWriteFails := false;
     cpInFails := fun _ => false; chownFails := fun _ => false |}.

(** Every write into a sandbox fails. *)
Definition sandboxesReadOnly : Faults :=
  {| cpOutFails := fun _ => false; hostWriteFails := false;
     cpInFails := fun _ => true; chownFails := fun _ => false |}.

(** The host holds a token valid for a day more, sandbox [mcl-a] one that
    expired a day ago. *)
Definition hostFresh : Replicas :=
  {| hostCred := Some "1700086400000";
     tmpFiles := ∅;
     sandboxCred := {[ "mcl-a" := "1699913600000" ]} |}.

Definition oneSandbox : Engine :=
  withListing deadEngine (renderListing [row "mcl-a" "running"]).

(** Scenario A of the specification: host expired 2h ago, sandbox A valid
    for 147h, sandbox B expired 3h ago. *)
Definition scenarioA : Replicas :=
  {| hostCred := Some "1699992800000";
     tmpFiles := ∅;
     sandboxCred := {[ "mcl-a" := "1700529200000"; "mcl-b" := "1699989200000" ]} |}.

Definition twoSandboxes : Engine :=
  withListing deadEngine (renderListing [row "mcl-a" "running"; row "mcl-b" "running"]).

(** The only replica, on the host, expires at the zero [time.Time]:
    [{"claudeAiOauth":{"expiresAt":-62135596800000}}]. *)
Definition hostAtYearOne : Replicas :=
  {| hostCred := Some "-62135596800000"; tmpFiles := ∅; sandboxCred := ∅ |}.

Definition noSandboxes : Engine := withListing deadEngine "".

(** Scenario B of the specification: no replica can be read. *)
Definition nothingReadable : Replicas :=
  {| hostCred := None; tmpFiles := ∅; sandboxCred := ∅ |}.


(** No answer of [grep] outside the modelled fragment is a match. *)
Definition plainTools : RemoteTools :=
  {| grep_beyond := fun _ _ => false |}.

(** One running sandbox without firewall rules. *)
Definition freshRemote : Remote :=
  {| fleet := {[ "mcl-a" := {| dnsmasqConf := []; resolverStarts := 1 |} ]};
     trace := [] |}.

End Fixtures.

(* ===================================================================== *)
(** * The scan in closed form, and [RefreshTokens] of pkg/container *)
(* ===================================================================== *)

Module Sync.
Import GoStrings GoTime Container Cmd.

Section Replica.
Context {RT : GoRuntime}.
Variable F : Faults.

(** The extraction [docker cp <name>:... <tmp>] of the scan succeeds on
    the container [c]. *)
Definition extractable (st : Replicas) (c : Info) : bool :=
  match sandboxCred st !! Name c with
  | Some _ => negb (cpOutFails F (Name c))
  | None => false
  end.

(** The names of the containers whose replica is extracted. *)
Definition extractedNames (st : Replicas) (containers : list Info) : list string :=
  map Name (List.filter (extractable st) containers).

(** The source a container contributes, read off the state before the
    scan: its replica is extracted and parses. *)
Definition readSource (st : Replicas) (c : Info) : option tokenSource :=
  if cpOutFails F (Name c) then None
  else match sandboxCred st !! Name c with
       | None => None
       | Some data =>
           match Unmarshal data with
           | None => None
           | Some cr =>
               Some {| location := Name c; path := TmpPath (Name c); creds := Some cr;
                       expiresAt := UnixMilli (ExpiresAt (ClaudeAiOauth cr)) |}
           end
       end.

End Replica.

Section RefreshOne.
Context {RT : GoRuntime}.
Variable E : Engine.
Variable F : Faults.

(** The variables [freshestPath] and [freshestTime] of [RefreshTokens];
    [EmptyPath] is the empty string. *)
Record Freshest : Type := {
  freshestPath : Path;
  freshestTime : Time
}.

(** The state of its loop: the freshest so far, the files, the extraction
    copies whose removal is deferred. *)
Record Check : Type := {
  best : Freshest;
  held : Replicas;
  pending : list string
}.

(** "Check host credentials". *)
Definition checkHost (st : Replicas) : Freshest :=
  match ReadCredentials st HostCredPath with
  | Some hostCreds =>
      {| freshestPath := HostCredPath;
         freshestTime := UnixMilli (ExpiresAt (ClaudeAiOauth hostCreds)) |}
  | None => {| freshestPath := EmptyPath; freshestTime := GoTime.zero |}
  end.

(** The body of the loop "Check each container's credentials". *)
Definition checkContainer (acc : Check) (c : Info) : Check :=
  let tmpFile := TmpPath (Name c) in
  match cpOut F (held acc) (Name c) with
  | None => acc
  | Some st =>
      let pending' := Name c :: pending acc in
      match ReadCredentials st tmpFile with
      | Some cr =>
          let expiresAt := UnixMilli (ExpiresAt (ClaudeAiOauth cr)) in
          if After expiresAt (freshestTime (best acc))
          then {| best := {| freshestPath := tmpFile; freshestTime := expiresAt |};
                  held := st; pending := pending' |}
          else {| best := best acc; held := st; pending := pending' |}
      | None => {| best := best acc; held := st; pending := pending' |}
      end
  end.

(** The freshest so far stands at [m] milliseconds and is backed by a
    file: nothing read yet ([EmptyPath], at the zero [Time]), the host
    credential file, or the extraction copy of a sandbox, which holds what
    the sandbox held before the scan. *)
Definition backed (st : Replicas) (acc : Check) (m : Z) : Prop :=
  freshestTime (best acc) = UnixMilli m
  /\ match freshestPath (best acc) with
     | EmptyPath => m = zeroUnixMilli /\ ReadCredentials st HostCredPath = None
     | HostCredPath =>
         exists cr, ReadCredentials st HostCredPath = Some cr
                    /\ ExpiresAt (ClaudeAiOauth cr) = m
     | TmpPath n =>
         exists data cr,
           sandboxCred st !! n = Some data /\ tmpFiles (held acc) !! n = Some data
           /\ Unmarshal data = Some cr /\ ExpiresAt (ClaudeAiOauth cr) = m
     end.

(** What [RefreshTokens] returns and leaves behind: the error ([None] is
    [nil]), the files, the writes attempted. *)
Record Refresh : Type := {
  failure : option string;
  left : Replicas;
  writes : list Effect
}.

(** [RefreshTokens]; of a wrapped error the text of the boundary is left
    out. *)
Definition RefreshTokens (containerName : string) (st : Replicas) : Refresh :=
  let host := checkHost st in
  match GetRunningContainers E "mcl-" with
  | None => {| failure := Some "failed to list containers"; left := st; writes := [] |}
  | Some containers =>
      let sc := fold_left checkContainer containers
                  {| best := host; held := st; pending := [] |} in
      let finish (err : option string) (st' : Replicas) (log : list Effect) :=
        {| failure := err; left := runDeferred (pending sc) st'; writes := log |} in
      match freshestPath (best sc) with
      | EmptyPath => finish (Some "no valid credentials found") (held sc) []
      | p =>
          match ReadCredentials (held sc) p with
          | None => finish (Some "failed to read freshest credentials") (held sc) []
          | Some freshCreds =>
              if IsTokenExpired (nowMilli E) freshCreds
              then finish (Some "all tokens are expired") (held sc) []
              else
                match cpIn F (held sc) p containerName with
                | None =>
                    finish (Some "failed to copy credentials to container") (held sc)
                      [CopyToSandbox p containerName false]
                | Some st' =>
                    if chownFails F containerName
                    then finish (Some "failed to fix credentials ownership") st'
                           [CopyToSandbox p containerName true;
                            ChownSandbox containerName false]
                    else finish None st'
                           [CopyToSandbox p containerName true;
                            ChownSandbox containerName true]
                end
          end
      end
  end.

End RefreshOne.

End Sync.

(* ===================================================================== *)
(** * pkg/container: [AddDomainToAllContainers] *)
(* ===================================================================== *)

Module Fanout.
Import GoStrings Container Operations.

Section All.
Context {RT : GoRuntime} {RS : RemoteTools}.
(** [docker ps --filter status=running --format {{.Names}}] *)
Variable ps_names : option string.



End All.

End Fanout.

(* ===================================================================== *)
(** * cmd: interactive selection and stopping dormant containers *)
(* ===================================================================== *)

Module Interactive.
Import GoStrings GoTime Container.

(** What [selectContainer] and [selectContainerForRestart] end in: the
    record chosen, an error, or the run-time panic of an index out of
    range. *)
Inductive Choice : Type :=
| Chosen (c : Info)
| Rejected (msg : string)
| IndexOutOfRange.

Section Select.
Context {RT : GoRuntime}.
(** [container.Display] with [ShowNumbers] and [ShowTable], defined in a
    file that is absent: it prints the table and returns the records in
    the order shown *)
Variable Display : list Info -> list Info.

(** [selectContainer] of connect.go and [selectContainerForRestart] of
    restart.go, the same text but for the heading they print.  [input] is
    what [reader.ReadString] returns, [None] its error.  [strconv.Atoi] is
    [ParseInt(s, 10, 0)], and [int] has 64 bits. *)
Definition selectContainer (containers : list Info) (input : option string) : Choice :=
  let sorted := Display containers in
  match input with
  | None => Rejected "failed to read input"
  | Some line =>
      let input := TrimSpace line in
      match ParseInt input with
      | None => Rejected ("invalid selection: " +:+ input)
      | Some choice =>
          if (choice <? 1) || (Z.of_nat (length sorted) <? choice)
          then Rejected ("invalid selection: " +:+ input)
          else match sorted !! Z.to_nat (choice - 1) with
               | Some c => Chosen c
               | None => IndexOutOfRange
               end
      end
  end.

End Select.

Section Stop.
Context {RT : GoRuntime}.
Variable E : Engine.
(** [config.Containers.Prefix] *)
Variable configPrefix : string.
(** [strings.ToLower] *)
Variable ToLower : string -> string.
(** [docker stop <name>] fails *)
Variable stopFails : string -> bool.

(** What [stopDormantContainers] did: its error ([None] is [nil]), the
    [docker stop] commands it ran, oldest first, each with whether it
    succeeded, and [successCount]. *)
Record Stopping : Type := {
  stopError : option string;
  stops : list (string * bool);
  successCount : nat
}.

(** "Filter for dormant containers". *)
Definition dormantOf (containers : list Info) : list Info :=
  List.filter IsDormant containers.

(** The loop "Stop all dormant containers". *)
Definition stopEach (dormantContainers : list Info) : list (string * bool) * nat :=
  fold_left
    (fun (acc : list (string * bool) * nat) (c : Info) =>
       if stopFails (Name c) then (acc.1 ++ [(Name c, false)], acc.2)
       else (acc.1 ++ [(Name c, true)], S acc.2))
    dormantContainers ([], 0%nat).

(** [stopDormantContainers]; [response] is what [reader.ReadString]
    returns, [None] its error. *)
Definition stopDormantContainers (response : option string) : Stopping :=
  match GetRunningContainers E configPrefix with
  | None =>
      {| stopError := Some "failed to list containers"; stops := []; successCount := 0 |}
  | Some containers =>
      let dormantContainers := dormantOf containers in
      if (length dormantContainers =? 0)%nat
      then {| stopError := None; stops := []; successCount := 0 |}
      else
        match response with
        | None =>
            {| stopError := Some "failed to read input"; stops := []; successCount := 0 |}
        | Some line =>
            let response := TrimSpace (ToLower line) in
            if negb (String.eqb response "y") && negb (String.eqb response "yes")
            then {| stopError := None; stops := []; successCount := 0 |}
            else
              let done := stopEach dormantContainers in
              {| stopError := None; stops := done.1; successCount := done.2 |}
        end
  end.

End Stop.

End Interactive.

(* ===================================================================== *)
(** * pkg/tui/views: the home table *)
(* ===================================================================== *)

Module Views.
Import GoStrings Container.

(** Go's [int], 64 bits: the value of an arithmetic result after
    wrap-around. *)
Definition int (z : Z) : Z := (z + 2 ^ 63) mod 2 ^ 64 - 2 ^ 63.

(** [columnConfig]. *)
Record columnConfig : Type := {
  title : string;
  baseSize : Z;
  minSize : Z
}.

Definition maxTableWidth : Z := 160.

Definition columnConfigs : list columnConfig :=
  [ {| title := "NAME"; baseSize := 25; minSize := 15 |};
    {| title := "STATUS"; baseSize := 14; minSize := 12 |};
    {| title := "BRANCH"; baseSize := 25; minSize := 15 |};
    {| title := "GIT"; baseSize := 10; minSize := 8 |};
    {| title := "ACTIVITY"; baseSize := 12; minSize := 10 |};
    {| title := "AUTH"; baseSize := 12; minSize := 10 |} ].

Definition totalBaseWidth : Z :=
  fold_left (fun total c => int (total + baseSize c)) columnConfigs 0.

(** [table.Column] of the bubbles library: a title and a width. *)
Record Column : Type := {
  Title : string;
  Width : Z
}.

(** The first pass of [calculateColumnWidths] for one column. *)
Definition proportional (usableWidth : Z) (cfg : columnConfig) : Column :=
  let proportionalWidth := Z.quot (int (baseSize cfg * usableWidth)) totalBaseWidth in
  let proportionalWidth :=
    if proportionalWidth <? minSize cfg then minSize cfg else proportionalWidth in
  {| Title := title cfg; Width := proportionalWidth |}.

(** [columns[idx].Width += extraPerColumn]; the indices used are within the
    six columns. *)
Definition widen (extraPerColumn : Z) (columns : list Column) (idx : nat) : list Column :=
  alter (fun c => {| Title := Title c; Width := int (Width c + extraPerColumn) |})
    idx columns.

(** [calculateColumnWidths]. *)
Definition calculateColumnWidths (availableWidth : Z) : list Column :=
  let usableWidth := int (availableWidth - 4) in
  let usableWidth := if usableWidth <? totalBaseWidth then totalBaseWidth else usableWidth in
  let columns := map (proportional usableWidth) columnConfigs in
  let remainingWidth :=
    fold_left (fun remaining c => int (remaining - Width c)) columns usableWidth in
  if 0 <? remainingWidth then
    let expandableIndices := [0%nat; 2%nat] in
    let extraPerColumn := Z.quot remainingWidth (Z.of_nat (length expandableIndices)) in
    fold_left (widen extraPerColumn) expandableIndices columns
  else columns.

(** The sum of the column widths. *)
Definition totalWidth (columns : list Column) : Z :=
  fold_right (fun c total => Width c + total) 0 columns.

(** What [SetSize] hands to the table: its height, its columns, its
    width. *)
Record Sizes : Type := {
  tableHeight : Z;
  tableColumns : list Column;
  tableWidth : Z
}.

(** [SetSize] of the home model. *)
Definition SetSize (width height : Z) : Sizes :=
  let tableHeight := int (height - 4) in
  let tableHeight := if tableHeight <? 5 then 5 else tableHeight in
  let effectiveWidth := width in
  let effectiveWidth :=
    if maxTableWidth <? effectiveWidth then maxTableWidth else effectiveWidth in
  let columns := calculateColumnWidths effectiveWidth in
  {| tableHeight := tableHeight;
     tableColumns := columns;
     tableWidth := if width <=? maxTableWidth then width else maxTableWidth |}.

(** [formatStatus]. *)
Definition formatStatus (c : Info) : string :=
  if String.eqb (Status c) "running" then
    if NeedsAttention c then "⚠️  Waiting" else "● Running"
  else if String.eqb (Status c) "exited" then "■ Stopped"
  else "? " +:+ Status c.

(** [formatBranch], [formatGit], [formatActivity], [formatAuth]: an empty
    field shows as a dash. *)
Definition orDash (field : string) : string :=
  if String.eqb field "" then "—" else field.

(** One row of [updateTableRows]. *)
Definition tableRow (c : Info) : list string :=
  [ShortName c; formatStatus c; orDash (Branch c); orDash (GitStatus c);
   orDash (LastActivity c); orDash (AuthStatus c)].

(** [updateTableRows]. *)
Definition updateTableRows (containers : list Info) : list (list string) :=
  map tableRow containers.

End Views.

(* ===================================================================== *)
(** * cmd: recording a domain in the configuration file *)
(* ===================================================================== *)

Module LocalConfig.
Import GoStrings.

(** The dynamic values behind an [interface{}] of the decoded
    configuration: what [yaml.Unmarshal] stores there, and the [[]string]
    that [updateConfigWithDomain] stores itself. *)
#[warnings="-register-all"]
Inductive Value : Type :=
| VNil                               (* nil *)
| VString (s : string)               (* string *)
| VSeq (items : list Value)          (* []interface{} *)
| VMap (entries : gmap string Value) (* map[string]interface{} *)
| VStrings (items : list string)     (* []string *)
| VOther (kind : nat).               (* a value of any other dynamic type *)

(** [m[key]] on a [map[string]interface{}]: [nil] for a missing key. *)
Definition index (m : gmap string Value) (key : string) : Value :=
  default VNil (m !! key).

(** The errors the function hands on from the library call that failed. *)
Inductive Error : Type :=
| ReadError
| UnmarshalError
| MarshalError
| WriteError.

(** How a call ends: a run-time panic, or a return with its error ([None]
    is [nil]) and the bytes given to [os.WriteFile], if it was called. *)
Inductive Outcome : Type :=
| Panics
| Returns (err : option Error) (written : option string).

(** The configuration file as the call finds it. *)
Record Disk : Type := {
  (** [os.Stat(configPath)] returns no error *)
  statOk : bool;
  (** [os.ReadFile(configPath)], [None] its error *)
  content : option string;
  (** [os.WriteFile(configPath, ...)] fails *)
  writeFails : bool
}.

(** The loop [domains = append(domains, d.(string))]: [None] when an
    element is not a string and the assertion panics. *)
Fixpoint toStrings (existingDomains : list Value) : option (list string) :=
  match existingDomains with
  | [] => Some []
  | VString d :: rest =>
      match toStrings rest with
      | Some domains => Some (d :: domains)
      | None => None
      end
  | _ :: _ => None
  end.

Section Update.
(** [yaml.Unmarshal(content, &configData)]: [None] is its error,
    [Some None] a success that leaves [configData] the nil map it was
    declared as *)
Variable yamlUnmarshal : string -> option (option (gmap string Value)).
(** [yaml.Marshal(configData)], [None] its error *)
Variable yamlMarshal : gmap string Value -> option string.
(** [viper.GetStringSlice("firewall.allowed_domains")] *)
Variable viperDomains : list string.

(** "Read current config": the error returned, or [configData]. *)
Definition readConfig (d : Disk) : Error + option (gmap string Value) :=
  if statOk d then
    match content d with
    | None => inl ReadError
    | Some content =>
        match yamlUnmarshal content with
        | None => inl UnmarshalError
        | Some configData => inr configData
        end
    end
  else inr (Some ∅).

(** The rest of [updateConfigWithDomain], from "Add domain to
    firewall.allowed_domains" on.  A nil [configData] reads as an empty map
    and panics on the first assignment. *)
Definition addDomain (domain : string) (d : Disk)
    (configData : option (gmap string Value)) : Outcome :=
  match configData with
  | None => Panics
  | Some configData =>
      let configData :=
        match index configData "firewall" with
        | VNil => <[ "firewall"%string := VMap ∅ ]> configData
        | _ => configData
        end in
      match index configData "firewall" with
      | VMap firewall =>
          match (match index firewall "allowed_domains" with
                 | VNil => Some viperDomains
                 | VSeq existingDomains => toStrings existingDomains
                 | _ => None
                 end) with
          | None => Panics
          | Some domains =>
              if bool_decide (domain ∈ domains) then Returns None None
              else
                let domains := domains ++ [domain] in
                let firewall := <[ "allowed_domains"%string := VStrings domains ]> firewall in
                let configData := <[ "firewall"%string := VMap firewall ]> configData in
                match yamlMarshal configData with
                | None => Returns (Some MarshalError) None
                | Some output =>
                    Returns (if writeFails d then Some WriteError else None) (Some output)
                end
          end
      | _ => Panics
      end
  end.

(** [updateConfigWithDomain]. *)
Definition updateConfigWithDomain (domain : string) (d : Disk) : Outcome :=
  match readConfig d with
  | inl err => Returns (Some err) None
  | inr configData => addDomain domain d configData
  end.

(** The domains a decoded configuration lists, when it has the shape the
    function expects: the sequence of strings under
    [firewall.allowed_domains], or the defaults where the key or the whole
    section is absent. *)
Definition listed (configData : gmap string Value) : option (list string) :=
  match index configData "firewall" with
  | VNil => Some viperDomains
  | VMap firewall =>
      match index firewall "allowed_domains" with
      | VNil => Some viperDomains
      | VSeq existingDomains => toStrings existingDomains
      | _ => None
      end
  | _ => None
  end.

(** The [firewall] section of a decoded configuration, empty when absent. *)
Definition section (configData : gmap string Value) : gmap string Value :=
  match index configData "firewall" with
  | VMap firewall => firewall
  | _ => ∅
  end.

End Update.

End LocalConfig.

(* ===================================================================== *)
(** * Closed forms used in the statements about the views *)
(* ===================================================================== *)

Module ViewsClosed.
Import Views.

(** The widths [calculateColumnWidths] arrives at for a usable width [u],
    without the loop and the wrap-around: each column's share rounded
    down, and half of what is left over on NAME and on BRANCH. *)
Definition closedForm (u : Z) : list Column :=
  let q := fun b => b * u / 98 in
  let r := u - (q 25 + q 14 + q 25 + q 10 + q 12 + q 12) in
  let e := if 0 <? r then r / 2 else 0 in
  [ {| Title := "NAME"; Width := q 25 + e |};
    {| Title := "STATUS"; Width := q 14 |};
    {| Title := "BRANCH"; Width := q 25 + e |};
    {| Title := "GIT"; Width := q 10 |};
    {| Title := "ACTIVITY"; Width := q 12 |};
    {| Title := "AUTH"; Width := q 12 |} ].

End ViewsClosed.

(* ===================================================================== *)
(** * A sample configuration *)
(* ===================================================================== *)

Module ConfigFixtures.
Import LocalConfig.

(** A configuration that allows one domain and sets one more key. *)
Definition sampleConfig : gmap string Value :=
  {[ "firewall"%string :=
       VMap {[ "allowed_domains"%string := VSeq [VString "github.com"];
               "enabled"%string := VOther 0 ]};
     "containers"%string := VMap {[ "prefix"%string := VString "mcl-" ]} ]}.

(** A decoder that reads every file as [sampleConfig]. *)
Definition readsSample (content : string) : option (option (gmap string Value)) :=
  Some (Some sampleConfig).

(** An encoder that only reports the domains it is given. *)
Definition writesDomains (configData : gmap string Value) : option string :=
  match index configData "firewall" with
  | VMap firewall =>
      match index firewall "allowed_domains" with
      | VStrings domains => Some (GoStrings.Join domains ",")
      | _ => None
      end
  | _ => None
  end.

Definition sampleDisk : Disk :=
  {| statOk := true; content := Some "firewall: ..."; writeFails := false |}.

(** A decoder for an empty file: [configData] stays nil. *)
Definition readsNothing (content : string) : option (option (gmap string Value)) :=
  Some None.

End ConfigFixtures.

(* ===================================================================== *)
(** * cmd: file sizes; pkg/container: the environment of a container *)
(* ===================================================================== *)

Module Apps.
Import GoStrings Container Views.

(** How [formatFileSize] ends: the text, the run-time panic of an index
    out of range, or a loop that is still running when the bound of the
    model is reached. *)
Inductive Formatted : Type :=
| Text (s : string)
| IndexOutOfRange
| StillRunning.

(** [const unit = 1024]. *)
Definition unit : Z := 1024.

(** The loop [for n := ...; n >= unit; n /= unit { div *= unit; exp++ }]
    from the state [n], [div], [exp], at most [bound] rounds of it. *)
Fixpoint scale (bound : nat) (n div exp : Z) : option (Z * Z) :=
  if n >=? unit then
    match bound with
    | O => None
    | S bound => scale bound (Z.quot n unit) (int (div * unit)) (int (exp + 1))
    end
  else Some (div, exp).

Section Format.
Context {RT : GoRuntime}.
(** [fmt.Sprintf("%d", n)] *)
Variable Sprintf_d : Z -> string.

(** [formatFileSize]; the loop divides [n] by 1024 in every round, so 64
    rounds bound it. *)
Definition formatFileSize (bytes : Z) : Formatted :=
  if bytes <? unit then Text (Sprintf_d bytes +:+ " B")
  else
    match scale 64 (Z.quot bytes unit) unit 0 with
    | None => StillRunning
    | Some (div, exp) =>
        if (exp <? 0) || (Z.of_nat (len "KMGTPE") <=? exp) then IndexOutOfRange
        else
          match String.get (Z.to_nat exp) "KMGTPE" with
          | Some c => Text (Sprintf_f 1 bytes div +:+ " " +:+ String c "B")
          | None => IndexOutOfRange
          end
    end.

End Format.

End Apps.

Module Details.
Import GoStrings LocalConfig.

(** [strings.Contains(s, substr)]: [substr] occurs in [s]. *)
Fixpoint Contains (s substr : string) : bool :=
  HasPrefix s substr ||
  match s with
  | EmptyString => false
  | String _ rest => Contains rest substr
  end.

(** The test of the block "Filter out sensitive variables". *)
Definition shown (envStr : string) : bool :=
  negb (Contains envStr "TOKEN") && negb (Contains envStr "SECRET") &&
  negb (Contains envStr "PASSWORD").

(** [details.Environment] as the block "Extract environment variables
    (filter sensitive ones)" of [GetContainerDetails] leaves it; nothing
    else in the function writes the field.  [data] is the first element
    of the decoded [docker inspect] output, with the dynamic types of
    [json.Unmarshal]: objects, arrays, strings, and others. *)
Definition Environment (data : gmap string Value) : list string :=
  match index data "Config" with
  | VMap config =>
      match index config "Env" with
      | VSeq env =>
          fold_left
            (fun environment e =>
               match e with
               | VString envStr =>
                   if shown envStr then environment ++ [envStr] else environment
               | _ => environment
               end)
            env []
      | _ => []
      end
  | _ => []
  end.

End Details.

(* ===================================================================== *)
(** * cmd: choosing the container to connect to *)
(* ===================================================================== *)

Module Connect.
Import GoStrings GoTime Container Cmd Interactive.

(** How [runConnect] ends: it runs [tmux attach] in a container and
    returns that command's error, it returns an error of its own, or it
    panics. *)
Inductive Connection : Type :=
| Attach (containerName : string)
| Fails (msg : string)
| Panics.

Section RunConnect.
Context {RT : GoRuntime}.
Variable E : Engine.
(** [config.Containers.Prefix] *)
Variable configPrefix : string.
(** [container.Display], defined in a file that is absent *)
Variable Display : list Info -> list Info.
(** [resolveContainerName], defined in a file that is absent *)
Variable resolveContainerName : string -> string.
(** [docker ps --filter name=<containerName> --format {{.State}}] *)
Variable ps_state : string -> option string.

(** [runConnect]; [input] is the line typed at the selection prompt.  The
    two listings are those of [runRefreshTokens].  Of the error texts the
    part before the first period or colon is kept. *)
Definition runConnect (args : list string) (input : option string) : Connection :=
  match args with
  | [] =>
      match listContainers E configPrefix with
      | None => Fails "failed to get running containers"
      | Some containers =>
          if (length containers =? 0)%nat then Fails "no running containers found"
          else if (length containers =? 1)%nat then
            match containers with
            | c :: _ => Attach (Name c)
            | [] => Panics
            end
          else
            match selectContainer Display containers input with
            | Chosen selected => Attach (Name selected)
            | Rejected msg => Fails msg
            | IndexOutOfRange => Panics
            end
      end
  | shortName :: _ =>
      let containerName := resolveContainerName shortName in
      match ps_state containerName with
      | None => Fails "failed to check container status"
      | Some output =>
          let state := TrimSpace output in
          if String.eqb state "" then Fails ("container " +:+ shortName +:+ " not found")
          else if negb (String.eqb state "running")
          then Fails ("container " +:+ shortName +:+ " is not running")
          else Attach containerName
      end
  end.

End RunConnect.

End Connect.

(* ===================================================================== *)
(** * Two running sandboxes *)
(* ===================================================================== *)

Module FanoutFixtures.
Import GoStrings Operations.




End FanoutFixtures.

(* ===================================================================== *)
(** * Properties *)
(* ===================================================================== *)

Module StringFacts.
Import GoStrings.

Lemma append_nil (b : string) : EmptyString +:+ b = b.
Proof. reflexivity. Qed.

Lemma append_cons (c : ascii) (a b : string) : String c a +:+ b = String c (a +:+ b).
Proof. reflexivity. Qed.

Ltac push_app := rewrite ?append_cons, ?append_nil in *; simpl in *.

Lemma len_app (a b : string) : len (a +:+ b) = (len a + len b)%nat.
Proof. unfold len. induction a as [|c a IH]; push_app; [reflexivity | now rewrite IH]. Qed.

Lemma substring_whole (s : string) : String.substring 0 (String.length s) s = s.
Proof. induction s as [|c s IH]; simpl; [reflexivity | now rewrite IH]. Qed.

Lemma substring_head (p r : string) :
  String.substring 0 (String.length p) (p +:+ r) = p.
Proof.
  induction p as [|c p IH]; push_app.
  - now destruct r.
  - now rewrite IH.
Qed.

Lemma substring_skip (p r : string) (n : nat) :
  String.substring (String.length p) n (p +:+ r) = String.substring 0 n r.
Proof. induction p as [|c p IH]; push_app; [reflexivity | exact IH]. Qed.

Lemma slice_head (p r : string) : slice (p +:+ r) 0 (len p) = p.
Proof. unfold slice, len. rewrite Nat.sub_0_r. apply substring_head. Qed.

Lemma slice_tail (p r : string) : slice (p +:+ r) (len p) (len (p +:+ r)) = r.
Proof.
  unfold slice. rewrite len_app.
  replace (len p + len r - len p)%nat with (len r) by lia.
  unfold len. rewrite substring_skip. apply substring_whole.
Qed.

Lemma HasPrefix_app (p r : string) : HasPrefix (p +:+ r) p = true.
Proof.
  unfold HasPrefix. rewrite slice_head, String.eqb_refl, andb_true_r.
  apply Nat.leb_le. rewrite len_app. lia.
Qed.

(** A string that starts with [p] is [p] followed by its tail. *)
Lemma substring_head_inv (p s : string) :
  String.substring 0 (String.length p) s = p ->
  s = p +:+ String.substring (String.length p) (String.length s - String.length p) s.
Proof.
  revert s. induction p as [|c p IH]; intros s H; push_app.
  - rewrite Nat.sub_0_r. now rewrite substring_whole.
  - destruct s as [|d s]; simpl in *; [discriminate |].
    injection H as -> H. f_equal. now apply IH.
Qed.

Lemma HasPrefix_inv (s p : string) :
  HasPrefix s p = true -> s = p +:+ slice s (len p) (len s).
Proof.
  unfold HasPrefix, slice, len. intros H.
  apply andb_true_iff in H as [_ H]. apply String.eqb_eq in H.
  rewrite Nat.sub_0_r in H. now apply substring_head_inv.
Qed.

Lemma HasPrefix_spec (s p : string) :
  HasPrefix s p = true <-> exists r, s = p +:+ r.
Proof.
  split.
  - intros H. eexists. now apply HasPrefix_inv.
  - intros [r ->]. apply HasPrefix_app.
Qed.

Lemma append_inv_head (p a b : string) : p +:+ a = p +:+ b -> a = b.
Proof. induction p as [|c p IH]; push_app; [easy | intros H; injection H; auto]. Qed.

Lemma append_assoc (a b c : string) : (a +:+ b) +:+ c = a +:+ (b +:+ c).
Proof. induction a as [|x a IH]; push_app; [reflexivity | now rewrite IH]. Qed.

Lemma free_of_app (c : ascii) (a b : string) :
  free_of c (a +:+ b) = free_of c a && free_of c b.
Proof.
  induction a as [|x a IH]; push_app; [reflexivity |].
  rewrite IH. now rewrite andb_assoc.
Qed.

Lemma Split_not_nil (s : string) (c : ascii) : Split s c <> [].
Proof.
  induction s as [|x s IH]; simpl; [easy |].
  destruct (Ascii.eqb x c); [easy |]. now destruct (Split s c).
Qed.

(** Without the separator there is one piece. *)
Lemma Split_free (s : string) (c : ascii) : free_of c s = true -> Split s c = [s].
Proof.
  induction s as [|x s IH]; simpl; [reflexivity |].
  intros H. apply andb_true_iff in H as [Hx Hs].
  apply negb_true_iff in Hx. rewrite Hx, (IH Hs). reflexivity.
Qed.

(** The first piece ends at the first separator. *)
Lemma Split_app (a b : string) (c : ascii) :
  free_of c a = true -> Split (a +:+ String c b) c = a :: Split b c.
Proof.
  induction a as [|x a IH]; push_app.
  - intros _. now rewrite Ascii.eqb_refl.
  - intros H. apply andb_true_iff in H as [Hx Ha].
    apply negb_true_iff in Hx. rewrite Hx, (IH Ha). reflexivity.
Qed.

(** [Split] undoes [Join] on pieces free of the separator; the empty list of
    pieces joins to the empty string, which splits into one empty piece. *)
Lemma Split_Join (pieces : list string) (c : ascii) :
  Forall (fun p => free_of c p = true) pieces ->
  Split (Join pieces (String c EmptyString)) c =
  match pieces with [] => [EmptyString] | _ => pieces end.
Proof.
  induction 1 as [|p ps Hp Hps IH]; [reflexivity |].
  destruct ps as [|q ps].
  - simpl. now apply Split_free.
  - change (Join (p :: q :: ps) (String c EmptyString))
      with (p +:+ String c EmptyString +:+ Join (q :: ps) (String c EmptyString)).
    change (String c EmptyString +:+ Join (q :: ps) (String c EmptyString))
      with (String c (Join (q :: ps) (String c EmptyString))).
    rewrite (Split_app _ _ _ Hp), IH. reflexivity.
Qed.

End StringFacts.

Module TimeFacts.
Import GoTime.

Lemma rem_1000 (m : Z) : -1000 < Z.rem m 1000 < 1000.
Proof. pose proof (Z.rem_bound_abs m 1000 ltac:(lia)). lia. Qed.

(** [UnixMilli] of an [int64] stays within [int64]: the addition of
    [unixToInternal] does not wrap. *)
Lemma UnixMilli_sec_int64 (msec : Z) :
  int64_min <= msec <= int64_max ->
  int64_min <= ext (UnixMilli msec) <= int64_max /\ 0 <= nsec (UnixMilli msec) < 1000000000.
Proof.
  unfold int64_min, int64_max, UnixMilli, Unix, unixToInternal. intros H.
  pose proof (Z.quot_rem' msec 1000) as Hqr.
  pose proof (rem_1000 msec) as Hr.
  set (q := Z.quot msec 1000) in *. set (r := Z.rem msec 1000) in *.
  assert (Hq0 : Z.quot (r * 1000000) 1000000000 = 0).
  { apply Z.quot_small_iff; [lia |]. lia. }
  change (2 ^ 63) with 9223372036854775808 in *.
  change ((1969 * 365 + 1969 / 4 - 1969 / 100 + 1969 / 400) * 86400) with 62135596800.
  destruct ((r * 1000000 <? 0) || (1000000000 <=? r * 1000000)) eqn:Hc.
  - rewrite Hq0. cbn zeta.
    destruct (r * 1000000 - 0 * 1000000000 <? 0) eqn:Hn; simpl;
      [apply Z.ltb_lt in Hn | apply Z.ltb_ge in Hn]; lia.
  - apply orb_false_iff in Hc as [H1 H2].
    apply Z.ltb_ge in H1. apply Z.leb_gt in H2. simpl. lia.
Qed.

(** [UnixMilli] in closed form: floor division by 1000. *)
Lemma UnixMilli_floor (msec : Z) :
  UnixMilli msec =
  {| ext := msec / 1000 + unixToInternal; nsec := (msec mod 1000) * 1000000 |}.
Proof.
  unfold UnixMilli, Unix.
  pose proof (Z.quot_rem' msec 1000) as Hqr.
  pose proof (Z.div_mod msec 1000 ltac:(lia)) as Hdm.
  pose proof (Z.mod_pos_bound msec 1000 ltac:(lia)) as Hm.
  pose proof (rem_1000 msec) as Hr.
  set (q := Z.quot msec 1000) in *. set (r := Z.rem msec 1000) in *.
  assert (Hq0 : Z.quot (r * 1000000) 1000000000 = 0).
  { apply Z.quot_small_iff; [lia |]. lia. }
  destruct ((r * 1000000 <? 0) || (1000000000 <=? r * 1000000)) eqn:Hc.
  - rewrite Hq0. cbn zeta.
    destruct (r * 1000000 - 0 * 1000000000 <? 0) eqn:Hn;
      [apply Z.ltb_lt in Hn | apply Z.ltb_ge in Hn].
    + assert (msec / 1000 = q - 1 /\ msec mod 1000 = r + 1000) as [-> ->] by lia.
      f_equal; lia.
    + apply orb_true_iff in Hc as [H1 | H1];
        [apply Z.ltb_lt in H1 | apply Z.leb_le in H1]; lia.
  - apply orb_false_iff in Hc as [H1 H2].
    apply Z.ltb_ge in H1. apply Z.leb_gt in H2.
    assert (msec / 1000 = q /\ msec mod 1000 = r) as [-> ->] by lia.
    f_equal; lia.
Qed.

(** On times made by [UnixMilli], [After] is [>] on the milliseconds. *)
Lemma After_UnixMilli (a b : Z) : After (UnixMilli a) (UnixMilli b) = (b <? a).
Proof.
  rewrite !UnixMilli_floor. unfold After. simpl.
  pose proof (Z.div_mod a 1000 ltac:(lia)).
  pose proof (Z.div_mod b 1000 ltac:(lia)).
  pose proof (Z.mod_pos_bound a 1000 ltac:(lia)).
  pose proof (Z.mod_pos_bound b 1000 ltac:(lia)).
  destruct (b <? a) eqn:Hba; [apply Z.ltb_lt in Hba | apply Z.ltb_ge in Hba].
  - apply orb_true_iff.
    destruct (Z_lt_ge_dec (b / 1000) (a / 1000)) as [Hlt | Hge].
    + left. apply Z.ltb_lt. lia.
    + right. apply andb_true_iff. split; [apply Z.eqb_eq | apply Z.ltb_lt]; lia.
  - apply orb_false_iff. split; [apply Z.ltb_ge; lia |].
    apply andb_false_iff.
    destruct (Z.eq_dec (a / 1000) (b / 1000)) as [Heq | Hne].
    + right. apply Z.ltb_ge. lia.
    + left. apply Z.eqb_neq. lia.
Qed.

Lemma UnixMilli_zero : UnixMilli zeroUnixMilli = zero.
Proof. reflexivity. Qed.

(** Against the zero [Time]: later than year 1. *)
Lemma After_zero (a : Z) : After (UnixMilli a) zero = (zeroUnixMilli <? a).
Proof. rewrite <- UnixMilli_zero. apply After_UnixMilli. Qed.

End TimeFacts.

(* --------------------------------------------------------------------- *)
(** ** Credential store reader and short names *)
(* --------------------------------------------------------------------- *)

Module CredentialSpec.
Import GoStrings GoTime Container Fixtures StringFacts.

(** C1, counterexample.  A credential whose [ExpiresAt] equals the current
    time in milliseconds is not classified as expired: the inclusive reading
    "expired exactly when expiresAt <= now" fails at the boundary. *)
Lemma C1_boundary_counterexample :
  ~ (IsTokenExpired noon (credsAt noon) = true
     <-> ExpiresAt (ClaudeAiOauth (credsAt noon)) <= noon).
Proof.
  intros [_ H]. assert (Hle : ExpiresAt (ClaudeAiOauth (credsAt noon)) <= noon) by (simpl; lia).
  specialize (H Hle). vm_compute in H. discriminate H.
Qed.

(** C1, as amended.  For every credential and every time [now],
    [IsTokenExpired] classifies the credential as expired exactly when
    [expiresAt < now]; a credential whose [expiresAt] equals [now] is
    classified as not expired. *)
Theorem C1_expired_iff_strictly_before (now : Z) (creds : Credentials) :
  (IsTokenExpired now creds = true <-> ExpiresAt (ClaudeAiOauth creds) < now)
  /\ IsTokenExpired (ExpiresAt (ClaudeAiOauth creds)) creds = false.
Proof.
  unfold IsTokenExpired. split.
  - apply Z.ltb_lt.
  - apply Z.ltb_irrefl.
Qed.

(** C8.  If [N] is [P] followed by [R] then [GetShortName N P] is [R]: one
    leading occurrence of [P] is removed and nothing else; if [N] does not
    start with [P] then [GetShortName N P] is [N].  The result depends on
    [N] and [P] alone. *)
Theorem C8_GetShortName_strips_one_prefix (N P : string) :
  (forall R, N = P +:+ R -> GetShortName N P = R)
  /\ ((forall R, N <> P +:+ R) -> GetShortName N P = N).
Proof.
  unfold GetShortName. split.
  - intros R ->. rewrite HasPrefix_app. apply slice_tail.
  - intros Hno. destruct (HasPrefix N P) eqn:Hp; [| reflexivity].
    apply HasPrefix_spec in Hp as [R HR]. now destruct (Hno R).
Qed.

(** C8 at ["mcl-mcl-x"], which starts with ["mcl-"] twice, and at
    ["other-bar"], which does not start with it. *)
Lemma C8_GetShortName_witness :
  GetShortName "mcl-mcl-x" "mcl-" = "mcl-x"
  /\ GetShortName "other-bar" "mcl-" = "other-bar".
Proof.
  split.
  - apply (proj1 (C8_GetShortName_strips_one_prefix "mcl-mcl-x" "mcl-") "mcl-x").
    reflexivity.
  - apply (proj2 (C8_GetShortName_strips_one_prefix "other-bar" "mcl-")).
    intros R H. vm_compute in H. discriminate H.
Defined.

End CredentialSpec.

(* --------------------------------------------------------------------- *)
(** ** Sandbox registry query *)
(* --------------------------------------------------------------------- *)

Module ListingFacts.
Import GoStrings GoTime Container Listing StringFacts.

Lemma TAB_app (s : string) : TAB +:+ s = String tab s.
Proof. reflexivity. Qed.

Lemma LF_app (s : string) : LF +:+ s = String newline s.
Proof. reflexivity. Qed.

Lemma wellFormed_cols (r : Row) :
  wellFormed r = true ->
  (free_of tab (rname r) = true /\ free_of tab (rstatus r) = true
   /\ free_of tab (rstate r) = true /\ free_of tab (rcreated r) = true)
  /\ (free_of newline (rname r) = true /\ free_of newline (rstatus r) = true
      /\ free_of newline (rstate r) = true /\ free_of newline (rcreated r) = true).
Proof.
  unfold wellFormed. simpl. rewrite !andb_true_iff. tauto.
Qed.

(** The four columns come back from a rendered row. *)
Lemma Split_renderRow (r : Row) :
  wellFormed r = true ->
  Split (renderRow r) tab = [rname r; rstatus r; rstate r; rcreated r].
Proof.
  intros Hwf. destruct (wellFormed_cols r Hwf) as [(Hn & Hs & Ht & Hc) _].
  unfold renderRow. rewrite !TAB_app.
  rewrite (Split_app _ _ _ Hn), (Split_app _ _ _ Hs), (Split_app _ _ _ Ht).
  now rewrite (Split_free _ _ Hc).
Qed.

Lemma renderRow_free (r : Row) :
  wellFormed r = true -> free_of newline (renderRow r) = true.
Proof.
  intros Hwf. destruct (wellFormed_cols r Hwf) as [_ (Hn & Hs & Ht & Hc)].
  unfold renderRow. rewrite !free_of_app, Hn, Hs, Ht, Hc. reflexivity.
Qed.

Lemma renderRow_not_empty (r : Row) : String.eqb (renderRow r) "" = false.
Proof.
  unfold renderRow. rewrite TAB_app. destruct (rname r); reflexivity.
Qed.

Lemma omap_cons {A B : Type} (f : A -> option B) (x : A) (l : list A) :
  omap f (x :: l) = match f x with Some y => y :: omap f l | None => omap f l end.
Proof. reflexivity. Qed.

Section Parsing.
Context {RT : GoRuntime}.

Lemma parseLine_empty (P : string) : parseLine P "" = None.
Proof. reflexivity. Qed.

(** A line with fewer than four columns is skipped. *)
Lemma parseLine_short (P x : string) :
  (length (Split x tab) < 4)%nat -> parseLine P x = None.
Proof.
  intros H. unfold parseLine. destruct (String.eqb x ""); [reflexivity |].
  apply Nat.ltb_lt in H. now rewrite H.
Qed.

(** A line that gives a record is not empty and has four columns. *)
Lemma parseLine_Some (P x : string) (b : basicInfo) :
  parseLine P x = Some b ->
  x <> ""%string /\ (4 <= length (Split x tab))%nat
  /\ name b = nth 0 (Split x tab) ""%string
  /\ HasPrefix (name b) P = true.
Proof.
  unfold parseLine. destruct (String.eqb x "") eqn:Hx; [discriminate |].
  destruct (length (Split x tab) <? 4)%nat eqn:Hlen; [discriminate |].
  destruct (HasPrefix (nth 0 (Split x tab) ""%string) P) eqn:Hp; [| discriminate].
  simpl. intros [= <-]. simpl. apply String.eqb_neq in Hx. apply Nat.ltb_ge in Hlen.
  auto.
Qed.

(** A rendered row is parsed back, and kept iff its name has the prefix. *)
Lemma parseLine_renderRow (P : string) (r : Row) :
  wellFormed r = true ->
  parseLine P (renderRow r) =
  if HasPrefix (rname r) P then Some (basicOf r) else None.
Proof.
  intros Hwf. unfold parseLine.
  rewrite renderRow_not_empty, (Split_renderRow r Hwf). simpl.
  destruct (HasPrefix (rname r) P); reflexivity.
Qed.

(** The parsing loop on a rendered listing: the matching rows, in order. *)
Lemma parseListing_render (P : string) (rows : list Row) :
  Forall (fun r => wellFormed r = true) rows ->
  parseListing P (renderListing rows) = map basicOf (matching P rows).
Proof.
  unfold parseListing, matching.
  induction 1 as [|r rows Hwf Hrows IH]; [reflexivity |].
  simpl renderListing. rewrite LF_app.
  rewrite (Split_app _ _ _ (renderRow_free r Hwf)), omap_cons.
  rewrite (parseLine_renderRow P r Hwf), IH, filter_cons.
  destruct (HasPrefix (rname r) P) eqn:Hp; case_decide; try congruence; reflexivity.
Qed.

(** The parsing loop on joined lines: line by line. *)
Lemma parseListing_Join (P : string) (lines : list string) :
  Forall (fun l => free_of newline l = true) lines ->
  parseListing P (Join lines LF) = omap (parseLine P) lines.
Proof.
  intros H. unfold parseListing, LF. rewrite (Split_Join _ _ H).
  now destruct lines.
Qed.

Lemma names_of_matching (P : string) (rows : list Row) :
  map name (map basicOf (matching P rows)) =
  filter (fun n => HasPrefix n P = true) (map rname rows).
Proof.
  unfold matching. induction rows as [|r rows IH]; [reflexivity |].
  simpl map at 3. rewrite !filter_cons.
  repeat case_decide; simpl; try congruence; contradiction.
Qed.

(** The record of a row depends on the engine through the probes on that
    row only. *)
Lemma fetchAll_ext (E E' : Engine) (P : string) (b : basicInfo) :
  sameProbes E E' (name b) -> fetchAll E P b = fetchAll E' P b.
Proof.
  intros (Hn & Hb & Hf & Hc & Hcp & Ha & Ht & Hd & Hah & Hbe).
  unfold fetchAll, GetBranchName, CheckBellStatus, IsClaudeRunning, GetAuthStatus,
    GetLastActivity, GetGitStatus, TimeUntilExpiration, nowMilli.
  now rewrite Hn, Hb, Hf, Hc, Hcp, Ha, Ht, Hd, Hah, Hbe.
Qed.

Lemma fetchRunning_ext (E E' : Engine) (P : string) (b : basicInfo) :
  sameProbes E E' (name b) -> fetchRunning E P b = fetchRunning E' P b.
Proof.
  intros (_ & Hb & Hf & Hc & _).
  unfold fetchRunning, GetBranchName, CheckBellStatus, IsClaudeRunning.
  now rewrite Hb, Hf, Hc.
Qed.

(** Every record of the parsing loop has a name with the prefix. *)
Lemma parseListing_prefixed (P output : string) (b : basicInfo) :
  In b (parseListing P output) -> HasPrefix (name b) P = true.
Proof.
  unfold parseListing. intros Hb.
  apply list_elem_of_In, list_elem_of_omap in Hb as (line & _ & Hline).
  now destruct (parseLine_Some P line b Hline) as (_ & _ & _ & Hp).
Qed.

Lemma fetchAll_Name (E : Engine) (P : string) (b : basicInfo) :
  Name (fetchAll E P b) = name b.
Proof. unfold fetchAll. now destruct (String.eqb (state b) "running"). Qed.

Lemma fetchAll_names (E : Engine) (P : string) (bs : list basicInfo) :
  map Name (map (fetchAll E P) bs) = map name bs.
Proof.
  rewrite map_map. apply map_ext. intros b. apply fetchAll_Name.
Qed.

Lemma fetchRunning_names (E : Engine) (P : string) (bs : list basicInfo) :
  map Name (map (fetchRunning E P) bs) = map name bs.
Proof. rewrite map_map. now apply map_ext. Qed.

End Parsing.

End ListingFacts.

Module RegistrySpec.
Import GoStrings GoTime Container Listing Fixtures StringFacts ListingFacts.

Section Query.
Context {RT : GoRuntime}.

(** C6.  For every prefix [P] and every listing of well-formed rows, both
    registry queries return one record per row whose name starts with [P],
    in listing order, and nothing else: the names of the result are the
    names of the listing filtered by [HasPrefix _ P].  The detail fetcher
    ([fetchRunning], [fetchAll]) is applied to the rows kept only, so a row
    that does not start with [P] is not processed further: the result is
    the same on any engine that prints the same listing and answers the
    probes alike on the names that start with [P]. *)
Theorem C6_query_returns_exactly_prefixed_rows
    (E : Engine) (P : string) (rows : list Row) :
  Forall (fun r => wellFormed r = true) rows ->
  (forall E',
     docker_ps E' = docker_ps E -> docker_ps_all E' = docker_ps_all E ->
     (forall n, HasPrefix n P = true -> sameProbes E E' n) ->
     GetRunningContainers E' P = GetRunningContainers E P
     /\ GetAllContainers E' P = GetAllContainers E P)
  /\ (docker_ps E = Some (renderListing rows) ->
   exists l, GetRunningContainers E P = Some l
             /\ l = map (fetchRunning E P) (map basicOf (matching P rows))
             /\ map Name l = filter (fun n => HasPrefix n P = true) (map rname rows))
  /\ (docker_ps_all E = Some (renderListing rows) ->
      exists l, GetAllContainers E P = Some l
                /\ l = map (fetchAll E P) (map basicOf (matching P rows))
                /\ map Name l = filter (fun n => HasPrefix n P = true) (map rname rows)).
Proof.
  intros Hwf. split; [| split; intros Hout].
  - intros E' Hps Hpsa Hsame. unfold GetRunningContainers, GetAllContainers.
    rewrite Hps, Hpsa. split.
    + destruct (docker_ps E) as [out |]; [| reflexivity]. f_equal.
      apply map_ext_in. intros b Hb. symmetry. apply fetchRunning_ext, Hsame.
      now apply (parseListing_prefixed P out).
    + destruct (docker_ps_all E) as [out |]; [| reflexivity]. f_equal.
      apply map_ext_in. intros b Hb. symmetry. apply fetchAll_ext, Hsame.
      now apply (parseListing_prefixed P out).
  - unfold GetRunningContainers. rewrite Hout, (parseListing_render P rows Hwf).
    eexists. split; [reflexivity |]. split; [reflexivity |].
    rewrite fetchRunning_names. apply names_of_matching.
  - unfold GetAllContainers. rewrite Hout, (parseListing_render P rows Hwf).
    eexists. split; [reflexivity |]. split; [reflexivity |].
    rewrite fetchAll_names. apply names_of_matching.
Qed.

(** A kept row is found in the result with its columns. *)
Lemma kept_row_in_result (P : string) (rows : list Row) (r : Row)
    (fetch : basicInfo -> Info) :
  In r rows -> HasPrefix (rname r) P = true ->
  In (fetch (basicOf r)) (map fetch (map basicOf (matching P rows))).
Proof.
  intros Hin Hp. apply in_map, in_map. unfold matching.
  apply list_elem_of_In, list_elem_of_filter. split; [exact Hp |].
  now apply list_elem_of_In.
Qed.

(** C7.  A row of a well-formed listing whose name starts with the prefix
    and whose creation time does not parse is kept by both registry
    queries: the query does not fail, no matching row is dropped, and the
    record of that row carries its name, state and status and the zero
    [time.Time] as creation time. *)
Theorem C7_unparsable_creation_time_keeps_row
    (E : Engine) (P : string) (rows : list Row) (r : Row) :
  Forall (fun r => wellFormed r = true) rows ->
  In r rows ->
  HasPrefix (rname r) P = true ->
  ParseCreatedAt (rcreated r) = None ->
  (docker_ps E = Some (renderListing rows) ->
   exists l info, GetRunningContainers E P = Some l
     /\ length l = length (matching P rows)
     /\ In info l /\ Name info = rname r /\ Status info = rstate r
     /\ StatusDetails info = rstatus r /\ CreatedAt info = GoTime.zero)
  /\ (docker_ps_all E = Some (renderListing rows) ->
      exists l info, GetAllContainers E P = Some l
        /\ length l = length (matching P rows)
        /\ In info l /\ Name info = rname r /\ Status info = rstate r
        /\ StatusDetails info = rstatus r /\ CreatedAt info = GoTime.zero).
Proof.
  intros Hwf Hin Hp Hparse.
  split; intros Hout.
  - exists (map (fetchRunning E P) (map basicOf (matching P rows))),
           (fetchRunning E P (basicOf r)).
    split.
    { unfold GetRunningContainers. now rewrite Hout, (parseListing_render P rows Hwf). }
    split; [now rewrite !length_map |].
    split; [now apply kept_row_in_result |].
    unfold fetchRunning, basicOf. simpl. now rewrite Hparse.
  - exists (map (fetchAll E P) (map basicOf (matching P rows))),
           (fetchAll E P (basicOf r)).
    split.
    { unfold GetAllContainers. now rewrite Hout, (parseListing_render P rows Hwf). }
    split; [now rewrite !length_map |].
    split; [now apply kept_row_in_result |].
    unfold fetchAll, basicOf. simpl. rewrite Hparse.
    now destruct (String.eqb (rstate r) "running").
Qed.

(** C10.  An empty line and a line with fewer than four tab-separated
    columns produce no record and no error: the parsing loop skips such a
    line, both registry queries succeed and return the same records on a
    listing with the line as on the listing without it, and on every
    output every record of the parsing loop comes from a line that is not
    empty and has at least four columns. *)
Theorem C10_blank_and_short_lines_are_skipped
    (E : Engine) (P : string) (before after : list string) (x : string) :
  Forall (fun l => free_of newline l = true) (before ++ x :: after) ->
  x = ""%string \/ (length (Split x tab) < 4)%nat ->
  parseLine P x = None
  /\ (forall output b, In b (parseListing P output) ->
        exists line, In line (Split output newline) /\ parseLine P line = Some b
                     /\ line <> ""%string /\ (4 <= length (Split line tab))%nat)
  /\ (exists l, GetRunningContainers (withListing E (Join (before ++ x :: after) LF)) P = Some l
                /\ GetRunningContainers (withListing E (Join (before ++ after) LF)) P = Some l)
  /\ (exists l, GetAllContainers (withListing E (Join (before ++ x :: after) LF)) P = Some l
                /\ GetAllContainers (withListing E (Join (before ++ after) LF)) P = Some l).
Proof.
  intros Hfree Hx.
  assert (Hskip : parseLine P x = None).
  { destruct Hx as [-> | Hx]; [apply parseLine_empty | now apply parseLine_short]. }
  assert (Hfree' : Forall (fun l => free_of newline l = true) (before ++ after)).
  { apply Forall_app in Hfree as [Hb Ha]. apply Forall_app. split; [exact Hb |].
    now apply Forall_cons_1 in Ha as [_ Ha]. }
  assert (Hsame : parseListing P (Join (before ++ x :: after) LF)
                  = parseListing P (Join (before ++ after) LF)).
  { rewrite (parseListing_Join P _ Hfree), (parseListing_Join P _ Hfree').
    rewrite !omap_app, omap_cons, Hskip. reflexivity. }
  split; [exact Hskip |]. split; [| split].
  - intros output b Hb. unfold parseListing in Hb.
    apply list_elem_of_In, list_elem_of_omap in Hb as (line & Hin & Hline).
    exists line. split; [now apply list_elem_of_In |]. split; [exact Hline |].
    destruct (parseLine_Some P line b Hline) as (Hne & Hlen & _). now split.
  - unfold GetRunningContainers, withListing; cbn [docker_ps]. rewrite Hsame.
    eexists. split; reflexivity.
  - unfold GetAllContainers, withListing; cbn [docker_ps_all]. rewrite Hsame.
    eexists. split; reflexivity.
Qed.

End Query.

(** C6 on scenario C of the specification: the rows [mcl-foo], [other-bar],
    [mcl-baz] filtered by ["mcl-"] give exactly [mcl-foo], [mcl-baz]. *)
Lemma C6_scenario_C_witness :
  Forall (fun r => wellFormed r = true) scenarioC
  /\ (exists l, @GetRunningContainers plainRuntime
                  (withListing deadEngine (renderListing scenarioC)) "mcl-" = Some l
                /\ map Name l = ["mcl-foo"; "mcl-baz"]%string)
  /\ (exists l, @GetAllContainers plainRuntime
                  (withListing deadEngine (renderListing scenarioC)) "mcl-" = Some l
                /\ map Name l = ["mcl-foo"; "mcl-baz"]%string).
Proof.
  assert (Hwf : Forall (fun r => wellFormed r = true) scenarioC)
    by (repeat constructor).
  destruct (@C6_query_returns_exactly_prefixed_rows plainRuntime
              (withListing deadEngine (renderListing scenarioC)) "mcl-" scenarioC Hwf)
    as (_ & HR & HA).
  split; [exact Hwf |]. split.
  - destruct (HR eq_refl) as (l & Hl & _ & Hn). exists l. split; [exact Hl |].
    rewrite Hn. reflexivity.
  - destruct (HA eq_refl) as (l & Hl & _ & Hn). exists l. split; [exact Hl |].
    rewrite Hn. reflexivity.
Defined.

(** C7 on scenario C, where no creation time parses: [mcl-foo] is kept with
    the zero time. *)
Lemma C7_scenario_C_witness :
  exists l info,
    @GetAllContainers plainRuntime
      (withListing deadEngine (renderListing scenarioC)) "mcl-" = Some l
    /\ length l = 2%nat
    /\ In info l /\ Name info = "mcl-foo"%string /\ CreatedAt info = GoTime.zero.
Proof.
  destruct (@C7_unparsable_creation_time_keeps_row plainRuntime
              (withListing deadEngine (renderListing scenarioC)) "mcl-" scenarioC
              (row "mcl-foo" "running")) as [_ HA].
  - repeat constructor.
  - left. reflexivity.
  - reflexivity.
  - reflexivity.
  - destruct (HA eq_refl) as (l & info & Hl & Hlen & Hin & Hn & _ & _ & Hc).
    exists l, info. repeat split; assumption.
Defined.

(** C10 on a listing with a two-column line between two rows. *)
Lemma C10_short_line_witness :
  exists l,
    @GetAllContainers plainRuntime
      (withListing deadEngine
         (Join [renderRow (row "mcl-foo" "running"); ("garbage" +:+ TAB +:+ "line")%string;
                renderRow (row "mcl-baz" "exited")] LF)) "mcl-" = Some l
    /\ map Name l = ["mcl-foo"; "mcl-baz"]%string.
Proof.
  destruct (@C10_blank_and_short_lines_are_skipped plainRuntime deadEngine "mcl-"
              [renderRow (row "mcl-foo" "running")]
              [renderRow (row "mcl-baz" "exited")]
              ("garbage" +:+ TAB +:+ "line")%string) as (_ & _ & _ & l & Hl & Hl').
  - repeat constructor.
  - right. vm_compute. lia.
  - exists l. split; [exact Hl |].
    vm_compute in Hl'. injection Hl' as <-. reflexivity.
Defined.

End RegistrySpec.

(* --------------------------------------------------------------------- *)
(** ** Detail fetcher *)
(* --------------------------------------------------------------------- *)

Module DetailSpec.
Import GoStrings GoTime Container Listing Fixtures StringFacts ListingFacts.

(** C5, counterexample.  On a running row whose probes all fail the git
    status is not ["-"]: [GetGitStatus] pads its sentinel to ten bytes. *)
Lemma C5_git_sentinel_counterexample :
  GitStatus (@fetchAll plainRuntime deadEngine "mcl-"
               (@basicOf plainRuntime (row "mcl-foo" "running"))) <> "-"%string.
Proof. vm_compute. discriminate. Qed.

Section Sentinels.
Context {RT : GoRuntime}.

(** C5, as amended.  For a running row of [GetAllContainers] each field of
    the record depends on its own probe only and degrades to a sentinel
    when that probe fails: the branch to ["unknown"], the attention flag to
    [false], the dormant flag to [true], the credential status to
    ["✗ NO AUTH"] when the extraction fails and to ["✗ INVALID"] when the
    extracted artifact does not parse, the last activity to ["-"] when the
    probe fails or prints no integer, the git status to ["-"] padded with
    spaces to ten bytes when the repository check fails.  The row keeps its
    name whatever the probes do, [GetRunningContainers] degrades its three
    probes in the same way, and given the listing neither query fails or
    loses a row. *)
Theorem C5_probes_degrade_to_sentinels
    (E : Engine) (P : string) (basic : basicInfo) :
  state basic = "running"%string ->
  let n := name basic in
  let info := fetchAll E P basic in
  let live := fetchRunning E P basic in
  (git_branch E n = None -> Branch info = "unknown"%string /\ Branch live = "unknown"%string)
  /\ (tmux_flags E n = None -> NeedsAttention info = false /\ NeedsAttention live = false)
  /\ (ps_claude E n = None -> IsDormant info = true /\ IsDormant live = true)
  /\ (cp_credentials E n = None -> AuthStatus info = "✗ NO AUTH"%string)
  /\ (forall data, cp_credentials E n = Some data -> Unmarshal data = None ->
                   AuthStatus info = "✗ INVALID"%string)
  /\ (tmux_active_since E n = None -> LastActivity info = "-"%string)
  /\ (forall out, tmux_active_since E n = Some out -> ParseInt (TrimSpace out) = None ->
                  LastActivity info = "-"%string)
  /\ (test_git_dir E n = false -> GitStatus info = "-         "%string)
  /\ Name info = n /\ Name live = n
  /\ (forall out, docker_ps_all E = Some out ->
        exists l, GetAllContainers E P = Some l
                  /\ map Name l = map name (parseListing P out))
  /\ (forall out, docker_ps E = Some out ->
        exists l, GetRunningContainers E P = Some l
                  /\ map Name l = map name (parseListing P out)).
Proof.
  intros Hrun n info live. subst n info live.
  unfold fetchAll, fetchRunning. rewrite Hrun. cbn [String.eqb Ascii.eqb Bool.eqb].
  cbn [Branch NeedsAttention IsDormant AuthStatus LastActivity GitStatus Name].
  repeat split.
  - unfold GetBranchName. now rewrite H.
  - unfold GetBranchName. now rewrite H.
  - unfold CheckBellStatus. now rewrite H.
  - unfold CheckBellStatus. now rewrite H.
  - unfold IsClaudeRunning. now rewrite H.
  - unfold IsClaudeRunning. now rewrite H.
  - intros H. unfold GetAuthStatus. now rewrite H.
  - intros data H Hbad. unfold GetAuthStatus. now rewrite H, Hbad.
  - intros H. unfold GetLastActivity. now rewrite H.
  - intros out H Hbad. unfold GetLastActivity. now rewrite H, Hbad.
  - intros H. unfold GetGitStatus. now rewrite H.
  - intros out H. unfold GetAllContainers. rewrite H. eexists.
    split; [reflexivity | apply fetchAll_names].
  - intros out H. unfold GetRunningContainers. rewrite H. eexists.
    split; [reflexivity | apply fetchRunning_names].
Qed.

End Sentinels.

(** C5 on a running row of an engine whose probes all fail. *)
Lemma C5_all_probes_fail_witness :
  let info := @fetchAll plainRuntime deadEngine "mcl-"
                (@basicOf plainRuntime (row "mcl-foo" "running")) in
  Branch info = "unknown"%string /\ NeedsAttention info = false
  /\ IsDormant info = true /\ AuthStatus info = "✗ NO AUTH"%string
  /\ LastActivity info = "-"%string /\ GitStatus info = "-         "%string
  /\ Name info = "mcl-foo"%string.
Proof.
  destruct (@C5_probes_degrade_to_sentinels plainRuntime deadEngine "mcl-"
              (@basicOf plainRuntime (row "mcl-foo" "running")) eq_refl)
    as (Hb & Ha & Hd & Hc & _ & Hl & _ & Hg & Hn & _).
  cbv zeta.
  split; [exact (proj1 (Hb eq_refl)) |]. split; [exact (proj1 (Ha eq_refl)) |].
  split; [exact (proj1 (Hd eq_refl)) |]. split; [exact (Hc eq_refl) |].
  split; [exact (Hl eq_refl) |]. split; [exact (Hg eq_refl) |]. exact Hn.
Defined.

End DetailSpec.

(* --------------------------------------------------------------------- *)
(** ** Freshness reconciler *)
(* --------------------------------------------------------------------- *)

Module ReconcilerFacts.
Import GoStrings GoTime Container Cmd TimeFacts.

(** *** Select *)

Lemma Select_step (l : list tokenSource) (acc : tokenSource) :
  expiresAt acc = UnixMilli (millis acc) ->
  Forall scanned l ->
  let r := fold_left
             (fun freshest src =>
                if After (expiresAt src) (expiresAt freshest) then src else freshest)
             l acc in
  (r = acc /\ forall s, In s l -> millis s <= millis acc)
  \/ (exists pre best post,
        l = pre ++ best :: post /\ r = best /\ millis acc < millis best
        /\ (forall s, In s pre -> millis s < millis best)
        /\ (forall s, In s post -> millis s <= millis best)).
Proof.
  revert acc. induction l as [|x l IH]; intros acc Hacc Hl; simpl.
  - left. split; [reflexivity | intros s []].
  - apply Forall_cons_1 in Hl as [[_ Hx] Hl].
    rewrite Hx, Hacc, After_UnixMilli.
    destruct (millis acc <? millis x) eqn:Hlt;
      [apply Z.ltb_lt in Hlt | apply Z.ltb_ge in Hlt].
    + destruct (IH x Hx Hl) as [[Hr Hle] | (pre & best & post & -> & Hr & Hb & Hpre & Hpost)].
      * right. exists [], x, l. repeat split; auto. intros s [].
      * right. exists (x :: pre), best, post. repeat split; auto; try lia.
        intros s [<- | Hin]; auto.
    + destruct (IH acc Hacc Hl) as [[Hr Hle] | (pre & best & post & -> & Hr & Hb & Hpre & Hpost)].
      * left. split; [exact Hr |]. intros s [<- | Hin]; auto.
      * right. exists (x :: pre), best, post. repeat split; auto.
        intros s [<- | Hin]; [lia | auto].
Qed.

(** When some scanned replica expires after the zero [Time], [Select]
    returns a replica of the list whose expiry is maximal, and the first
    such replica: every earlier one expires strictly before it. *)
Lemma Select_first_maximal (sources : list tokenSource) :
  Forall scanned sources ->
  (exists s, In s sources /\ zeroUnixMilli < millis s) ->
  exists pre best post,
    sources = pre ++ best :: post /\ Select sources = best
    /\ (forall s, In s pre -> millis s < millis best)
    /\ (forall s, In s post -> millis s <= millis best).
Proof.
  intros Hs (s & Hin & Hlate).
  destruct (Select_step sources zeroSource eq_refl Hs)
    as [[_ Hle] | (pre & best & post & Heq & Hr & _ & Hpre & Hpost)].
  - specialize (Hle s Hin). change (millis zeroSource) with zeroUnixMilli in Hle. lia.
  - exists pre, best, post. auto.
Qed.

(** A selection with credentials is a replica of the list, and none of
    the list expires later. *)
Lemma Select_with_creds_maximal (sources : list tokenSource) :
  Forall scanned sources ->
  creds (Select sources) <> None ->
  In (Select sources) sources
  /\ forall s, In s sources -> millis s <= millis (Select sources).
Proof.
  intros Hs Hc.
  destruct (Select_step sources zeroSource eq_refl Hs)
    as [[Hr _] | (pre & best & post & Heq & Hr & _ & Hpre & Hpost)].
  - unfold Select in Hc. rewrite Hr in Hc. now elim Hc.
  - unfold Select. rewrite Hr, Heq. split; [apply in_elt |].
    intros s Hin. apply in_app_or in Hin as [Hin | [<- | Hin]]; [| lia | auto].
    specialize (Hpre s Hin). lia.
Qed.

(** Otherwise no replica replaces the zero value. *)
Lemma Select_none_after_zero (sources : list tokenSource) :
  Forall scanned sources ->
  (forall s, In s sources -> millis s <= zeroUnixMilli) ->
  Select sources = zeroSource.
Proof.
  intros Hs Hle.
  destruct (Select_step sources zeroSource eq_refl Hs)
    as [[Hr _] | (pre & best & post & -> & _ & Hb & _)]; [exact Hr |].
  specialize (Hle best (in_elt best pre post)).
  change (millis zeroSource) with zeroUnixMilli in Hb. lia.
Qed.

(** *** The tally *)

Lemma successes_app (l : list Effect) (e : Effect) :
  successes (l ++ [e]) = (successes l + if copySucceeded e then 1 else 0)%nat.
Proof.
  unfold successes. rewrite filter_app, length_app, filter_cons, filter_nil.
  destruct (copySucceeded e); case_decide; simpl; congruence.
Qed.

Lemma attempts_app (l : list Effect) (e : Effect) :
  attempts (l ++ [e]) = (attempts l + if isCopy e then 1 else 0)%nat.
Proof.
  unfold attempts. rewrite filter_app, length_app, filter_cons, filter_nil.
  destruct (isCopy e); case_decide; simpl; congruence.
Qed.

Section Tally.
Variable F : Faults.

Lemma syncHost_tallied (freshest : tokenSource) (s : Sync) :
  tallied s -> tallied (syncHost F freshest s).
Proof.
  unfold tallied, syncHost. intros [Hc Hle].
  destruct (negb _); [| now split].
  destruct (copyCredentials _ _ _ _); simpl;
    rewrite successes_app, attempts_app; simpl; lia.
Qed.

Lemma syncContainer_tallied (freshest : tokenSource) (s : Sync) (c : Info) :
  tallied s -> tallied (syncContainer F freshest s c).
Proof.
  unfold tallied, syncContainer. intros [Hc Hle].
  destruct (String.eqb _ _); [now split |].
  destruct (cpIn _ _ _ _); simpl.
  - change (attempted s ++ [?a; ?b]) with (attempted s ++ [a] ++ [b]).
    rewrite app_assoc, !successes_app, !attempts_app. simpl. lia.
  - rewrite successes_app, attempts_app. simpl. lia.
Qed.

Lemma propagate_tallied (freshest : tokenSource) (containers : list Info) (st : Replicas) :
  tallied (propagate F freshest containers st).
Proof.
  unfold propagate.
  assert (H0 : tallied (syncHost F freshest {| syncCount := 0; store := st; attempted := [] |})).
  { apply syncHost_tallied. split; [reflexivity | apply Nat.le_refl]. }
  revert H0. generalize (syncHost F freshest {| syncCount := 0; store := st; attempted := [] |}).
  induction containers as [|c cs IH]; intros s Hs; simpl; [exact Hs |].
  apply IH. now apply syncContainer_tallied.
Qed.

End Tally.

(** *** The replicas outside the Propagate stage *)

Lemma runDeferred_same (names : list string) (st : Replicas) :
  sameReplicas (runDeferred names st) st.
Proof.
  unfold runDeferred. revert st.
  induction names as [|n ns IH]; intros st; simpl; [now split |].
  destruct (IH (Remove st n)) as [Hh Hs]. split; [rewrite Hh | rewrite Hs]; reflexivity.
Qed.

Section Scan.
Context {RT : GoRuntime}.
Variable F : Faults.

Lemma scanContainer_same (acc : Scan) (c : Info) :
  sameReplicas (files (scanContainer F acc c)) (files acc).
Proof.
  unfold scanContainer, cpOut, sameReplicas.
  destruct (cpOutFails F (Name c)); [now split |].
  destruct (sandboxCred (files acc) !! Name c); [| now split].
  simpl. destruct (ReadCredentials _ _); now split.
Qed.

Lemma scan_fold_same (containers : list Info) (acc : Scan) :
  sameReplicas (files (fold_left (scanContainer F) containers acc)) (files acc).
Proof.
  revert acc. induction containers as [|c cs IH]; intros acc; simpl; [now split |].
  destruct (IH (scanContainer F acc c)) as [Hh Hs].
  destruct (scanContainer_same acc c) as [Hh' Hs'].
  split; congruence.
Qed.

Lemma scan_same (st : Replicas) (containers : list Info) :
  sameReplicas (files (scan F st containers)) st.
Proof. unfold scan. apply (scan_fold_same containers). Qed.

(** Every source of the scan was read and carries its expiry. *)
Lemma scanHost_scanned (st : Replicas) : Forall scanned (scanHost st).
Proof.
  unfold scanHost. destruct (ReadCredentials st HostCredPath); constructor; [| constructor].
  split; [discriminate | reflexivity].
Qed.

Lemma scanContainer_scanned (acc : Scan) (c : Info) :
  Forall scanned (sources acc) -> Forall scanned (sources (scanContainer F acc c)).
Proof.
  intros H. unfold scanContainer. destruct (cpOut _ _ _); [| exact H].
  destruct (ReadCredentials _ _); simpl; [| exact H].
  apply Forall_app. split; [exact H |]. constructor; [| constructor].
  split; [discriminate | reflexivity].
Qed.

Lemma scan_scanned (st : Replicas) (containers : list Info) :
  Forall scanned (sources (scan F st containers)).
Proof.
  unfold scan.
  assert (H0 : Forall scanned
                 (sources {| sources := scanHost st; files := st; deferred := [] |}))
    by apply scanHost_scanned.
  revert H0. generalize {| sources := scanHost st; files := st; deferred := [] |}.
  induction containers as [|c cs IH]; intros acc Hacc; simpl; [exact Hacc |].
  apply IH. now apply scanContainer_scanned.
Qed.

End Scan.

End ReconcilerFacts.

Module ReconcilerSpec.
Import GoStrings GoTime Container Cmd Listing Fixtures TimeFacts ReconcilerFacts.

(** C2, counterexample.  The host holds the freshest, valid token and the
    only sandbox cannot be written: the pass reaches the Propagate stage,
    attempts one target write, none succeeds, and the pass still returns
    [nil].  "Failure if and only if N = 0" does not hold. *)
Lemma C2_zero_synced_counterexample :
  let pass := @runRefreshTokens plainRuntime oneSandbox sandboxesReadOnly "mcl-" hostFresh in
  reachesPropagate (@stage plainRuntime oneSandbox sandboxesReadOnly "mcl-" hostFresh) = true
  /\ attempts (effects pass) = 1%nat
  /\ ~ (reportsFailure (outcome pass) = true <-> successes (effects pass) = 0%nat).
Proof.
  cbv zeta. split; [vm_compute; reflexivity |]. split; [vm_compute; reflexivity |].
  intros [_ H]. assert (H0 : reportsFailure
    (outcome (@runRefreshTokens plainRuntime oneSandbox sandboxesReadOnly "mcl-" hostFresh)) = true).
  { apply H. vm_compute. reflexivity. }
  vm_compute in H0. discriminate H0.
Qed.

(** C3, at the failing input.  The host replica, the only one, expires at
    Go's zero [time.Time].  The scan reads it, but [Select] keeps the zero
    value of [freshest] instead of returning it, and the pass ends in the
    [nil] dereference of [IsTokenExpired(freshest.creds)]. *)
Theorem C3_select_skips_replica_at_zero_time :
  let host := {| location := "host"; path := HostCredPath;
                 creds := Some (credsAt zeroUnixMilli);
                 expiresAt := UnixMilli zeroUnixMilli |} in
  @scanHost plainRuntime hostAtYearOne = [host]
  /\ Select [host] = zeroSource
  /\ creds (Select [host]) = None
  /\ outcome (@runRefreshTokens plainRuntime noSandboxes noFaults "mcl-" hostAtYearOne)
     = Panicked.
Proof. cbv zeta. repeat split; vm_compute; reflexivity. Qed.

Section Pass.
Context {RT : GoRuntime}.
Variable E : Engine.
Variable F : Faults.
Variable configPrefix : string.

(** C2, as amended.  Every pass that reaches the Propagate stage returns
    [nil]: a failed target write is only logged, the count [N] the pass
    prints is the number of target writes that succeeded, at most the
    number [M] attempted, and the pass succeeds whatever [N] is, zero
    included. *)
Theorem C2_propagate_stage_always_succeeds (st : Replicas) :
  reachesPropagate (stage E F configPrefix st) = true ->
  let pass := runRefreshTokens E F configPrefix st in
  outcome pass = Synced (successes (effects pass))
  /\ (successes (effects pass) <= attempts (effects pass))%nat
  /\ reportsFailure (outcome pass) = false.
Proof.
  unfold runRefreshTokens.
  destruct (stage E F configPrefix st) as [| sc | sc | sc fr | sc cs fr];
    simpl; try discriminate.
  intros _. destruct (propagate_tallied F fr cs (files sc)) as [Hc Hle].
  rewrite Hc. auto.
Qed.




End Pass.

(** C2 on scenario A of the specification: sandbox [mcl-a] holds the only
    valid token; the host and [mcl-b] are written, "synced 2/2". *)
Lemma C2_scenario_A_witness :
  reachesPropagate (@stage plainRuntime twoSandboxes noFaults "mcl-" scenarioA) = true
  /\ outcome (@runRefreshTokens plainRuntime twoSandboxes noFaults "mcl-" scenarioA)
     = Synced 2
  /\ attempts (effects (@runRefreshTokens plainRuntime twoSandboxes noFaults "mcl-" scenarioA))
     = 2%nat.
Proof.
  assert (Hp : reachesPropagate
                 (@stage plainRuntime twoSandboxes noFaults "mcl-" scenarioA) = true)
    by (vm_compute; reflexivity).
  destruct (@C2_propagate_stage_always_succeeds plainRuntime twoSandboxes noFaults
              "mcl-" scenarioA Hp) as (Ho & _ & _).
  split; [exact Hp |]. split.
  - rewrite Ho. vm_compute. reflexivity.
  - vm_compute. reflexivity.
Defined.


End ReconcilerSpec.

(* --------------------------------------------------------------------- *)
(** ** Domain whitelist propagator *)
(* --------------------------------------------------------------------- *)

Module PropagatorFacts.
Import GoStrings Container Operations Cmd StringFacts.

Lemma bre_char_refl (c : ascii) : bre_char c c = true.
Proof. unfold bre_char. now rewrite Ascii.eqb_refl, orb_true_r. Qed.

(** A pattern matches at the start of a text that begins with it. *)
Lemma bre_here_app (p rest : string) : bre_here p (p +:+ rest) = true.
Proof.
  induction p as [|c p IH]; [reflexivity |].
  rewrite append_cons. simpl. now rewrite bre_char_refl, IH.
Qed.

Lemma bre_search_app (p rest : string) : bre_search p (p +:+ rest) = true.
Proof. destruct (p +:+ rest) eqn:H; simpl; rewrite <- H, bre_here_app; reflexivity. Qed.

Lemma plain_pattern_app (a b : string) :
  plain_pattern (a +:+ b) = plain_pattern a && plain_pattern b.
Proof.
  induction a as [|c a IH]; [reflexivity |].
  rewrite append_cons. simpl. rewrite IH. now rewrite andb_assoc.
Qed.

Lemma host_name_plain (d : string) : host_name d = true -> plain_pattern d = true.
Proof.
  induction d as [|c d IH]; [reflexivity |]. simpl.
  intros H. apply andb_true_iff in H as [Hc Hd]. now rewrite Hc, (IH Hd).
Qed.

(** The pattern of the check on a host name is in the modelled fragment. *)
Lemma rulePattern_plain (d : string) :
  host_name d = true -> plain_pattern (rulePattern d) = true.
Proof.
  intros H. unfold rulePattern. rewrite !plain_pattern_app, (host_name_plain d H).
  reflexivity.
Qed.

Lemma appends_app (t u : list (string * Command)) :
  appends (t ++ u) = (appends t + appends u)%nat.
Proof. unfold appends. now rewrite filter_app, length_app. Qed.

Section Commands.
Context {RS : RemoteTools}.

(** The check finds the rule once its lines are in the configuration. *)
Lemma grep_q_appended (domain : string) (conf : list string) :
  host_name domain = true ->
  grep_q (rulePattern domain) (conf ++ ruleLines domain) = true.
Proof.
  intros Hd. unfold grep_q. rewrite (rulePattern_plain domain Hd).
  apply existsb_exists.
  exists ("ipset=/" +:+ domain +:+ "/allowed-domains")%string.
  split; [apply in_or_app; right; left; reflexivity |].
  unfold rulePattern.
  replace ("ipset=/" +:+ domain +:+ "/allowed-domains")
    with (("ipset=/" +:+ domain +:+ "/") +:+ "allowed-domains").
  - apply bre_search_app.
  - now rewrite !append_assoc.
Qed.

(** *** Single commands *)

Lemma run_missing (c : string) (cmd : Command) (r : Remote) :
  fleet r !! c = None ->
  run c cmd r = (false, {| fleet := fleet r; trace := trace r ++ [(c, cmd)] |}).
Proof. intros H. unfold run. now rewrite H. Qed.

Lemma run_grep (c pattern : string) (r : Remote) (sb : Sandbox) :
  fleet r !! c = Some sb ->
  run c (GrepRule pattern) r =
  (grep_q pattern (dnsmasqConf sb),
   {| fleet := fleet r; trace := trace r ++ [(c, GrepRule pattern)] |}).
Proof. intros H. unfold run. now rewrite H. Qed.

(** *** [AddDomainToContainer] *)

(** The rule is present: only the check runs. *)
Lemma AddDomainToContainer_present (c d : string) (r : Remote) (sb : Sandbox) :
  fleet r !! c = Some sb ->
  grep_q (rulePattern d) (dnsmasqConf sb) = true ->
  AddDomainToContainer c d r =
  (None, {| fleet := fleet r; trace := trace r ++ [(c, GrepRule (rulePattern d))] |}).
Proof.
  intros Hsb Hg. unfold AddDomainToContainer, mbind, Exec_bind.
  rewrite (run_grep _ _ _ _ Hsb), Hg. reflexivity.
Qed.

(** The rule is absent: its lines are appended and the resolver restarted. *)
Lemma AddDomainToContainer_absent (c d : string) (r : Remote) (sb : Sandbox) :
  fleet r !! c = Some sb ->
  grep_q (rulePattern d) (dnsmasqConf sb) = false ->
  exists r1,
    AddDomainToContainer c d r = (None, r1)
    /\ fleet r1 !! c = Some {| dnsmasqConf := dnsmasqConf sb ++ ruleLines d;
                               resolverStarts := S (resolverStarts sb) |}
    /\ trace r1 = trace r ++ [(c, GrepRule (rulePattern d));
                              (c, AppendRules (ruleLines d));
                              (c, RestartResolver); (c, Dig d)].
Proof.
  intros Hsb Hg. unfold AddDomainToContainer, mbind, Exec_bind.
  rewrite (run_grep _ _ _ _ Hsb), Hg.
  unfold run at 1. cbn [fleet trace]. rewrite Hsb. cbn [negb].
  unfold run at 1. cbn [fleet trace]. rewrite lookup_insert_eq.
  cbn [negb dnsmasqConf resolverStarts].
  unfold run at 1. cbn [fleet trace]. rewrite lookup_insert_eq.
  eexists. split; [reflexivity |]. cbn [fleet trace]. split.
  - apply lookup_insert_eq.
  - now rewrite <- !app_assoc.
Qed.

(** The sandbox is not running: both commands fail, nothing changes. *)
Lemma AddDomainToContainer_missing (c d : string) (r : Remote) :
  fleet r !! c = None ->
  AddDomainToContainer c d r =
  (Some "failed to update dnsmasq config"%string,
   {| fleet := fleet r;
      trace := (trace r ++ [(c, GrepRule (rulePattern d))])
                 ++ [(c, AppendRules (ruleLines d))] |}).
Proof.
  intros H. unfold AddDomainToContainer, mbind, Exec_bind.
  rewrite (run_missing _ _ _ H). rewrite run_missing by exact H. reflexivity.
Qed.

End Commands.

Section Run.
Context {RT : GoRuntime} {RS : RemoteTools}.
Variable resolveContainerName : string -> string.
Variable ps_state : string -> option string.

Let runAddDomain' := runAddDomain resolveContainerName ps_state.

Lemma runAddDomain_present (short c d out : string) (r : Remote) (sb : Sandbox) :
  c = resolveContainerName short ->
  ps_state c = Some out -> TrimSpace out = "running"%string ->
  fleet r !! c = Some sb ->
  grep_q (rulePattern d) (dnsmasqConf sb) = true ->
  exists r1,
    runAddDomain' short d r = (None, r1)
    /\ fleet r1 !! c = Some {| dnsmasqConf := dnsmasqConf sb;
                               resolverStarts := S (resolverStarts sb) |}
    /\ trace r1 = trace r ++ [(c, GrepRule (rulePattern d));
                              (c, RestartResolver); (c, Dig d)].
Proof.
  intros -> Hps Hrun Hsb Hg. unfold runAddDomain', runAddDomain.
  rewrite Hps, Hrun. cbn [String.eqb Ascii.eqb Bool.eqb negb].
  unfold mbind, Exec_bind. rewrite (run_grep _ _ _ _ Hsb), Hg.
  unfold mret at 1, Exec_ret at 1. cbn [negb].
  unfold run at 1. cbn [fleet trace]. rewrite Hsb. cbn [negb].
  unfold run at 1. cbn [fleet trace]. rewrite lookup_insert_eq.
  eexists. split; [reflexivity |]. cbn [fleet trace]. split.
  - apply lookup_insert_eq.
  - now rewrite <- !app_assoc.
Qed.

Lemma runAddDomain_absent (short c d out : string) (r : Remote) (sb : Sandbox) :
  c = resolveContainerName short ->
  ps_state c = Some out -> TrimSpace out = "running"%string ->
  fleet r !! c = Some sb ->
  grep_q (rulePattern d) (dnsmasqConf sb) = false ->
  exists r1,
    runAddDomain' short d r = (None, r1)
    /\ fleet r1 !! c = Some {| dnsmasqConf := dnsmasqConf sb ++ ruleLines d;
                               resolverStarts := S (resolverStarts sb) |}
    /\ trace r1 = trace r ++ [(c, GrepRule (rulePattern d));
                              (c, AppendRules (ruleLines d));
                              (c, RestartResolver); (c, Dig d)].
Proof.
  intros -> Hps Hrun Hsb Hg. unfold runAddDomain', runAddDomain.
  rewrite Hps, Hrun. cbn [String.eqb Ascii.eqb Bool.eqb negb].
  unfold mbind, Exec_bind. rewrite (run_grep _ _ _ _ Hsb), Hg.
  unfold run at 1. cbn [fleet trace]. rewrite Hsb. cbn [negb].
  unfold run at 1. cbn [fleet trace]. rewrite lookup_insert_eq.
  cbn [negb dnsmasqConf resolverStarts].
  unfold run at 1. cbn [fleet trace]. rewrite lookup_insert_eq.
  eexists. split; [reflexivity |]. cbn [fleet trace]. split.
  - apply lookup_insert_eq.
  - now rewrite <- !app_assoc.
Qed.

(** Without the answer ["running"] of the status check nothing is sent to
    the sandbox. *)
Lemma runAddDomain_unchecked (short c d : string) (r : Remote) :
  c = resolveContainerName short ->
  ps_state c = None ->
  runAddDomain' short d r = (Some "failed to check container status"%string, r).
Proof. intros -> H. unfold runAddDomain', runAddDomain. now rewrite H. Qed.

Lemma runAddDomain_not_running (short c d out : string) (r : Remote) :
  c = resolveContainerName short ->
  ps_state c = Some out ->
  String.eqb (TrimSpace out) "running" = false ->
  runAddDomain' short d r
  = (Some ("container " +:+ short +:+ " is not running")%string, r).
Proof. intros -> H Hn. unfold runAddDomain', runAddDomain. now rewrite H, Hn. Qed.

(** A sandbox that is not running stays untouched. *)
Lemma runAddDomain_missing (short c d : string) (r : Remote) :
  c = resolveContainerName short ->
  fleet r !! c = None ->
  fleet (runAddDomain' short d r).2 = fleet r.
Proof.
  intros -> H. unfold runAddDomain', runAddDomain.
  destruct (ps_state (resolveContainerName short)) as [out |]; [| reflexivity].
  destruct (negb (String.eqb (TrimSpace out) "running")); [reflexivity |].
  unfold mbind, Exec_bind. rewrite (run_missing _ _ _ H).
  rewrite run_missing by exact H. reflexivity.
Qed.

End Run.

End PropagatorFacts.

Module PropagatorSpec.
Import GoStrings Container Operations Cmd Fixtures StringFacts PropagatorFacts.

Section Idempotence.
Context {RT : GoRuntime} {RS : RemoteTools}.
Variable resolveContainerName : string -> string.
Variable ps_state : string -> option string.

(** For a domain made of host-name bytes, calling the propagator twice
    with the same sandbox and domain changes the resolver configuration at
    most once, on the first call: the second call of
    [AddDomainToContainer], and of [runAddDomain], leaves the configuration
    of the sandbox as the first call left it.  On a running sandbox the
    check of the second call finds the rule, so the second call runs the
    check alone ([runAddDomain]: the check, the restart and the probe
    resolution) and no append; and when the rule was absent at first, the
    configuration after both calls is the original one followed by the two
    rule lines once, with one append command executed in all. *)
Lemma host_name_rule_appended_at_most_once (short d : string) (r : Remote) :
  host_name d = true ->
  let c := resolveContainerName short in
  let r1 := (AddDomainToContainer c d r).2 in
  let r2 := (AddDomainToContainer c d r1).2 in
  let q1 := (runAddDomain resolveContainerName ps_state short d r).2 in
  let q2 := (runAddDomain resolveContainerName ps_state short d q1).2 in
  (confOf c r2 = confOf c r1 /\ confOf c q2 = confOf c q1)
  /\ (forall sb, fleet r !! c = Some sb ->
        trace r2 = trace r1 ++ [(c, GrepRule (rulePattern d))]
        /\ grep_q (rulePattern d) (confOf c r1) = true
        /\ (grep_q (rulePattern d) (dnsmasqConf sb) = false ->
            confOf c r2 = dnsmasqConf sb ++ ruleLines d
            /\ appends (trace r2) = S (appends (trace r))))
  /\ (forall sb out,
        fleet r !! c = Some sb ->
        ps_state c = Some out -> TrimSpace out = "running"%string ->
        trace q2 = trace q1 ++ [(c, GrepRule (rulePattern d));
                                (c, RestartResolver); (c, Dig d)]
        /\ grep_q (rulePattern d) (confOf c q1) = true
        /\ (grep_q (rulePattern d) (dnsmasqConf sb) = false ->
            confOf c q2 = dnsmasqConf sb ++ ruleLines d
            /\ appends (trace q2) = S (appends (trace r)))).
Proof.
  intros Hd. cbv zeta.
  remember (resolveContainerName short) as c eqn:Hc.
  set (runAD := runAddDomain resolveContainerName ps_state).
  (* the first call of AddDomainToContainer on a running sandbox *)
  assert (HA : forall sb, fleet r !! c = Some sb ->
            exists sb1, fleet (AddDomainToContainer c d r).2 !! c = Some sb1
              /\ grep_q (rulePattern d) (dnsmasqConf sb1) = true
              /\ (grep_q (rulePattern d) (dnsmasqConf sb) = false ->
                  dnsmasqConf sb1 = dnsmasqConf sb ++ ruleLines d
                  /\ appends (trace (AddDomainToContainer c d r).2) = S (appends (trace r)))).
  { intros sb Hsb. destruct (grep_q (rulePattern d) (dnsmasqConf sb)) eqn:Hg.
    - rewrite (AddDomainToContainer_present c d r sb Hsb Hg). simpl.
      exists sb. split; [exact Hsb |]. split; [exact Hg | discriminate].
    - destruct (AddDomainToContainer_absent c d r sb Hsb Hg) as (r1 & -> & Hf & Ht).
      simpl. eexists. split; [exact Hf |]. simpl. split; [now apply grep_q_appended |].
      intros _. split; [reflexivity |]. rewrite Ht, appends_app. unfold appends. simpl. lia. }
  (* the first call of runAddDomain on a running sandbox *)
  assert (HQ : forall sb out, fleet r !! c = Some sb ->
            ps_state c = Some out -> TrimSpace out = "running"%string ->
            exists sb1, fleet (runAD short d r).2 !! c = Some sb1
              /\ grep_q (rulePattern d) (dnsmasqConf sb1) = true
              /\ (grep_q (rulePattern d) (dnsmasqConf sb) = false ->
                  dnsmasqConf sb1 = dnsmasqConf sb ++ ruleLines d
                  /\ appends (trace (runAD short d r).2) = S (appends (trace r)))).
  { intros sb out Hsb Hps Hrun. destruct (grep_q (rulePattern d) (dnsmasqConf sb)) eqn:Hg.
    - destruct (runAddDomain_present resolveContainerName ps_state short c d out r sb
                  Hc Hps Hrun Hsb Hg) as (r1 & Hr1 & Hf & Ht).
      unfold runAD. rewrite Hr1. simpl. eexists. split; [exact Hf |]. simpl.
      split; [exact Hg | discriminate].
    - destruct (runAddDomain_absent resolveContainerName ps_state short c d out r sb
                  Hc Hps Hrun Hsb Hg) as (r1 & Hr1 & Hf & Ht).
      unfold runAD. rewrite Hr1. simpl. eexists. split; [exact Hf |]. simpl.
      split; [now apply grep_q_appended |].
      intros _. split; [reflexivity |]. rewrite Ht, appends_app. unfold appends. simpl. lia. }
  split; [split |]; [| | split].
  - (* AddDomainToContainer leaves the configuration on the second call *)
    destruct (fleet r !! c) as [sb |] eqn:Hsb.
    + destruct (HA sb eq_refl) as (sb1 & Hf & Hg & _).
      rewrite (AddDomainToContainer_present c d _ sb1 Hf Hg). reflexivity.
    + rewrite (AddDomainToContainer_missing c d r Hsb). simpl.
      rewrite AddDomainToContainer_missing by exact Hsb. reflexivity.
  - (* runAddDomain leaves the configuration on the second call *)
    destruct (fleet r !! c) as [sb |] eqn:Hsb.
    + destruct (ps_state c) as [out |] eqn:Hps.
      * destruct (String.eqb (TrimSpace out) "running") eqn:Hrun.
        -- apply String.eqb_eq in Hrun.
           destruct (HQ sb out eq_refl eq_refl Hrun) as (sb1 & Hf & Hg & _).
           destruct (runAddDomain_present resolveContainerName ps_state short c d out _ sb1
                       Hc Hps Hrun Hf Hg) as (q2 & Hq2 & Hf2 & _).
           fold runAD in Hq2. rewrite Hq2. unfold confOf. simpl. now rewrite Hf, Hf2.
        -- unfold runAD.
           now rewrite !(runAddDomain_not_running resolveContainerName ps_state
                           short c d out _ Hc Hps Hrun).
      * unfold runAD.
        now rewrite !(runAddDomain_unchecked resolveContainerName ps_state short c d _ Hc Hps).
    + unfold confOf, runAD.
      assert (H1 := runAddDomain_missing resolveContainerName ps_state short c d r Hc Hsb).
      assert (H2 := runAddDomain_missing resolveContainerName ps_state short c d
                      (runAddDomain resolveContainerName ps_state short d r).2 Hc
                      ltac:(now rewrite H1)).
      now rewrite H2.
  - intros sb Hsb. destruct (HA sb Hsb) as (sb1 & Hf & Hg & Habs).
    rewrite (AddDomainToContainer_present c d _ sb1 Hf Hg). simpl.
    split; [reflexivity |]. split; [unfold confOf; now rewrite Hf |].
    intros Hno. destruct (Habs Hno) as [Hconf Hn]. split.
    + unfold confOf. simpl. now rewrite Hf.
    + rewrite appends_app, Hn. unfold appends. simpl. lia.
  - intros sb out Hsb Hps Hrun. destruct (HQ sb out Hsb Hps Hrun) as (sb1 & Hf & Hg & Habs).
    destruct (runAddDomain_present resolveContainerName ps_state short c d out _ sb1
                Hc Hps Hrun Hf Hg) as (q2 & Hq2 & Hf2 & Ht2).
    fold runAD in Hq2. rewrite Hq2. simpl.
    split; [exact Ht2 |]. split; [unfold confOf; now rewrite Hf |].
    intros Hno. destruct (Habs Hno) as [Hconf Hn]. split.
    + unfold confOf. now rewrite Hf2.
    + rewrite Ht2, appends_app, Hn. unfold appends. simpl. lia.
Qed.

End Idempotence.

(** A running sandbox without rules and the domain [example.com]: after
    two calls the configuration holds the two rule lines once. *)
Lemma example_com_appended_once :
  host_name "example.com" = true
  /\ confOf "mcl-a"
       (@AddDomainToContainer plainTools "mcl-a" "example.com"
          (@AddDomainToContainer plainTools "mcl-a" "example.com" freshRemote).2).2
     = ["ipset=/example.com/allowed-domains"; "server=/example.com/8.8.8.8"]%string
  /\ appends
       (trace (@AddDomainToContainer plainTools "mcl-a" "example.com"
                 (@AddDomainToContainer plainTools "mcl-a" "example.com" freshRemote).2).2)
     = 1%nat.
Proof.
  assert (Hd : host_name "example.com" = true) by reflexivity.
  destruct (@host_name_rule_appended_at_most_once plainRuntime plainTools
              (fun short => ("mcl-" +:+ short)%string) (fun _ => Some "running"%string)
              "a" "example.com" freshRemote Hd) as (_ & H & _).
  destruct (H {| dnsmasqConf := []; resolverStarts := 1 |}) as (_ & _ & Hone).
  - vm_compute. reflexivity.
  - destruct (Hone eq_refl) as [Hc Hn]. split; [exact Hd |]. split; [exact Hc | exact Hn].
Defined.

(** C9.  The existing-rule check hands the domain to [grep] inside a basic
    regular expression, so it does not detect the rule as the claim says.
    For the domain [*.example.com] the pattern [ipset=/*.example.com/]
    does not match the line [ipset=/*.example.com/allowed-domains] that
    the first call wrote: the second call with the same sandbox and domain
    appends the two rule lines again, through [AddDomainToContainer] and
    through [runAddDomain] alike.  For the domain [my.site.com] on a
    sandbox that holds the rule of [my-site.com], the check matches that
    other rule: two calls append nothing and the configuration holds no
    rule of [my.site.com].  Both patterns lie in the modelled fragments,
    so the answers are those of [grep] whatever the boundary answers
    elsewhere. *)
Theorem C9_check_reads_domain_as_pattern (RS : RemoteTools) :
  let wild := "*.example.com"%string in
  let wildLines :=
    ["ipset=/*.example.com/allowed-domains"; "server=/*.example.com/8.8.8.8"]%string in
  let r1 := (AddDomainToContainer "mcl-a" wild freshRemote).2 in
  let r2 := (AddDomainToContainer "mcl-a" wild r1).2 in
  let command :=
    @runAddDomain plainRuntime RS (fun short => "mcl-" +:+ short)
      (fun _ => Some "running"%string) in
  let q1 := (command "a"%string wild freshRemote).2 in
  let q2 := (command "a"%string wild q1).2 in
  let otherLines :=
    ["ipset=/my-site.com/allowed-domains"; "server=/my-site.com/8.8.8.8"]%string in
  let s0 := (AddDomainToContainer "mcl-a" "my-site.com" freshRemote).2 in
  let s1 := (AddDomainToContainer "mcl-a" "my.site.com" s0).2 in
  let s2 := (AddDomainToContainer "mcl-a" "my.site.com" s1).2 in
  (confOf "mcl-a" r1 = wildLines /\
   confOf "mcl-a" r2 = wildLines ++ wildLines /\
   (appends (trace r1), appends (trace r2)) = (1%nat, 2%nat)) /\
  (confOf "mcl-a" q1 = wildLines /\
   confOf "mcl-a" q2 = wildLines ++ wildLines /\
   (appends (trace q1), appends (trace q2)) = (1%nat, 2%nat)) /\
  (confOf "mcl-a" s0 = otherLines /\
   confOf "mcl-a" s2 = otherLines /\
   (appends (trace s0), appends (trace s2)) = (1%nat, 1%nat) /\
   ~ In "ipset=/my.site.com/allowed-domains"%string (confOf "mcl-a" s2)).
Proof.
  cbv zeta. split; [|split].
  - split; [|split]; vm_compute; reflexivity.
  - split; [|split]; vm_compute; reflexivity.
  - split; [|split; [|split]]; try (vm_compute; reflexivity).
    vm_compute. intros [H|[H|[]]]; discriminate H.
Qed.

End PropagatorSpec.

(* --------------------------------------------------------------------- *)
(** ** Status columns: git status, expiry, authentication *)
(* --------------------------------------------------------------------- *)

Module StatusSpec.
Import GoStrings GoTime Container Fixtures StringFacts.

Lemma len_Repeat_space (n : nat) : len (Repeat " " n) = n.
Proof.
  induction n as [|n IH]; [reflexivity |].
  simpl Repeat. rewrite len_app, IH. reflexivity.
Qed.

(** [padGitStatus] widens to ten bytes and never shortens: the result is
    [max 10 (len status)] bytes long, starts with [status], holds only
    spaces after it, and padding twice is padding once. *)
Theorem padGitStatus_fixed_width (status : string) :
  len (padGitStatus status) = Nat.max 10 (len status)
  /\ padGitStatus status = status +:+ Repeat " " (10 - len status)
  /\ padGitStatus (padGitStatus status) = padGitStatus status.
Proof.
  assert (Hlen : len (padGitStatus status) = Nat.max 10 (len status)).
  { unfold padGitStatus. cbv zeta.
    destruct (10 <=? len status)%nat eqn:H;
      [apply Nat.leb_le in H | apply Nat.leb_gt in H].
    - lia.
    - rewrite len_app, len_Repeat_space. lia. }
  split; [exact Hlen |]. split.
  - unfold padGitStatus. cbv zeta.
    destruct (10 <=? len status)%nat eqn:H; [| reflexivity].
    apply Nat.leb_le in H. replace (10 - len status)%nat with 0%nat by lia.
    simpl Repeat. clear. induction status as [|c s IH]; [reflexivity |].
    rewrite append_cons. now rewrite <- IH.
  - unfold padGitStatus at 1. cbv zeta.
    destruct (10 <=? len (padGitStatus status))%nat eqn:H; [reflexivity |].
    apply Nat.leb_gt in H. lia.
Qed.

Section Status.
Context {RT : GoRuntime}.
Variable E : Engine.

(** [GetGitStatus] returns at least ten bytes on every path, so the GIT
    column never narrows; and when the repository check passes while every
    counting command fails or prints a zero count (for the two remote
    counts: or nothing), the result is the clean mark, padded. *)
Theorem GetGitStatus_width_and_clean_mark (containerName : string) :
  (10 <= len (GetGitStatus E containerName))%nat
  /\ (test_git_dir E containerName = true ->
      (forall out, git_dirty E containerName = Some out -> TrimSpace out = "0"%string) ->
      (forall out, git_ahead E containerName = Some out ->
                   TrimSpace out = "0"%string \/ TrimSpace out = ""%string) ->
      (forall out, git_behind E containerName = Some out ->
                   TrimSpace out = "0"%string \/ TrimSpace out = ""%string) ->
      GetGitStatus E containerName = padGitStatus "✓").
Proof.
  split.
  - unfold GetGitStatus.
    destruct (negb (test_git_dir E containerName));
      [| destruct (_ ++ _)];
      match goal with
      | |- (10 <= len (padGitStatus ?s))%nat =>
          destruct (padGitStatus_fixed_width s) as [-> _]; lia
      end.
  - intros Hgit Hd Ha Hb. unfold GetGitStatus. rewrite Hgit. cbn [negb].
    assert (H1 : indicator "Δ" true (git_dirty E containerName) = []).
    { unfold indicator. destruct (git_dirty E containerName) as [out |]; [| reflexivity].
      now rewrite (Hd out eq_refl). }
    assert (H2 : indicator "↑" false (git_ahead E containerName) = []).
    { unfold indicator. destruct (git_ahead E containerName) as [out |]; [| reflexivity].
      destruct (Ha out eq_refl) as [-> | ->]; reflexivity. }
    assert (H3 : indicator "↓" false (git_behind E containerName) = []).
    { unfold indicator. destruct (git_behind E containerName) as [out |]; [| reflexivity].
      destruct (Hb out eq_refl) as [-> | ->]; reflexivity. }
    now rewrite H1, H2, H3.
Qed.

Lemma saturate_negative (d : Z) : saturate d < 0 <-> d < 0.
Proof.
  unfold saturate.
  assert (Hmin : int64_min = -9223372036854775808) by reflexivity.
  assert (Hmax : int64_max = 9223372036854775807) by reflexivity.
  destruct (Z.ltb_spec d int64_min); [lia |].
  destruct (Z.ltb_spec int64_max d); lia.
Qed.

Lemma TimeUntilExpiration_negative (creds : Credentials) :
  TimeUntilExpiration E creds < 0
  <-> ExpiresAt (ClaudeAiOauth creds) * 1000000 < nowNano E.
Proof. unfold TimeUntilExpiration. rewrite saturate_negative. lia. Qed.

(** The two views of expiry agree except within the millisecond of
    expiry: a credential [IsTokenExpired] classifies as expired has a
    negative [TimeUntilExpiration], and the converse fails exactly when
    [ExpiresAt] is the current millisecond and the clock is past its
    start: then the token counts as valid while its remaining time is
    negative. *)
Theorem expiry_views_differ_only_within_the_millisecond (creds : Credentials) :
  (IsTokenExpired (nowMilli E) creds = true -> TimeUntilExpiration E creds < 0)
  /\ (IsTokenExpired (nowMilli E) creds = false /\ TimeUntilExpiration E creds < 0
      <-> ExpiresAt (ClaudeAiOauth creds) = nowMilli E /\ 0 < nowNano E mod 1000000).
Proof.
  rewrite TimeUntilExpiration_negative. unfold IsTokenExpired, nowMilli.
  pose proof (Z.div_mod (nowNano E) 1000000 ltac:(lia)) as Hdm.
  pose proof (Z.mod_pos_bound (nowNano E) 1000000 ltac:(lia)) as Hm.
  split.
  - intros H. apply Z.ltb_lt in H. lia.
  - rewrite Z.ltb_ge. lia.
Qed.

(** [FormatExpiration] has two categories, told apart by the sign of the
    remaining time alone: the text starts with ["EXPIRED "] exactly when
    the expiry instant lies before the clock, and with ["Valid for "]
    otherwise. *)
Theorem FormatExpiration_categories (creds : Credentials) :
  (HasPrefix (FormatExpiration E creds) "EXPIRED " = true
   <-> ExpiresAt (ClaudeAiOauth creds) * 1000000 < nowNano E)
  /\ (HasPrefix (FormatExpiration E creds) "Valid for " = true
      <-> nowNano E <= ExpiresAt (ClaudeAiOauth creds) * 1000000).
Proof.
  rewrite <- TimeUntilExpiration_negative. unfold FormatExpiration. cbv zeta.
  destruct (TimeUntilExpiration E creds <? 0) eqn:Hneg;
    [apply Z.ltb_lt in Hneg | apply Z.ltb_ge in Hneg].
  - split; split; intros H; try lia.
    + apply HasPrefix_app.
    + apply HasPrefix_spec in H as [r Hr]. rewrite !append_cons in Hr. discriminate Hr.
    + apply TimeUntilExpiration_negative in Hneg. lia.
  - assert (Hge : nowNano E <= ExpiresAt (ClaudeAiOauth creds) * 1000000).
    { destruct (Z_lt_ge_dec (ExpiresAt (ClaudeAiOauth creds) * 1000000) (nowNano E)) as [Hlt | Hge];
        [apply TimeUntilExpiration_negative in Hlt; lia | lia]. }
    split; split; intros H; try lia; try exact Hge.
    + exfalso. destruct (TimeUntilExpiration E creds <? 24 * Hour);
        apply HasPrefix_spec in H as [r Hr]; rewrite !append_cons in Hr; discriminate Hr.
    + destruct (TimeUntilExpiration E creds <? 24 * Hour); apply HasPrefix_app.
Qed.

(** [GetAuthStatus] shows ["✗ EXPIRED"] exactly when the credentials of
    the sandbox could be extracted and parsed and expire before the
    current millisecond; no other path prints that text. *)
Theorem GetAuthStatus_expired_iff (containerName : string) :
  GetAuthStatus E containerName = "✗ EXPIRED"%string
  <-> exists data creds,
        cp_credentials E containerName = Some data
        /\ Unmarshal data = Some creds
        /\ ExpiresAt (ClaudeAiOauth creds) < nowMilli E.
Proof.
  unfold GetAuthStatus. split.
  - destruct (cp_credentials E containerName) as [data |]; [| discriminate].
    destruct (Unmarshal data) as [creds |] eqn:Hu; [| discriminate].
    destruct (IsTokenExpired (nowMilli E) creds) eqn:Hexp.
    + intros _. exists data, creds. repeat split; auto. now apply Z.ltb_lt.
    + destruct (TimeUntilExpiration E creds <? 24 * Hour);
        intros H; rewrite !append_cons in H; discriminate H.
  - intros (data & creds & -> & -> & Hlt).
    unfold IsTokenExpired. apply Z.ltb_lt in Hlt. now rewrite Hlt.
Qed.

End Status.

End StatusSpec.

(* --------------------------------------------------------------------- *)
(** ** The reconciler: scan in closed form, cleanup, convergence *)
(* --------------------------------------------------------------------- *)

Module SyncFacts.
Import GoStrings GoTime Container Cmd Sync ListingFacts ReconcilerFacts.

(** Membership in a list with one more name, case by case. *)
Ltac by_membership :=
  repeat case_decide; try reflexivity; exfalso;
  repeat match goal with
         | H : _ ∈ _ :: _ |- _ => apply elem_of_cons in H
         | H : _ ∉ _ :: _ |- _ => apply not_elem_of_cons in H
         | H : _ ∈ [] |- _ => apply elem_of_nil in H
         end;
  tauto.

Section Scan.
Context {RT : GoRuntime}.
Variable F : Faults.

Lemma extractedNames_cons (st : Replicas) (c : Info) (cs : list Info) :
  extractedNames F st (c :: cs) =
  if extractable F st c then Name c :: extractedNames F st cs
  else extractedNames F st cs.
Proof. unfold extractedNames. simpl. now destruct (extractable F st c). Qed.

(** One step of the scan, by cases on the state before the scan. *)
Lemma scanContainer_cases (st : Replicas) (acc : Scan) (c : Info) :
  sandboxCred (files acc) = sandboxCred st ->
  (extractable F st c = false /\ readSource F st c = None /\ scanContainer F acc c = acc)
  \/ (exists data,
        sandboxCred st !! Name c = Some data /\ extractable F st c = true
        /\ sources (scanContainer F acc c)
           = sources acc ++ match readSource F st c with Some s => [s] | None => [] end
        /\ deferred (scanContainer F acc c) = Name c :: deferred acc
        /\ hostCred (files (scanContainer F acc c)) = hostCred (files acc)
        /\ sandboxCred (files (scanContainer F acc c)) = sandboxCred (files acc)
        /\ tmpFiles (files (scanContainer F acc c)) = <[Name c := data]> (tmpFiles (files acc))).
Proof.
  intros Hs. unfold scanContainer, cpOut, extractable, readSource. rewrite Hs.
  destruct (cpOutFails F (Name c)) eqn:Hf.
  - left. now destruct (sandboxCred st !! Name c).
  - destruct (sandboxCred st !! Name c) as [data |] eqn:Hd; [| now left].
    right. exists data. split; [reflexivity |]. split; [reflexivity |].
    unfold WriteFile, ReadCredentials, ReadFile. cbn [tmpFiles].
    rewrite lookup_insert_eq.
    destruct (Unmarshal data) as [cr |]; cbn [sources deferred files hostCred sandboxCred tmpFiles];
      rewrite ?app_nil_r; repeat split; congruence.
Qed.

(** The scan loop in closed form. *)
Lemma scan_fold_closed (st : Replicas) (cs : list Info) (acc : Scan) :
  sandboxCred (files acc) = sandboxCred st ->
  let r := fold_left (scanContainer F) cs acc in
  sources r = sources acc ++ omap (readSource F st) cs
  /\ deferred r = rev (extractedNames F st cs) ++ deferred acc
  /\ (forall n, tmpFiles (files r) !! n =
                if decide (n ∈ extractedNames F st cs) then sandboxCred st !! n
                else tmpFiles (files acc) !! n).
Proof.
  revert acc. induction cs as [|c cs IH]; intros acc Hs; cbv zeta.
  - simpl. rewrite app_nil_r. repeat split; auto.
  - simpl fold_left. rewrite extractedNames_cons, omap_cons.
    destruct (scanContainer_cases st acc c Hs)
      as [(Hx & Hr & Heq) | (data & Hd & Hx & Hsrc & Hdef & Hh & Hsc & Htmp)].
    + rewrite Heq, Hx, Hr. apply (IH acc Hs).
    + assert (Hs' : sandboxCred (files (scanContainer F acc c)) = sandboxCred st)
        by congruence.
      destruct (IH _ Hs') as (Hsources & Hdeferred & Htmps).
      rewrite Hx, Hsources, Hdeferred, Hsrc, Hdef. split; [| split].
      * rewrite <- app_assoc. now destruct (readSource F st c).
      * simpl rev. now rewrite <- app_assoc.
      * intros n. rewrite Htmps, Htmp.
        destruct (decide (n = Name c)) as [-> | Hne].
        -- rewrite lookup_insert_eq, Hd. by_membership.
        -- rewrite lookup_insert_ne by congruence. by_membership.
Qed.

(** The scan finds the host replica first, if it reads, and then the
    replica of every container, in listing order, whose extraction and
    parse succeed; a replica that fails is dropped and affects no other. *)
Lemma scan_closed (st : Replicas) (cs : list Info) :
  sources (scan F st cs) = scanHost st ++ omap (readSource F st) cs
  /\ deferred (scan F st cs) = rev (extractedNames F st cs)
  /\ (forall n, tmpFiles (files (scan F st cs)) !! n =
                if decide (n ∈ extractedNames F st cs) then sandboxCred st !! n
                else tmpFiles st !! n).
Proof.
  unfold scan.
  destruct (scan_fold_closed st cs {| sources := scanHost st; files := st; deferred := [] |}
              eq_refl) as (H1 & H2 & H3).
  cbn [sources deferred files] in *. rewrite app_nil_r in H2. auto.
Qed.

End Scan.

(** *** The deferred removals *)

Lemma runDeferred_tmp (names : list string) (st : Replicas) (n : string) :
  tmpFiles (runDeferred names st) !! n =
  if decide (n ∈ names) then None else tmpFiles st !! n.
Proof.
  unfold runDeferred. revert st. induction names as [|m ms IH]; intros st; simpl.
  - by_membership.
  - rewrite IH. unfold Remove. cbn [tmpFiles].
    destruct (decide (n = m)) as [-> | Hne].
    + rewrite lookup_delete_eq. by_membership.
    + rewrite lookup_delete_ne by congruence. by_membership.
Qed.

(** *** The propagation leaves the extraction copies alone *)

Section Propagation.
Variable F : Faults.

Lemma syncHost_tmp (fr : tokenSource) (s : Sync) :
  tmpFiles (store (syncHost F fr s)) = tmpFiles (store s).
Proof.
  unfold syncHost. destruct (negb _); [| reflexivity].
  unfold copyCredentials, WriteFile.
  destruct (ReadFile (store s) (path fr)); [| reflexivity].
  now destruct (hostWriteFails F).
Qed.

Lemma syncContainer_tmp (fr : tokenSource) (s : Sync) (c : Info) :
  tmpFiles (store (syncContainer F fr s c)) = tmpFiles (store s)
  /\ hostCred (store (syncContainer F fr s c)) = hostCred (store s).
Proof.
  unfold syncContainer. destruct (String.eqb _ _); [now split |].
  unfold cpIn. destruct (cpInFails F (Name c)); [now split |].
  destruct (ReadFile _ _); now split.
Qed.

Lemma sync_fold_tmp (fr : tokenSource) (cs : list Info) (s : Sync) :
  tmpFiles (store (fold_left (syncContainer F fr) cs s)) = tmpFiles (store s)
  /\ hostCred (store (fold_left (syncContainer F fr) cs s)) = hostCred (store s).
Proof.
  revert s. induction cs as [|c cs IH]; intros s; simpl; [now split |].
  destruct (IH (syncContainer F fr s c)) as [H1 H2].
  destruct (syncContainer_tmp fr s c) as [H3 H4]. split; congruence.
Qed.

Lemma propagate_tmp (fr : tokenSource) (cs : list Info) (st : Replicas) :
  tmpFiles (store (propagate F fr cs st)) = tmpFiles st.
Proof.
  unfold propagate. destruct (sync_fold_tmp fr cs
    (syncHost F fr {| syncCount := 0; store := st; attempted := [] |})) as [H _].
  rewrite H. apply syncHost_tmp.
Qed.

End Propagation.

End SyncFacts.

Module SyncSpec.
Import GoStrings GoTime Container Cmd Sync Listing Fixtures.
Import ListingFacts TimeFacts ReconcilerFacts SyncFacts.

Lemma elem_of_rev (n : string) (l : list string) : n ∈ rev l <-> n ∈ l.
Proof. rewrite !list_elem_of_In. symmetry. apply in_rev. Qed.

Lemma ReadFile_same (a b : Replicas) (p : Path) :
  hostCred a = hostCred b -> tmpFiles a = tmpFiles b -> ReadFile a p = ReadFile b p.
Proof. intros Hh Ht. destruct p; simpl; congruence. Qed.

Section Pass.
Context {RT : GoRuntime}.
Variable E : Engine.
Variable F : Faults.
Variable configPrefix : string.

(** The scan reads the replicas independently and in scan order: its
    sources are the host replica, if it reads, followed by the replica of
    each listed container whose extraction and parse succeed, judged on
    the state before the scan; scanning a longer listing only adds the
    sources of the added containers, and every source is the host or a
    listed container. *)
Theorem scan_sources_in_scan_order (st : Replicas) (cs more : list Info) :
  sources (scan F st cs) = scanHost st ++ omap (readSource F st) cs
  /\ sources (scan F st (cs ++ more))
     = sources (scan F st cs) ++ omap (readSource F st) more
  /\ (forall src, In src (sources (scan F st cs)) ->
        (location src = "host"%string /\ path src = HostCredPath)
        \/ (exists c, In c cs /\ location src = Name c /\ path src = TmpPath (Name c))).
Proof.
  destruct (scan_closed F st cs) as (Hs & _).
  destruct (scan_closed F st (cs ++ more)) as (Hs' & _).
  split; [exact Hs |]. split.
  - rewrite Hs', Hs, omap_app. now rewrite <- app_assoc.
  - intros src Hin. rewrite Hs in Hin. apply in_app_or in Hin as [Hin | Hin].
    + left. unfold scanHost in Hin.
      destruct (ReadCredentials st HostCredPath); [| now elim Hin].
      destruct Hin as [<- | []]. now split.
    + right. apply list_elem_of_In, list_elem_of_omap in Hin as (c & Hc & Hsrc).
      exists c. split; [now apply list_elem_of_In |].
      unfold readSource in Hsrc.
      destruct (cpOutFails F (Name c)); [discriminate |].
      destruct (sandboxCred st !! Name c) as [data |]; [| discriminate].
      destruct (Unmarshal data); [| discriminate].
      injection Hsrc as <-. now split.
Qed.

Lemma stage_Propagate_inv (st : Replicas) sc cs fr :
  stage E F configPrefix st = Propagate sc cs fr ->
  listContainers E configPrefix = Some cs /\ sc = scan F st cs
  /\ fr = Select (sources sc)
  /\ exists cr, creds fr = Some cr /\ IsTokenExpired (nowMilli E) cr = false.
Proof.
  unfold stage.
  destruct (listContainers E configPrefix) as [containers |]; [| discriminate].
  destruct (length (sources (scan F st containers)) =? 0)%nat; [discriminate |].
  destruct (creds (Select (sources (scan F st containers)))) as [cr |] eqn:Hcr;
    [| discriminate].
  destruct (IsTokenExpired (nowMilli E) cr) eqn:Hexp; [discriminate |].
  intros [= <- <- <-]. repeat split; auto. now exists cr.
Qed.

(** Whatever the outcome of a pass whose listing succeeded, the extraction
    copy of every container whose replica was extracted is removed at the
    end, and no other temporary file is touched. *)
Theorem extraction_copies_are_removed (st : Replicas) (cs : list Info) :
  listContainers E configPrefix = Some cs ->
  forall n,
    tmpFiles (after (runRefreshTokens E F configPrefix st)) !! n =
    if decide (n ∈ extractedNames F st cs) then None else tmpFiles st !! n.
Proof.
  intros Hl n.
  destruct (scan_closed F st cs) as (_ & Hdef & Htmp).
  assert (Hend : forall st', tmpFiles st' = tmpFiles (files (scan F st cs)) ->
            tmpFiles (runDeferred (deferred (scan F st cs)) st') !! n =
            if decide (n ∈ extractedNames F st cs) then None else tmpFiles st !! n).
  { intros st' Hst'. rewrite runDeferred_tmp, Hdef, Hst', Htmp.
    repeat case_decide; try reflexivity; exfalso;
      match goal with H : _ |- _ => apply elem_of_rev in H; contradiction
                 | H : ~ _ |- _ => apply H, elem_of_rev; assumption end. }
  unfold runRefreshTokens, stage. rewrite Hl.
  destruct (length (sources (scan F st cs)) =? 0)%nat; [now apply Hend |].
  destruct (creds (Select (sources (scan F st cs)))) as [cr |]; [| now apply Hend].
  destruct (IsTokenExpired (nowMilli E) cr); [now apply Hend |].
  cbn [after]. apply Hend. apply propagate_tmp.
Qed.

(** The loop over the containers in closed form: a sandbox is written, with
    the content of the file propagated, exactly when it is listed, is not
    the source and its copy does not fail. *)
Lemma sync_fold_sandbox (fr : tokenSource) (data : string) (cs : list Info) (s : Sync) :
  ReadFile (store s)
    (if String.eqb (location fr) "host" then HostCredPath else path fr) = Some data ->
  forall n,
    sandboxCred (store (fold_left (syncContainer F fr) cs s)) !! n =
    if existsb (String.eqb n) (map Name cs)
       && negb (String.eqb n (location fr)) && negb (cpInFails F n)
    then Some data else sandboxCred (store s) !! n.
Proof.
  revert s. induction cs as [|c cs IH]; intros s Hread n; [reflexivity |].
  simpl fold_left.
  assert (Hread' : ReadFile (store (syncContainer F fr s c))
            (if String.eqb (location fr) "host" then HostCredPath else path fr) = Some data).
  { destruct (syncContainer_tmp F fr s c) as [Ht Hh].
    rewrite (ReadFile_same _ (store s)); auto. }
  rewrite (IH _ Hread' n). simpl map. simpl existsb.
  destruct (existsb (String.eqb n) (map Name cs)
            && negb (String.eqb n (location fr)) && negb (cpInFails F n)) eqn:Hlater.
  - rewrite orb_comm. apply andb_true_iff in Hlater as [Hlater Hcp].
    apply andb_true_iff in Hlater as [Hex Hloc]. now rewrite Hex, Hloc, Hcp.
  - unfold syncContainer.
    destruct (String.eqb n (Name c)) eqn:Hn.
    + apply String.eqb_eq in Hn. subst n. cbn [orb].
      destruct (String.eqb (Name c) (location fr)); [reflexivity |]. cbn [negb andb].
      unfold cpIn. destruct (cpInFails F (Name c)); [reflexivity |].
      rewrite Hread. cbn [store sandboxCred negb]. apply lookup_insert_eq.
    + cbn [orb]. rewrite Hlater.
      destruct (String.eqb (Name c) (location fr)); [reflexivity |].
      unfold cpIn. destruct (cpInFails F (Name c)); [reflexivity |].
      rewrite Hread. cbn [store sandboxCred]. apply lookup_insert_ne.
      intros Heq. apply String.eqb_neq in Hn. congruence.
Qed.

(** After a pass that reaches the Propagate stage, with no sandbox named
    ["host"] in the listing, the replicas converge on the freshest one: the
    content [data] of the selected replica parses to the selected
    credentials; the host holds [data] if it is the source or its write did
    not fail; every listed sandbox holds [data] if it is the source or its
    copy did not fail; and a sandbox that is not listed, or whose copy
    fails, keeps what it held. *)
Theorem propagation_converges_on_the_freshest (st : Replicas) sc cs fr :
  stage E F configPrefix st = Propagate sc cs fr ->
  (forall c, In c cs -> Name c <> "host"%string) ->
  exists data cr,
    creds fr = Some cr /\ Unmarshal data = Some cr
    /\ ReadFile (files sc) (path fr) = Some data
    /\ (hostCred st = Some data /\ location fr = "host"%string
        \/ sandboxCred st !! location fr = Some data /\ location fr <> "host"%string)
    /\ (location fr = "host"%string \/ hostWriteFails F = false ->
        hostCred (after (runRefreshTokens E F configPrefix st)) = Some data)
    /\ (forall c, In c cs ->
          Name c = location fr \/ cpInFails F (Name c) = false ->
          sandboxCred (after (runRefreshTokens E F configPrefix st)) !! Name c = Some data)
    /\ (forall n, (forall c, In c cs -> Name c <> n) \/ cpInFails F n = true ->
          sandboxCred (after (runRefreshTokens E F configPrefix st)) !! n
          = sandboxCred st !! n).
Proof.
  intros Hst Hnohost.
  destruct (stage_Propagate_inv st sc cs fr Hst) as (Hl & -> & Hfr & cr & Hcr & Hexp).
  destruct (scan_closed F st cs) as (Hsrc & _ & Htmp).
  destruct (scan_same F st cs) as [Hhost Hsand].
  (* the selected replica is a source of the scan *)
  assert (Hin : In fr (sources (scan F st cs))).
  { rewrite Hfr. apply Select_with_creds_maximal; [apply scan_scanned |].
    rewrite <- Hfr, Hcr. discriminate. }
  (* what backs it *)
  assert (Hback : exists data,
            Unmarshal data = Some cr /\ ReadFile (files (scan F st cs)) (path fr) = Some data
            /\ (hostCred st = Some data /\ location fr = "host"%string
                /\ path fr = HostCredPath
                \/ sandboxCred st !! location fr = Some data
                   /\ location fr <> "host"%string /\ path fr = TmpPath (location fr))).
  { rewrite Hsrc in Hin. apply in_app_or in Hin as [Hin | Hin].
    - unfold scanHost, ReadCredentials in Hin. simpl ReadFile in Hin.
      destruct (hostCred st) as [data |] eqn:Hd; [| now elim Hin].
      destruct (Unmarshal data) as [hc |] eqn:Hu; [| now elim Hin].
      destruct Hin as [<- | []]. simpl in Hcr. injection Hcr as <-.
      exists data. split; [exact Hu |]. simpl. split; [exact Hhost |].
      left. auto.
    - apply list_elem_of_In, list_elem_of_omap in Hin as (c & Hc & Hread).
      apply list_elem_of_In in Hc.
      assert (Hx : extractable F st c = true).
      { unfold readSource in Hread. unfold extractable.
        destruct (cpOutFails F (Name c)); [discriminate |].
        now destruct (sandboxCred st !! Name c). }
      unfold readSource in Hread.
      destruct (cpOutFails F (Name c)); [discriminate |].
      destruct (sandboxCred st !! Name c) as [data |] eqn:Hd; [| discriminate].
      destruct (Unmarshal data) as [c' |] eqn:Hu; [| discriminate].
      injection Hread as <-. simpl in Hcr. injection Hcr as <-.
      exists data. split; [exact Hu |]. simpl. split.
      + rewrite Htmp. case_decide as Hmem; [exact Hd |]. exfalso. apply Hmem.
        unfold extractedNames. apply list_elem_of_In, in_map, filter_In. now split.
      + right. split; [exact Hd |]. split; [now apply Hnohost | reflexivity]. }
  destruct Hback as (data & Hu & Hread & Hcase).
  exists data, cr. split; [exact Hcr |]. split; [exact Hu |]. split; [exact Hread |].
  split; [tauto |].
  (* the pass *)
  unfold runRefreshTokens. rewrite Hst. cbn [after].
  set (s0 := syncHost F fr {| syncCount := 0; store := files (scan F st cs); attempted := [] |}).
  assert (Hs0 : sandboxCred (store s0) = sandboxCred st
                /\ tmpFiles (store s0) = tmpFiles (files (scan F st cs))
                /\ (location fr = "host"%string \/ hostWriteFails F = false ->
                    hostCred (store s0) = Some data)).
  { unfold s0, syncHost.
    destruct Hcase as [(Hd & Hloc & Hp) | (Hd & Hloc & Hp)].
    - rewrite Hloc. cbn [String.eqb Ascii.eqb Bool.eqb negb]. simpl.
      split; [exact Hsand |]. split; [reflexivity |]. intros _. now rewrite Hhost.
    - apply String.eqb_neq in Hloc. rewrite Hloc. cbn [negb].
      unfold copyCredentials. simpl store. rewrite Hread. unfold WriteFile.
      destruct (hostWriteFails F); simpl.
      + split; [exact Hsand |]. split; [reflexivity |].
        intros [H | H]; [apply String.eqb_neq in Hloc; contradiction | discriminate].
      + split; [exact Hsand |]. split; [reflexivity |]. auto. }
  destruct Hs0 as (Hs0sand & Hs0tmp & Hs0host).
  assert (Hread0 : ReadFile (store s0)
            (if String.eqb (location fr) "host" then HostCredPath else path fr) = Some data).
  { destruct Hcase as [(Hd & Hloc & Hp) | (Hd & Hloc & Hp)].
    - rewrite Hloc. cbn [String.eqb Ascii.eqb Bool.eqb]. simpl. apply Hs0host. now left.
    - apply String.eqb_neq in Hloc. rewrite Hloc, Hp. simpl. rewrite Hs0tmp.
      rewrite Hp in Hread. exact Hread. }
  unfold propagate. fold s0.
  pose proof (sync_fold_sandbox fr data cs s0 Hread0) as Hsb.
  destruct (sync_fold_tmp F fr cs s0) as [_ Hfoldhost].
  destruct (runDeferred_same (deferred (scan F st cs))
              (store (fold_left (syncContainer F fr) cs s0))) as [Hdh Hds].
  rewrite Hdh, Hds. split; [| split].
  - intros H. rewrite Hfoldhost. now apply Hs0host.
  - intros c Hc Hok. rewrite Hsb.
    assert (Hex : existsb (String.eqb (Name c)) (map Name cs) = true).
    { apply existsb_exists. exists (Name c). split; [now apply in_map |].
      apply String.eqb_refl. }
    rewrite Hex. cbn [andb].
    destruct (String.eqb (Name c) (location fr)) eqn:Hloc.
    + apply String.eqb_eq in Hloc. cbn [negb andb]. rewrite Hs0sand, Hloc.
      destruct Hcase as [(Hd & Hl' & _) | (Hd & _)]; [| exact Hd].
      exfalso. apply (Hnohost c Hc). congruence.
    + destruct Hok as [Hok | Hok]; [apply String.eqb_neq in Hloc; contradiction |].
      now rewrite Hok.
  - intros n Hn. rewrite Hsb, Hs0sand.
    destruct Hn as [Hn | Hn].
    + assert (Hex : existsb (String.eqb n) (map Name cs) = false).
      { apply not_true_is_false. intros Hex. apply existsb_exists in Hex as (m & Hm & Heq).
        apply String.eqb_eq in Heq. subst m. apply in_map_iff in Hm as (c & Hc & Hin').
        now apply (Hn c Hin'). }
      now rewrite Hex.
    + rewrite Hn. cbn [negb]. now rewrite andb_false_r.
Qed.

End Pass.

Section RefreshOne.
Context {RT : GoRuntime}.
Variable E : Engine.
Variable F : Faults.

Lemma readSource_Some (st : Replicas) (c : Info) (src : tokenSource) :
  readSource F st c = Some src ->
  exists data cr, cpOutFails F (Name c) = false /\ sandboxCred st !! Name c = Some data
                  /\ Unmarshal data = Some cr /\ creds src = Some cr
                  /\ millis src = ExpiresAt (ClaudeAiOauth cr).
Proof.
  unfold readSource. destruct (cpOutFails F (Name c)); [discriminate |].
  destruct (sandboxCred st !! Name c) as [data |]; [| discriminate].
  destruct (Unmarshal data) as [cr |] eqn:Hu; [| discriminate].
  intros [= <-]. exists data, cr. repeat split; auto.
Qed.

(** One step of the loop: the files keep the replicas and what backs the
    freshest, and the freshest moves to the replica of [c] exactly when it
    reads and is later. *)
Lemma checkContainer_step (st : Replicas) (acc : Check) (c : Info) (m : Z) :
  sandboxCred (held acc) = sandboxCred st -> hostCred (held acc) = hostCred st ->
  backed st acc m ->
  sandboxCred (held (checkContainer F acc c)) = sandboxCred st
  /\ hostCred (held (checkContainer F acc c)) = hostCred st
  /\ match readSource F st c with
     | Some src =>
         if m <? millis src
         then backed st (checkContainer F acc c) (millis src)
         else backed st (checkContainer F acc c) m
              /\ best (checkContainer F acc c) = best acc
     | None => backed st (checkContainer F acc c) m
               /\ best (checkContainer F acc c) = best acc
     end.
Proof.
  intros Hs Hh [Ht Hpath].
  assert (Hkeep : forall data,
            sandboxCred st !! Name c = Some data ->
            match freshestPath (best acc) with
            | HostCredPath =>
                exists cr, ReadCredentials st HostCredPath = Some cr
                           /\ ExpiresAt (ClaudeAiOauth cr) = m
            | TmpPath n =>
                exists d0 cr,
                  sandboxCred st !! n = Some d0
                  /\ <[Name c := data]> (tmpFiles (held acc)) !! n = Some d0
                  /\ Unmarshal d0 = Some cr /\ ExpiresAt (ClaudeAiOauth cr) = m
            | EmptyPath => m = zeroUnixMilli /\ ReadCredentials st HostCredPath = None
            end).
  { intros data Hd. destruct (freshestPath (best acc)) as [| n |]; auto.
    destruct Hpath as (d0 & c0 & H1 & H2 & H3 & H4). exists d0, c0.
    split; [exact H1 |]. split; [| auto].
    destruct (decide (Name c = n)) as [Heq | Hne].
    - subst n. rewrite lookup_insert_eq. congruence.
    - now rewrite lookup_insert_ne. }
  unfold checkContainer, cpOut, readSource. rewrite Hs.
  destruct (cpOutFails F (Name c)); [repeat split; auto |].
  destruct (sandboxCred st !! Name c) as [data |] eqn:Hd; [| repeat split; auto].
  specialize (Hkeep data eq_refl).
  unfold WriteFile, ReadCredentials, ReadFile. cbn [tmpFiles].
  rewrite lookup_insert_eq.
  destruct (Unmarshal data) as [cr |] eqn:Hu.
  - cbv zeta. rewrite Ht, After_UnixMilli. unfold millis at 1 2. cbn [creds].
    destruct (m <? ExpiresAt (ClaudeAiOauth cr)); cbn [held best hostCred sandboxCred].
    + split; [exact Hs |]. split; [exact Hh |]. split; [reflexivity |].
      cbn [best freshestPath held tmpFiles]. exists data, cr.
      rewrite lookup_insert_eq. auto.
    + split; [exact Hs |]. split; [exact Hh |]. split; [| reflexivity].
      split; [exact Ht |]. exact Hkeep.
  - cbn [held best hostCred sandboxCred]. split; [exact Hs |]. split; [exact Hh |].
    split; [| reflexivity]. split; [exact Ht |]. exact Hkeep.
Qed.

(** The loop of [RefreshTokens] keeps the replicas, and its freshest stays
    backed by a file and at least as late as every replica read so far; it
    moves only to a replica that is strictly later. *)
Lemma check_fold (st : Replicas) (cs : list Info) :
  forall (acc : Check) (m : Z),
    sandboxCred (held acc) = sandboxCred st -> hostCred (held acc) = hostCred st ->
    backed st acc m ->
    let r := fold_left (checkContainer F) cs acc in
    sandboxCred (held r) = sandboxCred st /\ hostCred (held r) = hostCred st
    /\ exists m', backed st r m' /\ m <= m'
         /\ (forall src, In src (omap (readSource F st) cs) -> millis src <= m')
         /\ (best r = best acc
             \/ exists src, In src (omap (readSource F st) cs) /\ m < millis src).
Proof.
  induction cs as [|c cs IH]; intros acc m Hs Hh Hb; cbv zeta.
  - simpl. split; [exact Hs |]. split; [exact Hh |]. exists m.
    split; [exact Hb |]. split; [lia |]. split; [intros src [] | now left].
  - simpl fold_left. rewrite omap_cons.
    destruct (checkContainer_step st acc c m Hs Hh Hb) as (Hs' & Hh' & Hstep).
    destruct (readSource F st c) as [src |].
    + destruct (m <? millis src) eqn:Hlt;
        [apply Z.ltb_lt in Hlt | apply Z.ltb_ge in Hlt].
      * destruct (IH _ (millis src) Hs' Hh' Hstep) as (H1 & H2 & m' & Hb' & Hle & Hmax & Hmove).
        split; [exact H1 |]. split; [exact H2 |]. exists m'.
        split; [exact Hb' |]. split; [lia |]. split.
        -- intros s [<- | Hin]; [lia | now apply Hmax].
        -- right. destruct Hmove as [_ | (s & Hin & Hs2)].
           ++ exists src. split; [now left | exact Hlt].
           ++ exists s. split; [now right | lia].
      * destruct Hstep as [Hb1 Hbest].
        destruct (IH _ m Hs' Hh' Hb1) as (H1 & H2 & m' & Hb' & Hle & Hmax & Hmove).
        split; [exact H1 |]. split; [exact H2 |]. exists m'.
        split; [exact Hb' |]. split; [lia |]. split.
        -- intros s [<- | Hin]; [lia | now apply Hmax].
        -- destruct Hmove as [Heq | (s & Hin & Hs2)]; [left; congruence |].
           right. exists s. split; [now right | exact Hs2].
    + destruct Hstep as [Hb1 Hbest].
      destruct (IH _ m Hs' Hh' Hb1) as (H1 & H2 & m' & Hb' & Hle & Hmax & Hmove).
      split; [exact H1 |]. split; [exact H2 |]. exists m'.
      split; [exact Hb' |]. split; [lia |]. split; [exact Hmax |].
      destruct Hmove as [Heq | Hex]; [left; congruence | now right].
Qed.

Lemma checkHost_backed (st : Replicas) :
  exists m, backed st {| best := checkHost st; held := st; pending := [] |} m
            /\ forall src, In src (scanHost st) -> millis src <= m.
Proof.
  unfold backed, checkHost, scanHost. cbn [best].
  destruct (ReadCredentials st HostCredPath) as [hc |] eqn:Hr.
  - exists (ExpiresAt (ClaudeAiOauth hc)). cbn [freshestTime freshestPath].
    split; [split; [reflexivity | now exists hc] |].
    intros src [<- | []]. unfold millis. simpl. lia.
  - exists zeroUnixMilli. cbn [freshestTime freshestPath].
    split; [split; [reflexivity | now split] |]. intros src [].
Qed.

(** What the loop of [RefreshTokens] hands to the copy: either nothing was
    read after the zero [Time], and then no replica read is later than it
    and the host did not read; or a file that parses to credentials no
    replica read outlives. *)
Lemma RefreshTokens_freshest (st : Replicas) (cs : list Info) :
  let sc := fold_left (checkContainer F) cs
              {| best := checkHost st; held := st; pending := [] |} in
  sandboxCred (held sc) = sandboxCred st /\ hostCred (held sc) = hostCred st
  /\ (freshestPath (best sc) = EmptyPath
      /\ ReadCredentials st HostCredPath = None
      /\ (forall src, In src (omap (readSource F st) cs) -> millis src <= zeroUnixMilli)
      \/ freshestPath (best sc) <> EmptyPath
         /\ (ReadCredentials st HostCredPath <> None
             \/ exists src, In src (omap (readSource F st) cs)
                            /\ zeroUnixMilli < millis src)
         /\ exists data cr,
              ReadFile (held sc) (freshestPath (best sc)) = Some data
              /\ Unmarshal data = Some cr
              /\ forall src, In src (scanHost st ++ omap (readSource F st) cs) ->
                             millis src <= ExpiresAt (ClaudeAiOauth cr)).
Proof.
  cbv zeta. destruct (checkHost_backed st) as (m & Hb & Hdone).
  destruct (check_fold st cs {| best := checkHost st; held := st; pending := [] |}
              m eq_refl eq_refl Hb)
    as (Hs & Hh & m' & [Ht Hpath] & Hle & Hmax & Hmove).
  cbv zeta in Hs, Hh, Ht, Hpath, Hmax, Hmove.
  split; [exact Hs |]. split; [exact Hh |].
  assert (Hall : forall src, In src (scanHost st ++ omap (readSource F st) cs) ->
                             millis src <= m').
  { intros src Hin. apply in_app_or in Hin as [Hin | Hin];
      [specialize (Hdone src Hin); lia | now apply Hmax]. }
  assert (Hwhy : freshestPath (best (fold_left (checkContainer F) cs
                   {| best := checkHost st; held := st; pending := [] |})) <> EmptyPath ->
                 ReadCredentials st HostCredPath <> None
                 \/ exists src, In src (omap (readSource F st) cs)
                                /\ zeroUnixMilli < millis src).
  { intros Hne. destruct (ReadCredentials st HostCredPath) as [hc |] eqn:Hr;
      [left; discriminate |]. right.
    destruct Hmove as [Heq | (src & Hin & Hlt)].
    - exfalso. apply Hne. rewrite Heq. cbn [best]. unfold checkHost. now rewrite Hr.
    - exists src. split; [exact Hin |].
      destruct Hb as [_ Hb]. cbn [best] in Hb. unfold checkHost in Hb. rewrite Hr in Hb.
      cbn [freshestPath] in Hb. destruct Hb as [-> _]. exact Hlt. }
  destruct (freshestPath (best (fold_left (checkContainer F) cs
              {| best := checkHost st; held := st; pending := [] |}))) as [| n |] eqn:Hp.
  - right. split; [discriminate |]. split; [apply Hwhy; discriminate |].
    destruct Hpath as (cr & Hr & Hm).
    unfold ReadCredentials in Hr. simpl in Hr.
    destruct (hostCred st) as [data |] eqn:Hd; [| discriminate].
    exists data, cr. simpl. rewrite Hh. repeat split; auto. now rewrite Hm.
  - right. split; [discriminate |]. split; [apply Hwhy; discriminate |].
    destruct Hpath as (data & cr & H1 & H2 & H3 & Hm).
    exists data, cr. simpl. repeat split; auto. now rewrite Hm.
  - left. destruct Hpath as [-> Hr]. split; [reflexivity |]. split; [exact Hr |].
    exact Hmax.
Qed.

(** [RefreshTokens] returns [nil] only after the target sandbox received
    the freshest credentials: the target then holds a content that parses
    to credentials [IsTokenExpired] does not classify as expired and whose
    expiry no replica read (the host, the running ["mcl-"] sandboxes)
    exceeds; the copy and the change of owner both succeeded. *)
Theorem RefreshTokens_nil_means_target_is_fresh (target : string) (st : Replicas) :
  failure (RefreshTokens E F target st) = None ->
  exists cs data cr,
    GetRunningContainers E "mcl-" = Some cs
    /\ sandboxCred (left (RefreshTokens E F target st)) !! target = Some data
    /\ Unmarshal data = Some cr
    /\ IsTokenExpired (nowMilli E) cr = false
    /\ (forall src, In src (scanHost st ++ omap (readSource F st) cs) ->
                    millis src <= ExpiresAt (ClaudeAiOauth cr))
    /\ cpInFails F target = false /\ chownFails F target = false.
Proof.
  unfold RefreshTokens.
  destruct (GetRunningContainers E "mcl-") as [cs |]; [| discriminate].
  destruct (RefreshTokens_freshest st cs) as (Hs & Hh & Hcase). cbv zeta in *.
  set (sc := fold_left (checkContainer F) cs
               {| best := checkHost st; held := st; pending := [] |}) in *.
  destruct Hcase as [(Hp & _) | (Hp & _ & data & cr & Hread & Hu & Hmax)].
  - rewrite Hp. discriminate.
  - assert (Hrc : ReadCredentials (held sc) (freshestPath (best sc)) = Some cr).
    { unfold ReadCredentials. now rewrite Hread. }
    destruct (freshestPath (best sc)) as [| n |] eqn:Hpath; [| | now elim Hp];
      rewrite Hrc;
      (destruct (IsTokenExpired (nowMilli E) cr) eqn:Hexp; [discriminate |]);
      unfold cpIn; (destruct (cpInFails F target) eqn:Hcp; [discriminate |]);
      rewrite Hread;
      (destruct (chownFails F target) eqn:Hch; [discriminate |]);
      intros _; exists cs, data, cr; cbn [left];
      destruct (runDeferred_same (pending sc)
                  {| hostCred := hostCred (held sc); tmpFiles := tmpFiles (held sc);
                     sandboxCred := <[target := data]> (sandboxCred (held sc)) |})
        as [_ Hds];
      rewrite Hds; cbn [sandboxCred]; rewrite lookup_insert_eq; repeat split; auto.
Qed.

(** [RefreshTokens] fails closed: with any error but the one about the
    owner the host and every sandbox hold what they held and no copy
    succeeded, while the error about the owner comes after the copy, so
    the target already holds the new content.  And where the host does not
    read and no sandbox holds credentials later than the zero [Time], it
    returns "no valid credentials found" without attempting a write. *)
Theorem RefreshTokens_fails_closed (target : string) (st : Replicas) :
  (forall msg, failure (RefreshTokens E F target st) = Some msg ->
     msg <> "failed to fix credentials ownership"%string ->
     sameReplicas (left (RefreshTokens E F target st)) st
     /\ successes (writes (RefreshTokens E F target st)) = 0%nat)
  /\ (failure (RefreshTokens E F target st)
        = Some "failed to fix credentials ownership"%string ->
      successes (writes (RefreshTokens E F target st)) = 1%nat
      /\ is_Some (sandboxCred (left (RefreshTokens E F target st)) !! target))
  /\ (forall cs, GetRunningContainers E "mcl-" = Some cs ->
        ReadCredentials st HostCredPath = None ->
        (forall src, In src (omap (readSource F st) cs) -> millis src <= zeroUnixMilli) ->
        failure (RefreshTokens E F target st) = Some "no valid credentials found"%string
        /\ writes (RefreshTokens E F target st) = []).
Proof.
  unfold RefreshTokens.
  destruct (GetRunningContainers E "mcl-") as [cs |].
  2: { split; [| split]; [intros msg _ _; now split | discriminate | discriminate]. }
  destruct (RefreshTokens_freshest st cs) as (Hs & Hh & Hcase). cbv zeta in *.
  set (sc := fold_left (checkContainer F) cs
               {| best := checkHost st; held := st; pending := [] |}) in *.
  assert (Hsame : sameReplicas (runDeferred (pending sc) (held sc)) st).
  { destruct (runDeferred_same (pending sc) (held sc)) as [H1 H2]. split; congruence. }
  destruct Hcase as [(Hp & Hhost & Hmax) | (Hp & Hwhy & data & cr & Hread & Hu & Hmax)].
  - rewrite Hp. split; [| split].
    + intros msg _ _. now split.
    + discriminate.
    + intros cs' [= <-] _ _. now split.
  - assert (Hrc : ReadCredentials (held sc) (freshestPath (best sc)) = Some cr).
    { unfold ReadCredentials. now rewrite Hread. }
    assert (Hlate : forall cs', Some cs = Some cs' ->
              ReadCredentials st HostCredPath = None ->
              (forall src, In src (omap (readSource F st) cs') ->
                           millis src <= zeroUnixMilli) -> False).
    { intros cs' [= <-] Hnone Hall. destruct Hwhy as [Hw | (src & Hin & Hlt)];
        [contradiction | specialize (Hall src Hin); lia]. }
    assert (Hgoal : forall p, p <> EmptyPath -> freshestPath (best sc) = p ->
      let r :=
        if IsTokenExpired (nowMilli E) cr
        then {| failure := Some "all tokens are expired"%string;
                left := runDeferred (pending sc) (held sc); writes := [] |}
        else match cpIn F (held sc) p target with
             | Some st' =>
                 if chownFails F target
                 then {| failure := Some "failed to fix credentials ownership"%string;
                         left := runDeferred (pending sc) st';
                         writes := [CopyToSandbox p target true;
                                    ChownSandbox target false] |}
                 else {| failure := None; left := runDeferred (pending sc) st';
                         writes := [CopyToSandbox p target true;
                                    ChownSandbox target true] |}
             | None =>
                 {| failure := Some "failed to copy credentials to container"%string;
                    left := runDeferred (pending sc) (held sc);
                    writes := [CopyToSandbox p target false] |}
             end in
      (forall msg, failure r = Some msg ->
         msg <> "failed to fix credentials ownership"%string ->
         sameReplicas (left r) st /\ successes (writes r) = 0%nat)
      /\ (failure r = Some "failed to fix credentials ownership"%string ->
          successes (writes r) = 1%nat /\ is_Some (sandboxCred (left r) !! target))
      /\ (forall cs', Some cs = Some cs' ->
            ReadCredentials st HostCredPath = None ->
            (forall src, In src (omap (readSource F st) cs') ->
                         millis src <= zeroUnixMilli) ->
            failure r = Some "no valid credentials found"%string /\ writes r = [])).
    { intros p Hpne Hpeq. cbv zeta. rewrite Hpeq in Hread.
      split; [| split]; [| | intros cs' H1 H2 H3; now destruct (Hlate cs' H1 H2 H3)].
      - destruct (IsTokenExpired (nowMilli E) cr); [intros msg _ _; now split |].
        unfold cpIn. destruct (cpInFails F target); [intros msg _ _; now split |].
        rewrite Hread. destruct (chownFails F target); cbn [failure].
        + intros msg [= <-] Hne. now elim Hne.
        + discriminate.
      - destruct (IsTokenExpired (nowMilli E) cr); [discriminate |].
        unfold cpIn. destruct (cpInFails F target); [discriminate |].
        rewrite Hread. destruct (chownFails F target); cbn [failure]; [| discriminate].
        intros _. split; [reflexivity |]. cbn [left].
        destruct (runDeferred_same (pending sc)
                    {| hostCred := hostCred (held sc); tmpFiles := tmpFiles (held sc);
                       sandboxCred := <[target := data]> (sandboxCred (held sc)) |})
          as [_ Hds].
        rewrite Hds. cbn [sandboxCred]. rewrite lookup_insert_eq. now eexists. }
    destruct (freshestPath (best sc)) as [| n |] eqn:Hpath; [| | now elim Hp];
      rewrite Hrc.
    + apply (Hgoal HostCredPath); [discriminate | reflexivity].
    + apply (Hgoal (TmpPath n)); [discriminate | reflexivity].
Qed.

End RefreshOne.

(** Scenario A: after the pass the extraction copy of [mcl-a] is gone. *)
Lemma extraction_copies_witness :
  tmpFiles (after (@runRefreshTokens plainRuntime twoSandboxes noFaults "mcl-" scenarioA))
    !! "mcl-a" = None.
Proof.
  rewrite (@extraction_copies_are_removed plainRuntime twoSandboxes noFaults "mcl-"
             scenarioA
             (default [] (@listContainers plainRuntime twoSandboxes "mcl-"))
             eq_refl "mcl-a").
  vm_compute. reflexivity.
Defined.

(** Scenario A: the host and both sandboxes end with the content of
    [mcl-a]. *)
Lemma propagation_scenario_A_witness :
  exists data,
    hostCred (after (@runRefreshTokens plainRuntime twoSandboxes noFaults "mcl-" scenarioA))
    = Some data
    /\ sandboxCred (after (@runRefreshTokens plainRuntime twoSandboxes noFaults "mcl-"
                             scenarioA)) !! "mcl-b" = Some data
    /\ sandboxCred scenarioA !! "mcl-a" = Some data.
Proof.
  pose (cs := default [] (@listContainers plainRuntime twoSandboxes "mcl-")).
  pose (sc := @scan plainRuntime noFaults scenarioA cs).
  assert (Hst : @stage plainRuntime twoSandboxes noFaults "mcl-" scenarioA
                = Propagate sc cs (Select (sources sc))) by (vm_compute; reflexivity).
  assert (Hnohost : forall c, In c cs -> Name c <> "host"%string).
  { intros c Hin. vm_compute in Hin. destruct Hin as [<- | [<- | []]]; discriminate. }
  destruct (@propagation_converges_on_the_freshest plainRuntime twoSandboxes noFaults
              "mcl-" scenarioA sc cs (Select (sources sc)) Hst Hnohost)
    as (data & cr & _ & _ & _ & Hsrc & Hhost & Hsand & _).
  exists data. split; [apply Hhost; now right |]. split.
  - assert (Hb : exists c, In c cs /\ Name c = "mcl-b"%string).
    { eexists. split; [right; left; reflexivity | reflexivity]. }
    destruct Hb as (c & Hc & Hn). rewrite <- Hn. apply Hsand; [exact Hc | now right].
  - destruct Hsrc as [[_ Hloc] | [Hd _]].
    + vm_compute in Hloc. discriminate Hloc.
    + exact Hd.
Defined.

(** Scenario A through [RefreshTokens] for the target [mcl-b]. *)
Lemma RefreshTokens_scenario_A_witness :
  exists data cr,
    sandboxCred (left (@RefreshTokens plainRuntime twoSandboxes noFaults "mcl-b" scenarioA))
      !! "mcl-b" = Some data
    /\ @Unmarshal plainRuntime data = Some cr
    /\ IsTokenExpired (nowMilli twoSandboxes) cr = false.
Proof.
  assert (Hnil : failure (@RefreshTokens plainRuntime twoSandboxes noFaults "mcl-b"
                            scenarioA) = None) by (vm_compute; reflexivity).
  destruct (@RefreshTokens_nil_means_target_is_fresh plainRuntime twoSandboxes noFaults
              "mcl-b" scenarioA Hnil) as (cs & data & cr & _ & Hd & Hu & Hexp & _).
  exists data, cr. auto.
Defined.

(** Scenario B through [RefreshTokens]: nothing reads, nothing is written. *)
Lemma RefreshTokens_nothing_readable_witness :
  failure (@RefreshTokens plainRuntime noSandboxes noFaults "mcl-b" nothingReadable)
  = Some "no valid credentials found"%string
  /\ writes (@RefreshTokens plainRuntime noSandboxes noFaults "mcl-b" nothingReadable) = [].
Proof.
  destruct (@RefreshTokens_fails_closed plainRuntime noSandboxes noFaults "mcl-b"
              nothingReadable) as (_ & _ & H).
  apply (H [] eq_refl eq_refl). intros src [].
Defined.

End SyncSpec.

(* --------------------------------------------------------------------- *)
(** ** The propagator over all running sandboxes *)
(* --------------------------------------------------------------------- *)

Module FanoutSpec.
Import GoStrings Container Operations Fanout Fixtures FanoutFixtures StringFacts
  PropagatorFacts.

Section All.
Context {RT : GoRuntime} {RS : RemoteTools}.





Variable ps_names : option string.




End All.


End FanoutSpec.

(* ===================================================================== *)
(** * Interactive selection and stopping dormant containers *)
(* ===================================================================== *)

Module InteractiveSpec.
Import GoStrings GoTime Container Interactive Fixtures.

Section Select.
Context {RT : GoRuntime}.
Variable Display : list Info -> list Info.

(** [selectContainer] of connect.go and [selectContainerForRestart] of
    restart.go never index the displayed list out of range, whatever is
    typed; they return a record exactly when the trimmed input parses to
    a number [choice] with [1 <= choice <= len(sorted)], and then the
    record is the one displayed at position [choice], so it is one of the
    records [Display] returned; every other input is rejected with an
    error that quotes the trimmed input. *)
Theorem selectContainer_picks_the_displayed_row (containers : list Info)
    (input : option string) :
  let sorted := Display containers in
  selectContainer Display containers input <> IndexOutOfRange /\
  (forall c, selectContainer Display containers input = Chosen c <->
     exists line choice,
       input = Some line /\ ParseInt (TrimSpace line) = Some choice /\
       1 <= choice <= Z.of_nat (length sorted) /\
       sorted !! (Z.to_nat choice - 1)%nat = Some c) /\
  (forall c, selectContainer Display containers input = Chosen c -> In c sorted) /\
  (forall line,
     input = Some line ->
     (forall c, selectContainer Display containers input <> Chosen c) ->
     selectContainer Display containers input =
       Rejected ("invalid selection: " +:+ TrimSpace line)).
Proof.
  intros sorted.
  assert (Hshape :
            match input with
            | None => selectContainer Display containers input = Rejected "failed to read input"
            | Some line =>
                match ParseInt (TrimSpace line) with
                | Some choice =>
                    if (1 <=? choice) && (choice <=? Z.of_nat (length sorted))
                    then exists c, sorted !! (Z.to_nat choice - 1)%nat = Some c /\
                                   selectContainer Display containers input = Chosen c
                    else selectContainer Display containers input =
                           Rejected ("invalid selection: " +:+ TrimSpace line)
                | None => selectContainer Display containers input =
                            Rejected ("invalid selection: " +:+ TrimSpace line)
                end
            end).
  { unfold selectContainer. fold sorted.
    destruct input as [line|]; [|reflexivity].
    destruct (ParseInt (TrimSpace line)) as [choice|]; [|reflexivity].
    destruct (Z.ltb_spec choice 1), (Z.ltb_spec (Z.of_nat (length sorted)) choice),
      (Z.leb_spec 1 choice), (Z.leb_spec choice (Z.of_nat (length sorted)));
      try lia; simpl; try reflexivity.
    replace (Z.to_nat choice - 1)%nat with (Z.to_nat (choice - 1)) by lia.
    destruct (lookup_lt_is_Some_2 sorted (Z.to_nat (choice - 1))) as [c Hc]; [lia|].
    exists c. rewrite Hc. split; reflexivity. }
  destruct input as [line|].
  2:{ rewrite Hshape. split; [discriminate|]. split; [|split].
      - intros c. split; [discriminate|]. intros (l & ch & Hl & _). discriminate.
      - discriminate.
      - discriminate. }
  destruct (ParseInt (TrimSpace line)) as [choice|] eqn:Hp.
  2:{ rewrite Hshape. split; [discriminate|]. split; [|split].
      - intros c. split; [discriminate|].
        intros (l & ch & Hl & Hp' & _). injection Hl as <-. congruence.
      - discriminate.
      - intros l [= <-] _. reflexivity. }
  destruct (Z.leb_spec 1 choice), (Z.leb_spec choice (Z.of_nat (length sorted)));
    cbn [andb] in Hshape.
  1:{ destruct Hshape as (c & Hc & Hsel). rewrite Hsel.
      split; [discriminate|]. split; [|split].
      - intros c'. split.
        + intros [= <-]. exists line, choice. repeat split; auto.
        + intros (l & ch & Hl & Hp' & _ & Hc'). injection Hl as <-.
          rewrite Hp in Hp'. injection Hp' as <-. congruence.
      - intros c' [= <-]. apply list_elem_of_In. eapply list_elem_of_lookup_2; eauto.
      - intros l _ Hno. exfalso. apply (Hno c). reflexivity. }
  all: rewrite Hshape; (split; [discriminate|]); (split; [|split]);
    [ intros c; split; [discriminate|];
      intros (l & ch & Hl & Hp' & Hr & _); injection Hl as <-;
      rewrite Hp in Hp'; injection Hp' as <-; lia
    | discriminate
    | intros l [= <-] _; reflexivity ].
Qed.

End Select.
Section Stop.
Context {RT : GoRuntime}.
Variable E : Engine.
Variable configPrefix : string.
Variable ToLower : string -> string.
Variable stopFails : string -> bool.

Lemma stopEach_fold (l : list Info) (acc : list (string * bool) * nat) :
  fold_left
    (fun (acc : list (string * bool) * nat) (c : Info) =>
       if stopFails (Name c) then (acc.1 ++ [(Name c, false)], acc.2)
       else (acc.1 ++ [(Name c, true)], S acc.2))
    l acc
  = (acc.1 ++ map (fun c => (Name c, negb (stopFails (Name c)))) l,
     (acc.2 + length (List.filter (fun c => negb (stopFails (Name c))) l))%nat).
Proof.
  revert acc. induction l as [|c l IH]; intros [done n]; simpl.
  - rewrite app_nil_r, Nat.add_0_r. reflexivity.
  - rewrite IH. destruct (stopFails (Name c)); simpl;
      rewrite <- app_assoc; simpl; f_equal; lia.
Qed.

Lemma stopEach_closed (l : list Info) :
  stopEach stopFails l
  = (map (fun c => (Name c, negb (stopFails (Name c)))) l,
     length (List.filter (fun c => negb (stopFails (Name c))) l)).
Proof. unfold stopEach. rewrite stopEach_fold. reflexivity. Qed.

(** What [stopDormantContainers] stops, by the answer. *)
Lemma stopDormantContainers_stops (response : option string) :
  let r := stopDormantContainers E configPrefix ToLower stopFails response in
  (forall n ok, In (n, ok) (stops r) ->
     exists containers c,
       GetRunningContainers E configPrefix = Some containers /\ In c containers /\
       Name c = n /\ IsDormant c = true /\ IsClaudeRunning E n = false /\
       ok = negb (stopFails n)) /\
  (stops r <> [] ->
     exists line, response = Some line /\
       (TrimSpace (ToLower line) = "y" \/ TrimSpace (ToLower line) = "yes")) /\
  (forall containers line,
     GetRunningContainers E configPrefix = Some containers ->
     response = Some line ->
     TrimSpace (ToLower line) = "y" \/ TrimSpace (ToLower line) = "yes" ->
     map fst (stops r) = map Name (dormantOf containers) /\ stopError r = None) /\
  successCount r = length (List.filter snd (stops r)) /\
  (stopError r <> None -> stops r = []).
Proof.
  intros r.
  assert (Hconfirmed : forall line,
             (negb (String.eqb (TrimSpace (ToLower line)) "y") &&
              negb (String.eqb (TrimSpace (ToLower line)) "yes")) = false <->
             (TrimSpace (ToLower line) = "y" \/ TrimSpace (ToLower line) = "yes")).
  { intros line.
    destruct (String.eqb_spec (TrimSpace (ToLower line)) "y") as [->|Hy]; simpl.
    - split; auto.
    - destruct (String.eqb_spec (TrimSpace (ToLower line)) "yes") as [->|Hyes]; simpl.
      + split; auto.
      + split; [discriminate|]. intros [?|?]; contradiction. }
  assert (Hcount : forall l : list Info,
             length (List.filter (fun c => negb (stopFails (Name c))) l)
             = length (List.filter snd
                         (map (fun c => (Name c, negb (stopFails (Name c)))) l))).
  { induction l as [|c l IH]; simpl; [reflexivity|].
    destruct (stopFails (Name c)); simpl; congruence. }
  subst r. unfold stopDormantContainers.
  destruct (GetRunningContainers E configPrefix) as [containers|] eqn:Hlist; simpl.
  2:{ split; [|split; [|split; [|split]]]; try contradiction; try discriminate; auto. }
  destruct (length (dormantOf containers) =? 0)%nat eqn:Hlen; simpl.
  { apply Nat.eqb_eq, length_zero_iff_nil in Hlen.
    split; [|split; [|split; [|split]]]; try contradiction; auto.
    intros cs ln [= <-] _ _. rewrite Hlen. split; reflexivity. }
  destruct response as [line|]; simpl.
  2:{ split; [|split; [|split; [|split]]]; try contradiction; try discriminate; auto. }
  destruct (negb (String.eqb (TrimSpace (ToLower line)) "y") &&
            negb (String.eqb (TrimSpace (ToLower line)) "yes")) eqn:Hans; simpl.
  { split; [|split; [|split; [|split]]]; try contradiction; auto.
    intros cs l _ [= <-] Hyes. apply Hconfirmed in Hyes. congruence. }
  rewrite stopEach_closed. simpl.
  split; [|split; [|split; [|split]]].
  - intros n ok Hin. apply in_map_iff in Hin as (c & [= <- <-] & Hc).
    unfold dormantOf in Hc. apply filter_In in Hc as [Hc Hd].
    exists containers, c. repeat split; auto.
    unfold GetRunningContainers in Hlist.
    destruct (docker_ps E); [|discriminate]. injection Hlist as <-.
    apply in_map_iff in Hc as (b & <- & _). simpl in *.
    destruct (IsClaudeRunning E (name b)); [discriminate|reflexivity].
  - intros _. exists line. split; [reflexivity|]. apply Hconfirmed, Hans.
  - intros cs l [= <-] _ _. rewrite map_map. simpl. split; reflexivity.
  - apply Hcount.
  - intros H. contradiction.
Qed.

(** The error of [stopDormantContainers], by the listing and the
    answer. *)
Lemma stopDormantContainers_error (response : option string) :
  stopError (stopDormantContainers E configPrefix ToLower stopFails response) =
  match GetRunningContainers E configPrefix with
  | None => Some "failed to list containers"%string
  | Some containers =>
      match dormantOf containers, response with
      | _ :: _, None => Some "failed to read input"%string
      | _, _ => None
      end
  end.
Proof.
  unfold stopDormantContainers.
  destruct (GetRunningContainers E configPrefix) as [containers|]; [|reflexivity].
  destruct (dormantOf containers) as [|c cs]; [reflexivity|]. simpl.
  destruct response as [line|]; [|reflexivity].
  destruct (negb (String.eqb (TrimSpace (ToLower line)) "y") &&
            negb (String.eqb (TrimSpace (ToLower line)) "yes")); reflexivity.
Qed.

(** [stopDormantContainers] runs [docker stop] only on containers that the
    running-containers query listed as dormant, that is, whose Claude
    process probe came back empty or failed, and only after the answer,
    lower-cased and trimmed, is [y] or [yes]; after such an answer it
    tries every dormant container once, in listing order, going on after a
    failed stop; the count it reports is the number of stops that
    succeeded.  It returns an error in two cases and no other: the
    listing failed ("failed to list containers"), or there are dormant
    containers and the answer cannot be read ("failed to read input");
    both come before any container is stopped, and neither a declined
    answer nor a failed stop is an error. *)
Theorem stopDormantContainers_stops_only_confirmed_dormant (response : option string) :
  let r := stopDormantContainers E configPrefix ToLower stopFails response in
  (forall n ok, In (n, ok) (stops r) ->
     exists containers c,
       GetRunningContainers E configPrefix = Some containers /\ In c containers /\
       Name c = n /\ IsDormant c = true /\ IsClaudeRunning E n = false /\
       ok = negb (stopFails n)) /\
  (stops r <> [] ->
     exists line, response = Some line /\
       (TrimSpace (ToLower line) = "y" \/ TrimSpace (ToLower line) = "yes")) /\
  (forall containers line,
     GetRunningContainers E configPrefix = Some containers ->
     response = Some line ->
     TrimSpace (ToLower line) = "y" \/ TrimSpace (ToLower line) = "yes" ->
     map fst (stops r) = map Name (dormantOf containers) /\ stopError r = None) /\
  successCount r = length (List.filter snd (stops r)) /\
  (stopError r <> None -> stops r = []) /\
  (forall msg, stopError r = Some msg <->
     (GetRunningContainers E configPrefix = None /\
      msg = "failed to list containers"%string) \/
     (exists containers,
        GetRunningContainers E configPrefix = Some containers /\
        dormantOf containers <> [] /\ response = None /\
        msg = "failed to read input"%string)) /\
  (forall line, response = Some line ->
     TrimSpace (ToLower line) <> "y"%string ->
     TrimSpace (ToLower line) <> "yes"%string ->
     GetRunningContainers E configPrefix <> None ->
     stopError r = None /\ stops r = [] /\ successCount r = 0%nat).
Proof.
  intros r.
  destruct (stopDormantContainers_stops response) as (H1 & H2 & H3 & H4 & H5).
  fold r in H1, H2, H3, H4, H5.
  split; [exact H1|]. split; [exact H2|]. split; [exact H3|].
  split; [exact H4|]. split; [exact H5|]. split.
  - intros msg. subst r. rewrite stopDormantContainers_error.
    destruct (GetRunningContainers E configPrefix) as [containers|].
    + destruct (dormantOf containers) as [|c cs] eqn:Hd.
      * split; [discriminate|].
        intros [[H _]|(cs' & [= <-] & Hne & _)]; [discriminate|].
        rewrite Hd in Hne. contradiction.
      * destruct response as [line|].
        -- split; [discriminate|].
           intros [[H _]|(cs' & _ & _ & H & _)]; discriminate.
        -- split.
           ++ intros [= <-]. right. exists containers.
              split; [reflexivity|]. split; [rewrite Hd; discriminate|].
              split; reflexivity.
           ++ intros [[H _]|(cs' & _ & _ & _ & ->)]; [discriminate|reflexivity].
    + split.
      * intros [= <-]. left. auto.
      * intros [[_ ->]|(cs' & H & _)]; [reflexivity|discriminate].
  - intros line Hresp Hy Hyes Hlist.
    assert (Herr : stopError r = None).
    { subst r. rewrite stopDormantContainers_error, Hresp.
      destruct (GetRunningContainers E configPrefix) as [containers|]; [|contradiction].
      destruct (dormantOf containers); reflexivity. }
    assert (Hstops : stops r = []).
    { destruct (stops r) as [|x xs] eqn:Hs; [reflexivity|].
      destruct H2 as (line' & Hl & Hans); [discriminate|].
      rewrite Hresp in Hl. injection Hl as <-. destruct Hans; contradiction. }
    split; [exact Herr|]. split; [exact Hstops|].
    rewrite H4, Hstops. reflexivity.
Qed.

End Stop.

(** One running container with no Claude process: after the answer [y]
    it is the one stopped; after the answer [n] nothing is stopped and no
    error is returned. *)
Lemma stopDormantContainers_witness :
  let stopping :=
    @stopDormantContainers plainRuntime oneSandbox "mcl-" (fun s => s) (fun _ => false) in
  map fst (stops (stopping (Some "y"%string))) = ["mcl-a"%string] /\
  (stopError (stopping (Some "n"%string)), stops (stopping (Some "n"%string)))
    = (None, []).
Proof.
  cbv zeta. split.
  - destruct (@stopDormantContainers_stops_only_confirmed_dormant plainRuntime oneSandbox
                "mcl-" (fun s => s) (fun _ => false) (Some "y"%string))
      as (_ & _ & H & _).
    destruct (GetRunningContainers oneSandbox "mcl-") as [containers|] eqn:Hl;
      [|vm_compute in Hl; discriminate Hl].
    destruct (H containers "y"%string eq_refl eq_refl) as [Hs _]; [left; reflexivity|].
    rewrite Hs. vm_compute in Hl. injection Hl as <-. reflexivity.
  - destruct (@stopDormantContainers_stops_only_confirmed_dormant plainRuntime oneSandbox
                "mcl-" (fun s => s) (fun _ => false) (Some "n"%string))
      as (_ & _ & _ & _ & _ & _ & H).
    destruct (H "n"%string eq_refl) as (-> & -> & _);
      [discriminate|discriminate|vm_compute; discriminate|reflexivity].
Defined.

End InteractiveSpec.

(* ===================================================================== *)
(** * The home table *)
(* ===================================================================== *)

Module ViewsSpec.
Import GoStrings Container Views ViewsClosed.

Lemma int_small (z : Z) :
  - 9223372036854775808 <= z < 9223372036854775808 -> int z = z.
Proof.
  intros H. unfold int.
  change (2 ^ 63) with 9223372036854775808.
  change (2 ^ 64) with 18446744073709551616.
  rewrite Z.mod_small; lia.
Qed.

(** Removes the wrap-around of the innermost results that are within
    [int]. *)
Ltac int_inner :=
  match goal with
  | |- context [int ?z] =>
      lazymatch z with
      | context [int _] => fail
      | _ => rewrite (int_small z) by (first [lia | Z.div_mod_to_equations; lia])
      end
  end.

Lemma totalBaseWidth_eq : totalBaseWidth = 98.
Proof. reflexivity. Qed.

Lemma proportional_eq (u : Z) (cfg : columnConfig) :
  98 <= u <= 288230376151711744 ->
  In cfg columnConfigs ->
  proportional u cfg = {| Title := title cfg; Width := baseSize cfg * u / 98 |} /\
  baseSize cfg <= baseSize cfg * u / 98.
Proof.
  intros Hu Hin. unfold proportional. rewrite totalBaseWidth_eq.
  assert (Hb : 0 <= baseSize cfg <= 25 /\ minSize cfg <= baseSize cfg).
  { simpl in Hin.
    repeat (destruct Hin as [<-|Hin]; [simpl; lia|]). contradiction. }
  rewrite int_small by nia.
  rewrite Z.quot_div_nonneg by nia.
  assert (Hq : baseSize cfg <= baseSize cfg * u / 98).
  { apply Z.div_le_lower_bound; nia. }
  split; [|exact Hq].
  destruct (Z.ltb_spec (baseSize cfg * u / 98) (minSize cfg)); [lia|reflexivity].
Qed.

(** The widths in closed form, for a usable width [u]. *)
Lemma calculateColumnWidths_closed (availableWidth : Z) :
  - 9223372036854775804 <= availableWidth <= 288230376151711744 ->
  calculateColumnWidths availableWidth = closedForm (Z.max 98 (availableWidth - 4)).
Proof.
  intros HW. set (u := Z.max 98 (availableWidth - 4)).
  assert (Hu : 98 <= u <= 288230376151711744) by (subst u; lia).
  unfold closedForm, calculateColumnWidths.
  rewrite int_small by lia. rewrite totalBaseWidth_eq.
  replace (if availableWidth - 4 <? 98 then 98 else availableWidth - 4) with u
    by (subst u; destruct (Z.ltb_spec (availableWidth - 4) 98); lia).
  unfold columnConfigs. cbn [map].
  rewrite !(fun cfg H => proj1 (proportional_eq u cfg Hu H)) by (simpl; tauto).
  cbn [title baseSize fold_left Width].
  assert (H25 : 25 <= 25 * u / 98 <= 25 * u) by (split; [apply Z.div_le_lower_bound|apply Z.div_le_upper_bound]; lia).
  assert (H14 : 14 <= 14 * u / 98 <= 14 * u) by (split; [apply Z.div_le_lower_bound|apply Z.div_le_upper_bound]; lia).
  assert (H10 : 10 <= 10 * u / 98 <= 10 * u) by (split; [apply Z.div_le_lower_bound|apply Z.div_le_upper_bound]; lia).
  assert (H12 : 12 <= 12 * u / 98 <= 12 * u) by (split; [apply Z.div_le_lower_bound|apply Z.div_le_upper_bound]; lia).
  assert (Hsum : 25 * u / 98 + 14 * u / 98 + 25 * u / 98 + 10 * u / 98
                 + 12 * u / 98 + 12 * u / 98 <= u)
    by (Z.div_mod_to_equations; lia).
  repeat int_inner.
  replace (u - 25 * u / 98 - 14 * u / 98 - 25 * u / 98 - 10 * u / 98
           - 12 * u / 98 - 12 * u / 98)
    with (u - (25 * u / 98 + 14 * u / 98 + 25 * u / 98 + 10 * u / 98
               + 12 * u / 98 + 12 * u / 98)) by lia.
  cbv beta zeta.
  destruct (Z.ltb_spec 0 (u - (25 * u / 98 + 14 * u / 98 + 25 * u / 98 + 10 * u / 98
               + 12 * u / 98 + 12 * u / 98))) as [Hr|Hr].
  - cbn [length fold_left widen]. change (Z.of_nat 2) with 2.
    rewrite Z.quot_div_nonneg by lia.
    unfold widen. cbn -[int Z.add Z.div Z.mul Z.sub]. repeat int_inner. reflexivity.
  - rewrite !Z.add_0_r. reflexivity.
Qed.

Lemma closedForm_facts (u : Z) :
  98 <= u ->
  map Title (closedForm u) = map title columnConfigs /\
  Forall2 (fun col cfg => baseSize cfg <= Width col) (closedForm u) columnConfigs /\
  u - 1 <= totalWidth (closedForm u) <= u /\
  (forall i col cfg,
     closedForm u !! i = Some col -> columnConfigs !! i = Some cfg ->
     i <> 0%nat -> i <> 2%nat -> Width col = baseSize cfg * u / 98) /\
  (u = 98 -> map Width (closedForm u) = map baseSize columnConfigs).
Proof.
  intros Hu. unfold closedForm. cbv beta zeta.
  set (q25 := 25 * u / 98) in *. set (q14 := 14 * u / 98) in *.
  set (q10 := 10 * u / 98) in *. set (q12 := 12 * u / 98) in *.
  assert (H25 : 25 <= q25) by (subst q25; apply Z.div_le_lower_bound; lia).
  assert (H14 : 14 <= q14) by (subst q14; apply Z.div_le_lower_bound; lia).
  assert (H10 : 10 <= q10) by (subst q10; apply Z.div_le_lower_bound; lia).
  assert (H12 : 12 <= q12) by (subst q12; apply Z.div_le_lower_bound; lia).
  assert (Hsum : u - 5 <= q25 + q14 + q25 + q10 + q12 + q12 <= u)
    by (subst q25 q14 q10 q12; Z.div_mod_to_equations; lia).
  set (r := u - (q25 + q14 + q25 + q10 + q12 + q12)) in *.
  assert (He : 0 <= (if 0 <? r then r / 2 else 0) /\
               r - 1 <= 2 * (if 0 <? r then r / 2 else 0) <= r).
  { destruct (Z.ltb_spec 0 r); Z.div_mod_to_equations; lia. }
  set (e := if 0 <? r then r / 2 else 0) in *.
  split; [reflexivity|]. split; [|split; [|split]].
  - repeat constructor; simpl; lia.
  - unfold totalWidth. simpl. lia.
  - intros i col cfg Hc Hg Hi0 Hi2.
    destruct i as [|[|[|[|[|[|i]]]]]]; try contradiction; simpl in Hc, Hg;
      try discriminate; injection Hc as <-; injection Hg as <-; reflexivity.
  - intros H.
    assert (q25 = 25 /\ q14 = 14 /\ q10 = 10 /\ q12 = 12) as (-> & -> & -> & ->).
    { subst q25 q14 q10 q12. rewrite H. repeat split; reflexivity. }
    assert (e = 0) as ->.
    { subst e r. destruct (Z.ltb_spec 0 (u - (25 + 14 + 25 + 10 + 12 + 12))); lia. }
    reflexivity.
Qed.


(** [calculateColumnWidths], for a width whose arithmetic stays within
    [int]: the six columns keep the titles of [columnConfigs] in order;
    with [u] the usable width, the larger of [availableWidth - 4] and the
    total base width [98], every column is at least as wide as its base
    size, so the minimum sizes never apply; STATUS, GIT, ACTIVITY and AUTH
    get their proportional share [baseSize * u / 98] rounded down; NAME and
    BRANCH share what rounding left over, so the widths add up to [u] or
    to [u - 1], never to more; and up to an available width of [102] the
    widths are exactly the base sizes. *)
Theorem calculateColumnWidths_fills_the_usable_width (availableWidth : Z) :
  - 9223372036854775804 <= availableWidth <= 288230376151711744 ->
  let u := Z.max 98 (availableWidth - 4) in
  let columns := calculateColumnWidths availableWidth in
  map Title columns = map title columnConfigs /\
  Forall2 (fun col cfg => baseSize cfg <= Width col) columns columnConfigs /\
  u - 1 <= totalWidth columns <= u /\
  (forall i col cfg,
     columns !! i = Some col -> columnConfigs !! i = Some cfg ->
     i <> 0%nat -> i <> 2%nat -> Width col = baseSize cfg * u / 98) /\
  (availableWidth <= 102 -> map Width columns = map baseSize columnConfigs).
Proof.
  intros HW u columns. subst columns.
  rewrite calculateColumnWidths_closed by exact HW. fold u.
  destruct (closedForm_facts u) as (Ht & Hb & Hs & Hp & He); [subst u; lia|].
  repeat (split; [assumption|]).
  intros Hw. apply He. subst u. lia.
Qed.

Lemma calculateColumnWidths_witness :
  map Width (calculateColumnWidths 160) = [40; 22; 40; 15; 19; 19] /\
  155 <= totalWidth (calculateColumnWidths 160) <= 156.
Proof.
  split; [reflexivity|].
  pose proof (calculateColumnWidths_fills_the_usable_width 160 ltac:(lia)) as H.
  cbv zeta in H. destruct H as (_ & _ & H & _). exact H.
Defined.

(** [SetSize], for terminal sizes whose arithmetic stays within [int]:
    the table gets the screen height less four lines, and never fewer than
    five; its width is the screen width capped at [maxTableWidth]; the
    columns are computed for that capped width, so they add up to at most
    [156]; on a screen at least [102] wide the columns and the four cells
    of border fit the table width, while on a narrower screen the columns
    stay at their base sizes, [98] in total, and exceed it. *)
Theorem SetSize_caps_and_floors (width height : Z) :
  - 9223372036854775804 <= width < 9223372036854775808 ->
  - 9223372036854775804 <= height < 9223372036854775808 ->
  let s := SetSize width height in
  tableHeight s = Z.max 5 (height - 4) /\
  tableWidth s = Z.min width maxTableWidth /\
  tableColumns s = calculateColumnWidths (tableWidth s) /\
  98 <= totalWidth (tableColumns s) <= 156 /\
  (102 <= width -> totalWidth (tableColumns s) + 4 <= tableWidth s) /\
  (width < 102 ->
   map Width (tableColumns s) = map baseSize columnConfigs /\
   tableWidth s < totalWidth (tableColumns s) + 4).
Proof.
  intros Hw Hh s. subst s. unfold SetSize, maxTableWidth. cbn [tableHeight tableWidth tableColumns].
  rewrite int_small by lia.
  assert (Heff : (if 160 <? width then 160 else width) = Z.min width 160)
    by (destruct (Z.ltb_spec 160 width); lia).
  assert (Hset : (if width <=? 160 then width else 160) = Z.min width 160)
    by (destruct (Z.leb_spec width 160); lia).
  rewrite Heff, Hset.
  rewrite calculateColumnWidths_closed by lia.
  set (u := Z.max 98 (Z.min width 160 - 4)).
  destruct (closedForm_facts u) as (_ & _ & Hs & _ & He); [subst u; lia|].
  split; [destruct (Z.ltb_spec (height - 4) 5); lia|].
  split; [reflexivity|]. split; [reflexivity|].
  assert (Hlow : forall v, 98 <= v -> v - 1 <= totalWidth (closedForm v) ->
                 98 <= totalWidth (closedForm v)).
  { intros v Hv H. destruct (Z.eq_dec v 98) as [->|]; [vm_compute; discriminate|lia]. }
  split; [split; [apply Hlow; subst u; lia|subst u; lia]|]. split.
  - intros H. subst u. lia.
  - intros H. assert (Hu : u = 98) by (subst u; lia).
    split; [apply He, Hu|].
    assert (98 <= totalWidth (closedForm u)) by (apply Hlow; lia). lia.
Qed.

Lemma SetSize_witness :
  tableHeight (SetSize 200 24) = 20 /\ tableWidth (SetSize 200 24) = 160 /\
  totalWidth (tableColumns (SetSize 200 24)) + 4 <= 160.
Proof.
  pose proof (SetSize_caps_and_floors 200 24 ltac:(lia) ltac:(lia)) as H.
  cbv zeta in H. destruct H as (Hh & Hw & _ & _ & Hfit & _).
  split; [exact Hh|]. split; [exact Hw|].
  rewrite Hw in Hfit. apply Hfit. lia.
Defined.

(** [updateTableRows] makes one row of six cells per container, in the
    order of the containers, the first being the short name.  No other
    cell is blank: an empty branch, git, activity or authentication field
    shows as a dash and a non-empty one unchanged; the status cell shows
    Waiting or Running for a running container, by its attention flag,
    Stopped for an exited one, and a question mark followed by the status
    for any other. *)
Theorem updateTableRows_has_no_blank_cell (containers : list Info) :
  length (updateTableRows containers) = length containers /\
  (forall i c, containers !! i = Some c ->
     exists status branch git activity auth,
       updateTableRows containers !! i
         = Some [ShortName c; status; branch; git; activity; auth] /\
       status <> ""%string /\ branch <> ""%string /\ git <> ""%string /\
       activity <> ""%string /\ auth <> ""%string /\
       (Branch c <> ""%string -> branch = Branch c) /\
       (GitStatus c <> ""%string -> git = GitStatus c) /\
       (LastActivity c <> ""%string -> activity = LastActivity c) /\
       (AuthStatus c <> ""%string -> auth = AuthStatus c) /\
       (Branch c = ""%string -> branch = "—"%string) /\
       (GitStatus c = ""%string -> git = "—"%string) /\
       (LastActivity c = ""%string -> activity = "—"%string) /\
       (AuthStatus c = ""%string -> auth = "—"%string) /\
       (Status c = "running"%string ->
        status = if NeedsAttention c then "⚠️  Waiting"%string else "● Running"%string) /\
       (Status c = "exited"%string -> status = "■ Stopped"%string) /\
       (Status c <> "running"%string -> Status c <> "exited"%string ->
        status = ("? " +:+ Status c)%string)).
Proof.
  assert (Hdash : forall f, orDash f <> ""%string /\ (f <> ""%string -> orDash f = f) /\
                            (f = ""%string -> orDash f = "—"%string)).
  { intros f. unfold orDash. destruct (String.eqb_spec f ""); split;
      try split; try congruence; discriminate. }
  split; [apply length_map|].
  intros i c Hc. unfold updateTableRows.
  exists (formatStatus c), (orDash (Branch c)), (orDash (GitStatus c)),
    (orDash (LastActivity c)), (orDash (AuthStatus c)).
  split.
  { change (map tableRow containers) with (tableRow <$> containers).
    rewrite list_lookup_fmap, Hc. reflexivity. }
  split.
  { unfold formatStatus.
    destruct (String.eqb (Status c) "running"); [destruct (NeedsAttention c); discriminate|].
    destruct (String.eqb (Status c) "exited"); discriminate. }
  repeat (split; [apply Hdash|]).
  split; [|split].
  - intros Hs. unfold formatStatus. rewrite Hs. reflexivity.
  - intros Hs. unfold formatStatus. rewrite Hs. reflexivity.
  - intros Hr He. unfold formatStatus.
    destruct (String.eqb_spec (Status c) "running"); [contradiction|].
    destruct (String.eqb_spec (Status c) "exited"); [contradiction|reflexivity].
Qed.

(** A stopped container without branch, activity and authentication
    status, as [GetAllContainers] returns it. *)
Lemma updateTableRows_witness :
  let c := {| Name := "mcl-foo"; ShortName := "foo"; Status := "exited";
              StatusDetails := "Exited (0) 2 hours ago"; CreatedAt := GoTime.zero;
              Branch := ""; NeedsAttention := false; IsDormant := false;
              AuthStatus := ""; LastActivity := "-"; GitStatus := "-" |} in
  updateTableRows [c] = [["foo"; "■ Stopped"; "—"; "-"; "-"; "—"]%string].
Proof.
  cbv zeta.
  destruct (updateTableRows_has_no_blank_cell
              [{| Name := "mcl-foo"; ShortName := "foo"; Status := "exited";
                  StatusDetails := "Exited (0) 2 hours ago"; CreatedAt := GoTime.zero;
                  Branch := ""; NeedsAttention := false; IsDormant := false;
                  AuthStatus := ""; LastActivity := "-"; GitStatus := "-" |}])
    as [Hlen Hrow].
  destruct (Hrow 0%nat _ eq_refl)
    as (status & branch & git & activity & auth & Hr & _ & _ & _ & _ & _
        & _ & Hg & Ha & _ & Hb & _ & _ & Hau & _ & Hs & _).
  cbn [Branch GitStatus LastActivity AuthStatus Status ShortName] in *.
  rewrite (Hg ltac:(discriminate)), (Ha ltac:(discriminate)), (Hb eq_refl),
    (Hau eq_refl), (Hs eq_refl) in Hr.
  destruct (updateTableRows _) as [|row rows] eqn:Hu; [discriminate Hlen|].
  destruct rows; [|discriminate Hlen].
  simpl in Hr. injection Hr as ->. reflexivity.
Defined.

End ViewsSpec.

(* ===================================================================== *)
(** * Recording a domain in the configuration file *)
(* ===================================================================== *)

Module LocalConfigSpec.
Import GoStrings LocalConfig ConfigFixtures.

Lemma toStrings_Some (items : list Value) (domains : list string) :
  toStrings items = Some domains <-> items = map VString domains.
Proof.
  revert domains. induction items as [|x items IH]; intros domains; simpl.
  - split.
    + intros [= <-]. reflexivity.
    + destruct domains; [reflexivity|discriminate].
  - destruct x; try (split; [discriminate|destruct domains; discriminate]).
    destruct (toStrings items) as [ds|] eqn:Hr.
    + split.
      * intros [= <-]. simpl. f_equal. apply IH. reflexivity.
      * destruct domains as [|d domains]; [discriminate|].
        simpl. intros [= -> Hi]. apply IH in Hi. congruence.
    + split; [discriminate|].
      destruct domains as [|d domains]; [discriminate|].
      simpl. intros [= -> Hi]. apply IH in Hi. discriminate.
Qed.

Lemma toStrings_None (items : list Value) :
  toStrings items = None <-> exists x, In x items /\ forall s, x <> VString s.
Proof.
  induction items as [|x items IH]; simpl.
  - split; [discriminate|]. intros (x & [] & _).
  - destruct x;
      try (split; [intros _; eexists; split; [left; reflexivity|discriminate]|reflexivity]).
    destruct (toStrings items) as [ds|].
    + split; [discriminate|]. intros (x & [<-|Hin] & Hx).
      * exfalso. apply (Hx s). reflexivity.
      * assert (Hn : Some ds = None) by (apply IH; exists x; auto). discriminate.
    + split; [|reflexivity]. intros _.
      destruct (proj1 IH eq_refl) as (x & Hin & Hx). exists x. auto.
Qed.

Section Update.
Variable yamlUnmarshal : string -> option (option (gmap string Value)).
Variable yamlMarshal : gmap string Value -> option string.
Variable viperDomains : list string.

(** The rest of the function on a decoded configuration, by the domains it
    lists. *)
Lemma addDomain_cases (domain : string) (d : Disk) (configData : gmap string Value) :
  addDomain yamlMarshal viperDomains domain d (Some configData) =
  match listed viperDomains configData with
  | None => Panics
  | Some domains =>
      if bool_decide (domain ∈ domains) then Returns None None
      else
        match yamlMarshal
                (<[ "firewall"%string :=
                      VMap (<[ "allowed_domains"%string := VStrings (domains ++ [domain]) ]>
                              (section configData)) ]> configData) with
        | None => Returns (Some MarshalError) None
        | Some output =>
            Returns (if writeFails d then Some WriteError else None) (Some output)
        end
  end.
Proof.
  unfold addDomain, listed, section.
  destruct (index configData "firewall") as [| | |firewall| |] eqn:Hf;
    cbv zeta; rewrite ?Hf; try reflexivity.
  unfold index at 1. rewrite lookup_insert_eq. simpl.
  unfold index at 1. rewrite lookup_empty. simpl.
  destruct (bool_decide (domain ∈ viperDomains)); [reflexivity|].
  rewrite insert_insert_eq. reflexivity.
Qed.

(** [updateConfigWithDomain] panics exactly when the file exists, is read
    and decoded without error, and either the decoder left the
    configuration nil (the first assignment then writes to a nil map), or
    [firewall] holds something that is neither nil nor a map with string
    keys, or [allowed_domains] under it holds something that is neither
    nil nor a sequence, or that sequence has an element that is not a
    string.  A missing file never makes it panic. *)
Theorem updateConfigWithDomain_panics_iff (domain : string) (d : Disk) :
  (updateConfigWithDomain yamlUnmarshal yamlMarshal viperDomains domain d = Panics <->
   exists text,
     statOk d = true /\ content d = Some text /\
     (yamlUnmarshal text = Some None \/
      exists configData,
        yamlUnmarshal text = Some (Some configData) /\
        ((index configData "firewall" <> VNil /\
          forall firewall, index configData "firewall" <> VMap firewall) \/
         exists firewall,
           index configData "firewall" = VMap firewall /\
           ((index firewall "allowed_domains" <> VNil /\
             forall items, index firewall "allowed_domains" <> VSeq items) \/
            exists items x,
              index firewall "allowed_domains" = VSeq items /\
              In x items /\ forall s, x <> VString s)))) /\
  (statOk d = false -> updateConfigWithDomain yamlUnmarshal yamlMarshal viperDomains domain d <> Panics).
Proof.
  assert (Hlisted : forall configData,
             listed viperDomains configData = None <->
             ((index configData "firewall" <> VNil /\
               forall firewall, index configData "firewall" <> VMap firewall) \/
              exists firewall,
                index configData "firewall" = VMap firewall /\
                ((index firewall "allowed_domains" <> VNil /\
                  forall items, index firewall "allowed_domains" <> VSeq items) \/
                 exists items x,
                   index firewall "allowed_domains" = VSeq items /\
                   In x items /\ forall s, x <> VString s))).
  { intros configData. unfold listed.
    destruct (index configData "firewall") as [| | |firewall| |] eqn:Hf.
    1:{ split; [discriminate|].
        intros [[H _]|(fw & H & _)]; [contradiction|discriminate]. }
    3:{ destruct (index firewall "allowed_domains") as [| |items| | |] eqn:Ha.
        1:{ split; [discriminate|].
            intros [[_ H]|(fw & [= <-] & [[H _]|(it & x & H & _)])].
            - exfalso. apply (H firewall). reflexivity.
            - rewrite Ha in H. contradiction.
            - rewrite Ha in H. discriminate. }
        2:{ rewrite toStrings_None. split.
            - intros (x & Hin & Hx). right. exists firewall. split; [reflexivity|].
              right. exists items, x. rewrite Ha. auto.
            - intros [[_ H]|(fw & [= <-] & [[_ H]|(it & x & H & Hin & Hx)])].
              + exfalso. apply (H firewall). reflexivity.
              + exfalso. apply (H items). exact Ha.
              + rewrite Ha in H. injection H as <-. exists x. auto. }
        all: split; [intros _|reflexivity]; right; exists firewall;
          (split; [reflexivity|]); left; rewrite Ha; split; [discriminate|];
          intros its; discriminate. }
    all: split; [intros _|reflexivity]; left; split; [discriminate|];
      intros fw; discriminate. }
  unfold updateConfigWithDomain, readConfig.
  destruct (statOk d) eqn:Hstat.
  2:{ change (addDomain yamlMarshal viperDomains domain d (Some ∅))
        with (addDomain yamlMarshal viperDomains domain d (Some (∅ : gmap string Value))).
      rewrite addDomain_cases.
      assert (Hl : listed viperDomains ∅ = Some viperDomains) by reflexivity.
      rewrite Hl.
      assert (Hnot : (if bool_decide (domain ∈ viperDomains) then Returns None None
                      else match yamlMarshal
                                   (<[ "firewall"%string :=
                                         VMap (<[ "allowed_domains"%string :=
                                                    VStrings (viperDomains ++ [domain]) ]>
                                                 (section ∅)) ]> ∅) with
                           | None => Returns (Some MarshalError) None
                           | Some output =>
                               Returns (if writeFails d then Some WriteError else None)
                                 (Some output)
                           end) <> Panics).
      { destruct (bool_decide (domain ∈ viperDomains)); [discriminate|].
        destruct (yamlMarshal _); discriminate. }
      split; [|intros _; exact Hnot].
      split; [intros H; contradiction|].
      intros (text & H & _). discriminate. }
  split; [|discriminate].
  destruct (content d) as [text|] eqn:Hc.
  2:{ split; [discriminate|]. intros (text & _ & H & _). discriminate. }
  destruct (yamlUnmarshal text) as [[configData|]|] eqn:Hy.
  - rewrite addDomain_cases. split.
    + intros H. exists text. split; [reflexivity|]. split; [reflexivity|].
      right. exists configData. split; [exact Hy|]. apply Hlisted.
      destruct (listed viperDomains configData) as [domains|]; [|reflexivity].
      destruct (bool_decide (domain ∈ domains)); [discriminate|].
      destruct (yamlMarshal _); discriminate.
    + intros (text' & _ & [= <-] & [H|(cfg & H & Hbad)]).
      * rewrite Hy in H. discriminate.
      * rewrite Hy in H. injection H as <-.
        apply Hlisted in Hbad. rewrite Hbad. reflexivity.
  - split; [intros _|reflexivity].
    exists text. split; [reflexivity|]. split; [reflexivity|]. left. exact Hy.
  - split; [discriminate|].
    intros (text' & _ & [= <-] & [H|(cfg & H & _)]); rewrite Hy in H; discriminate.
Qed.

(** When [updateConfigWithDomain] hands bytes to [os.WriteFile], the
    domain was not among the domains the configuration listed, and the
    bytes encode the configuration it read with one change: under
    [firewall], [allowed_domains] is the listed domains (the defaults,
    where the file names none) followed by the new domain; every other
    key, at the top level and under [firewall], is as it was read.  The
    error returned is that of the write alone. *)
Theorem updateConfigWithDomain_writes_one_appended_domain (domain : string) (d : Disk)
    (err : option Error) (output : string) :
  updateConfigWithDomain yamlUnmarshal yamlMarshal viperDomains domain d = Returns err (Some output) ->
  exists configData domains written firewall,
    readConfig yamlUnmarshal d = inr (Some configData) /\
    listed viperDomains configData = Some domains /\ ~ In domain domains /\
    yamlMarshal written = Some output /\
    (forall key, key <> "firewall"%string -> written !! key = configData !! key) /\
    written !! "firewall"%string = Some (VMap firewall) /\
    (forall key, key <> "allowed_domains"%string ->
       firewall !! key = section configData !! key) /\
    firewall !! "allowed_domains"%string = Some (VStrings (domains ++ [domain])) /\
    err = (if writeFails d then Some WriteError else None).
Proof.
  unfold updateConfigWithDomain.
  destruct (readConfig yamlUnmarshal d) as [e|[configData|]] eqn:Hread; try discriminate.
  rewrite addDomain_cases.
  destruct (listed viperDomains configData) as [domains|] eqn:Hl; [|discriminate].
  destruct (bool_decide (domain ∈ domains)) eqn:Hdec; [discriminate|].
  apply bool_decide_eq_false in Hdec.
  destruct (yamlMarshal _) as [out|] eqn:Hm; [|discriminate].
  intros [= <- <-].
  eexists configData, domains, _, _. split; [reflexivity|]. split; [exact Hl|].
  split; [rewrite <- list_elem_of_In; exact Hdec|].
  split; [exact Hm|]. split; [|split; [|split; [|split]]].
  - intros key Hk. apply lookup_insert_ne. congruence.
  - apply lookup_insert_eq.
  - intros key Hk. apply lookup_insert_ne. congruence.
  - apply lookup_insert_eq.
  - reflexivity.
Qed.

(** A domain that the configuration lists already is not written again:
    [updateConfigWithDomain] returns [nil] without encoding or writing
    anything, whatever else the file holds.  The comparison is by equal
    bytes. *)
Theorem updateConfigWithDomain_skips_a_listed_domain (domain : string) (d : Disk)
    (configData : gmap string Value) (domains : list string) :
  readConfig yamlUnmarshal d = inr (Some configData) ->
  listed viperDomains configData = Some domains ->
  (In domain domains <-> updateConfigWithDomain yamlUnmarshal yamlMarshal viperDomains domain d = Returns None None).
Proof.
  intros Hread Hl. unfold updateConfigWithDomain.
  rewrite Hread, addDomain_cases, Hl.
  destruct (bool_decide (domain ∈ domains)) eqn:Hdec.
  - apply bool_decide_eq_true in Hdec. rewrite list_elem_of_In in Hdec. tauto.
  - apply bool_decide_eq_false in Hdec. rewrite list_elem_of_In in Hdec.
    split; [contradiction|].
    destruct (yamlMarshal _); [|discriminate].
    destruct (writeFails d); discriminate.
Qed.

End Update.

Lemma updateConfigWithDomain_write_witness :
  exists written firewall,
    writesDomains written = Some "github.com,example.com"%string /\
    written !! "containers"%string = sampleConfig !! "containers"%string /\
    written !! "firewall"%string = Some (VMap firewall) /\
    firewall !! "enabled"%string = Some (VOther 0).
Proof.
  destruct (updateConfigWithDomain_writes_one_appended_domain
              readsSample writesDomains [] "example.com" sampleDisk None
              "github.com,example.com" eq_refl)
    as (cfg & ds & written & firewall & Hread & Hl & _ & Hm & Hkeep & Hf & Hkeep' & _).
  injection Hread as <-.
  exists written, firewall. split; [exact Hm|]. split; [apply Hkeep; discriminate|].
  split; [exact Hf|]. rewrite Hkeep' by discriminate. reflexivity.
Defined.

Lemma updateConfigWithDomain_skip_witness :
  updateConfigWithDomain readsSample writesDomains [] "github.com" sampleDisk
  = Returns None None.
Proof.
  apply (updateConfigWithDomain_skips_a_listed_domain
           readsSample writesDomains [] "github.com" sampleDisk sampleConfig ["github.com"%string]
           eq_refl eq_refl).
  left. reflexivity.
Defined.

End LocalConfigSpec.

(* ===================================================================== *)
(** * File sizes and the environment shown for a container *)
(* ===================================================================== *)

Module AppsSpec.
Import GoStrings Container Views Apps Fixtures ViewsSpec.

Section Format.
Context {RT : GoRuntime}.
Variable Sprintf_d : Z -> string.

(** One round of the loop, or its end. *)
Lemma scale_step (bound : nat) (n div exp : Z) :
  scale (S bound) n div exp =
  if n <? 1024 then Some (div, exp)
  else scale bound (Z.quot n 1024) (int (div * 1024)) (int (exp + 1)).
Proof.
  cbn [scale]. unfold unit. rewrite Z.geb_leb.
  destruct (Z.leb_spec 1024 n), (Z.ltb_spec n 1024); try lia; reflexivity.
Qed.

(** [formatFileSize], for every [int64]: a size below 1024, a negative
    one too, is printed in bytes; any other size is printed with the unit
    [exp] of [KMGTPE] for which [1024^(exp+1) <= bytes < 1024^(exp+2)],
    scaled by [1024^(exp+1)]; the index into [KMGTPE] is at most 5, so it
    is never out of range, and the divisor never wraps around. *)
Theorem formatFileSize_picks_the_unit (bytes : Z) :
  - 9223372036854775808 <= bytes < 9223372036854775808 ->
  (bytes < 1024 -> formatFileSize Sprintf_d bytes = Text (Sprintf_d bytes +:+ " B")) /\
  (1024 <= bytes ->
   exists (exp : nat) (c : ascii),
     (exp <= 5)%nat /\ String.get exp "KMGTPE" = Some c /\
     1024 ^ (Z.of_nat exp + 1) <= bytes < 1024 ^ (Z.of_nat exp + 2) /\
     formatFileSize Sprintf_d bytes =
       Text (Sprintf_f 1 bytes (1024 ^ (Z.of_nat exp + 1)) +:+ " " +:+ String c "B")).
Proof.
  intros Hb. unfold formatFileSize, unit. split.
  - intros H. destruct (Z.ltb_spec bytes 1024); [reflexivity|lia].
  - intros H. destruct (Z.ltb_spec bytes 1024); [lia|].
    rewrite Z.quot_div_nonneg by lia.
    set (n := bytes / 1024).
    assert (Hn : 1 <= n < 9007199254740992) by (subst n; Z.div_mod_to_equations; lia).
    change 64%nat with (S (S (S (S (S (S 58)))))).
    rewrite scale_step.
    destruct (Z.ltb_spec n 1024) as [K0|K0].
    { exists 0%nat, "K"%char. cbn. repeat split; try lia;
        subst n; Z.div_mod_to_equations; lia. }
    rewrite Z.quot_div_nonneg by lia. rewrite !int_small by lia. cbn [Z.mul Z.add Pos.mul Pos.add].
    rewrite scale_step.
    destruct (Z.ltb_spec (n / 1024) 1024) as [K1|K1].
    { exists 1%nat, "M"%char. cbn. repeat split; try lia;
        subst n; Z.div_mod_to_equations; lia. }
    rewrite Z.quot_div_nonneg by (Z.div_mod_to_equations; lia).
    rewrite !int_small by lia. cbn [Z.mul Z.add Pos.mul Pos.add].
    rewrite scale_step.
    destruct (Z.ltb_spec (n / 1024 / 1024) 1024) as [K2|K2].
    { exists 2%nat, "G"%char. cbn. repeat split; try lia;
        subst n; Z.div_mod_to_equations; lia. }
    rewrite Z.quot_div_nonneg by (Z.div_mod_to_equations; lia).
    rewrite !int_small by lia. cbn [Z.mul Z.add Pos.mul Pos.add].
    rewrite scale_step.
    destruct (Z.ltb_spec (n / 1024 / 1024 / 1024) 1024) as [K3|K3].
    { exists 3%nat, "T"%char. cbn. repeat split; try lia;
        subst n; Z.div_mod_to_equations; lia. }
    rewrite Z.quot_div_nonneg by (Z.div_mod_to_equations; lia).
    rewrite !int_small by lia. cbn [Z.mul Z.add Pos.mul Pos.add].
    rewrite scale_step.
    destruct (Z.ltb_spec (n / 1024 / 1024 / 1024 / 1024) 1024) as [K4|K4].
    { exists 4%nat, "P"%char. cbn. repeat split; try lia;
        subst n; Z.div_mod_to_equations; lia. }
    rewrite Z.quot_div_nonneg by (Z.div_mod_to_equations; lia).
    rewrite !int_small by lia. cbn [Z.mul Z.add Pos.mul Pos.add].
    rewrite scale_step.
    destruct (Z.ltb_spec (n / 1024 / 1024 / 1024 / 1024 / 1024) 1024) as [K5|K5].
    { exists 5%nat, "E"%char. cbn. repeat split; try lia;
        subst n; Z.div_mod_to_equations; lia. }
    exfalso. subst n. Z.div_mod_to_equations. lia.
Qed.

End Format.

Lemma formatFileSize_witness :
  exists c, String.get 1 "KMGTPE" = Some c /\
    @formatFileSize plainRuntime (fun _ => ""%string) 5242880 =
      Text (@Sprintf_f plainRuntime 1 5242880 1048576 +:+ " " +:+ String c "B").
Proof.
  destruct (@formatFileSize_picks_the_unit plainRuntime (fun _ => ""%string) 5242880
              ltac:(lia)) as [_ H].
  destruct H as (exp & c & Hexp & Hc & Hr & Hf); [lia|].
  assert (exp = 1%nat) as ->.
  { destruct exp as [|[|[|[|[|[|exp]]]]]]; try reflexivity; try lia;
      cbn in Hr; lia. }
  exists c. split; [exact Hc|exact Hf].
Defined.

End AppsSpec.

Module DetailsSpec.
Import GoStrings LocalConfig Details StringFacts.

(** [Contains] finds exactly the substrings. *)
Lemma Contains_spec (s substr : string) :
  Contains s substr = true <-> exists pre post, s = pre +:+ substr +:+ post.
Proof.
  induction s as [|c s IH].
  - cbn [Contains]. rewrite orb_false_r, HasPrefix_spec. split.
    + intros (r & Hr). exists EmptyString, r. exact Hr.
    + intros (pre & post & H). destruct pre as [|c pre].
      * exists post. exact H.
      * rewrite append_cons in H. discriminate.
  - cbn [Contains]. rewrite orb_true_iff, HasPrefix_spec, IH. split.
    + intros [(r & Hr)|(pre & post & H)].
      * exists EmptyString, r. exact Hr.
      * exists (String c pre), post. rewrite append_cons. congruence.
    + intros (pre & post & H). destruct pre as [|c' pre].
      * left. exists post. exact H.
      * right. rewrite append_cons in H. injection H as _ H. exists pre, post. exact H.
Qed.

Lemma Environment_fold (env : list Value) (acc : list string) (e : string) :
  In e (fold_left
          (fun environment v =>
             match v with
             | VString envStr =>
                 if shown envStr then environment ++ [envStr] else environment
             | _ => environment
             end)
          env acc)
  <-> In e acc \/ (In (VString e) env /\ shown e = true).
Proof.
  revert acc. induction env as [|v env IH]; intros acc; simpl.
  - tauto.
  - rewrite IH. destruct v as [|s| | | |];
      try (split; [intros [?|[? ?]]; auto|intros [?|[[?|?] ?]]; auto; discriminate]).
    destruct (shown s) eqn:Hs.
    + rewrite in_app_iff. simpl. split.
      * intros [[?|[<-|[]]]|[? ?]]; auto.
      * intros [?|[[[= <-]|?] ?]]; auto.
    + split.
      * intros [?|[? ?]]; auto.
      * intros [?|[[[= <-]|?] ?]]; auto. congruence.
Qed.

(** The environment shown for a container holds exactly the strings of
    [Config.Env] in which none of [TOKEN], [SECRET] and [PASSWORD] occurs
    as a substring, compared byte by byte, so in upper case only; entries
    of [Env] that are not strings are dropped, and a [Config] or [Env] of
    another type gives an empty environment instead of a panic. *)
Theorem Environment_hides_secrets (data : gmap string Value) (e : string) :
  In e (Environment data) <->
  (exists config env,
     index data "Config" = VMap config /\ index config "Env" = VSeq env /\
     In (VString e) env) /\
  (forall word, In word ["TOKEN"; "SECRET"; "PASSWORD"]%string ->
     ~ exists pre post, e = pre +:+ word +:+ post).
Proof.
  assert (Hshown : shown e = true <->
            forall word, In word ["TOKEN"; "SECRET"; "PASSWORD"]%string ->
              ~ exists pre post, e = pre +:+ word +:+ post).
  { unfold shown. rewrite !andb_true_iff, !negb_true_iff. split.
    - intros [[H1 H2] H3] word [<-|[<-|[<-|[]]]] Hc;
        apply Contains_spec in Hc; congruence.
    - intros H. repeat split.
      + destruct (Contains e "TOKEN") eqn:Hc; [|reflexivity].
        exfalso. apply (H "TOKEN"%string); [simpl; auto|]. apply Contains_spec, Hc.
      + destruct (Contains e "SECRET") eqn:Hc; [|reflexivity].
        exfalso. apply (H "SECRET"%string); [simpl; auto|]. apply Contains_spec, Hc.
      + destruct (Contains e "PASSWORD") eqn:Hc; [|reflexivity].
        exfalso. apply (H "PASSWORD"%string); [simpl; auto|]. apply Contains_spec, Hc. }
  rewrite <- Hshown. unfold Environment.
  destruct (index data "Config") as [| | |config| |] eqn:Hc;
    try (split; [intros []|intros [(cfg & env & H & _) _]; discriminate]).
  destruct (index config "Env") as [| |env| | |] eqn:He;
    try (split; [intros []|intros [(cfg & env & [= <-] & H & _) _];
                             rewrite He in H; discriminate]).
  rewrite Environment_fold. split.
  - intros [[]|[Hin Hs]]. split; [|exact Hs]. exists config, env. auto.
  - intros [(cfg & env' & [= <-] & H & Hin) Hs]. rewrite He in H. injection H as <-.
    right. auto.
Qed.

End DetailsSpec.

(* ===================================================================== *)
(** * Choosing the container to connect to *)
(* ===================================================================== *)

Module ConnectSpec.
Import GoStrings GoTime Container Cmd Interactive Connect Listing Fixtures StringFacts
  ListingFacts.

Lemma HasPrefix_trans (s p q : string) :
  HasPrefix s p = true -> HasPrefix p q = true -> HasPrefix s q = true.
Proof.
  rewrite !HasPrefix_spec. intros [r ->] [r' ->].
  exists (r' +:+ r). apply append_assoc.
Qed.

Section RunConnect.
Context {RT : GoRuntime}.
Variable E : Engine.
Variable configPrefix : string.
Variable Display : list Info -> list Info.
Variable resolveContainerName : string -> string.
Variable ps_state : string -> option string.

(** A row kept for a prefix is kept for every prefix of that prefix. *)
Lemma parseLine_weaken (P Q line : string) (b : basicInfo) :
  HasPrefix P Q = true -> parseLine P line = Some b -> parseLine Q line = Some b.
Proof.
  intros HPQ. unfold parseLine.
  destruct (String.eqb line ""); [discriminate|].
  destruct (length (Split line tab) <? 4)%nat; [discriminate|].
  destruct (HasPrefix (nth 0 (Split line tab) ""%string) P) eqn:HP; [|discriminate].
  rewrite (HasPrefix_trans _ _ _ HP HPQ). simpl. auto.
Qed.

Lemma parseListing_weaken (P Q output : string) :
  HasPrefix P Q = true ->
  (length (parseListing P output) <= length (parseListing Q output))%nat.
Proof.
  intros HPQ. unfold parseListing.
  induction (Split output newline) as [|line lines IH]; [reflexivity|].
  rewrite !omap_cons.
  destruct (parseLine P line) as [b|] eqn:Hb.
  - rewrite (parseLine_weaken P Q line b HPQ Hb). simpl. lia.
  - destruct (parseLine Q line); simpl; lia.
Qed.

(** The names listed carry one of the two prefixes. *)
Lemma listContainers_prefixed (containers : list Info) (c : Info) :
  listContainers E configPrefix = Some containers -> In c containers ->
  HasPrefix (Name c) configPrefix = true \/ HasPrefix (Name c) "mcl-" = true.
Proof.
  unfold listContainers, GetRunningContainers.
  destruct (docker_ps E) as [output|]; [|discriminate].
  assert (Hp : forall P, In c (map (fetchRunning E P) (parseListing P output)) ->
                         HasPrefix (Name c) P = true).
  { intros P Hin. apply in_map_iff in Hin as (b & <- & Hb).
    simpl. eapply parseListing_prefixed; eauto. }
  destruct (negb (String.eqb configPrefix "mcl-")); intros [= <-] Hin.
  - simpl in Hin. apply in_app_iff in Hin as [Hin|Hin]; [left|right]; apply Hp, Hin.
  - left. apply Hp, Hin.
Qed.

(** [runConnect] never panics, provided [Display] returns records it was
    given.  Without an argument it attaches only to a container of the
    listing of running containers, whose name carries the configured
    prefix or the legacy prefix ["mcl-"]; with an argument it attaches
    only to the resolved name, and only after [docker ps] printed the
    state [running] for it. *)
Theorem runConnect_attaches_only_to_running (args : list string) (input : option string) :
  (forall l c, In c (Display l) -> In c l) ->
  runConnect E configPrefix Display resolveContainerName ps_state args input <> Panics /\
  (forall containerName,
     runConnect E configPrefix Display resolveContainerName ps_state args input
       = Attach containerName ->
     match args with
     | [] =>
         exists containers c,
           listContainers E configPrefix = Some containers /\ In c containers /\
           Name c = containerName /\
           (HasPrefix containerName configPrefix = true \/
            HasPrefix containerName "mcl-" = true)
     | shortName :: _ =>
         containerName = resolveContainerName shortName /\
         exists output, ps_state containerName = Some output /\
                        TrimSpace output = "running"%string
     end).
Proof.
  intros HD. unfold runConnect. destruct args as [|shortName rest].
  - destruct (listContainers E configPrefix) as [containers|] eqn:Hl.
    2:{ split; [discriminate|]. discriminate. }
    destruct (length containers =? 0)%nat eqn:H0.
    { split; [discriminate|]. discriminate. }
    destruct (length containers =? 1)%nat eqn:H1.
    { destruct containers as [|c cs]; [discriminate|].
      split; [discriminate|]. intros n [= <-]. exists (c :: cs), c.
      split; [reflexivity|]. split; [left; reflexivity|]. split; [reflexivity|].
      eapply listContainers_prefixed; [exact Hl|left; reflexivity]. }
    assert (Hsel : match selectContainer Display containers input with
                   | Chosen c => In c containers
                   | Rejected _ => True
                   | IndexOutOfRange => False
                   end).
    { unfold selectContainer.
      destruct input as [line|]; [|exact I].
      destruct (ParseInt (TrimSpace line)) as [choice|]; [|exact I].
      destruct (Z.ltb_spec choice 1); [exact I|].
      destruct (Z.ltb_spec (Z.of_nat (length (Display containers))) choice); [exact I|].
      simpl.
      destruct (lookup_lt_is_Some_2 (Display containers) (Z.to_nat (choice - 1)))
        as [c Hc]; [lia|].
      rewrite Hc. apply HD, list_elem_of_In. eapply list_elem_of_lookup_2; eauto. }
    destruct (selectContainer Display containers input) as [c|msg|].
    + split; [discriminate|]. intros n [= <-]. exists containers, c.
      split; [reflexivity|]. split; [exact Hsel|]. split; [reflexivity|].
      eapply listContainers_prefixed; eauto.
    + split; discriminate.
    + contradiction.
  - cbv zeta. destruct (ps_state (resolveContainerName shortName)) as [output|] eqn:Hps.
    2:{ split; discriminate. }
    destruct (String.eqb (TrimSpace output) "") eqn:He.
    { split; discriminate. }
    destruct (String.eqb_spec (TrimSpace output) "running") as [Hr|Hr]; simpl.
    + split; [discriminate|]. intros n [= <-]. split; [reflexivity|].
      exists output. auto.
    + split; discriminate.
Qed.

(** With one running container under the configured prefix and none
    other under ["mcl-"], [runConnect] without an argument connects to it
    without asking when the configured prefix is ["mcl-"]; when the
    configured prefix is a longer one that starts with ["mcl-"], the
    legacy listing returns the same container again, the list has two
    entries, and [runConnect] asks for a selection: with no readable
    input it fails instead of connecting. *)
Theorem runConnect_lists_twice_under_a_longer_prefix (output : string) (b : basicInfo) :
  docker_ps E = Some output ->
  parseListing "mcl-" output = [b] ->
  HasPrefix (name b) configPrefix = true ->
  HasPrefix configPrefix "mcl-" = true ->
  (configPrefix = "mcl-"%string ->
   forall input,
     runConnect E configPrefix Display resolveContainerName ps_state [] input
       = Attach (name b)) /\
  (configPrefix <> "mcl-"%string ->
   map Name <$> listContainers E configPrefix = Some [name b; name b] /\
   runConnect E configPrefix Display resolveContainerName ps_state [] None
     = Fails "failed to read input").
Proof.
  intros Hps Hlegacy Hb Hext.
  assert (Hown : parseListing configPrefix output = [b]).
  { revert Hlegacy. unfold parseListing.
    induction (Split output newline) as [|line lines IH]; [discriminate|].
    rewrite !omap_cons.
    destruct (parseLine "mcl-" line) as [b'|] eqn:Hq.
    - intros [= -> Hrest].
      assert (Hp : parseLine configPrefix line = Some b).
      { revert Hq. unfold parseLine.
        destruct (String.eqb line ""); [discriminate|].
        destruct (length (Split line tab) <? 4)%nat; [discriminate|].
        destruct (HasPrefix (nth 0 (Split line tab) ""%string) "mcl-"); [|discriminate].
        simpl. intros [= <-]. simpl in Hb. rewrite Hb. reflexivity. }
      rewrite Hp. f_equal.
      clear IH.
      assert (Hnone : forall l, omap (parseLine "mcl-") l = [] ->
                                omap (parseLine configPrefix) l = []).
      { induction l as [|x l IHl]; [reflexivity|].
        rewrite !omap_cons.
        destruct (parseLine "mcl-" x) eqn:Hx; [discriminate|].
        destruct (parseLine configPrefix x) as [bx|] eqn:Hcx.
        - rewrite (parseLine_weaken configPrefix "mcl-" x bx Hext Hcx) in Hx. discriminate.
        - exact IHl. }
      apply Hnone, Hrest.
    - destruct (parseLine configPrefix line) as [bx|] eqn:Hcx.
      + rewrite (parseLine_weaken configPrefix "mcl-" line bx Hext Hcx) in Hq. discriminate.
      + exact IH. }
  split.
  - intros -> input. unfold runConnect, listContainers, GetRunningContainers.
    rewrite Hps, Hlegacy. reflexivity.
  - intros Hne. unfold runConnect, listContainers, GetRunningContainers.
    rewrite Hps, Hown, Hlegacy.
    destruct (String.eqb_spec configPrefix "mcl-") as [?|_]; [contradiction|].
    split; reflexivity.
Qed.

End RunConnect.

Lemma runConnect_attach_witness :
  @runConnect plainRuntime oneSandbox "mcl-" (fun l => l) (fun s => s) (fun _ => None)
    [] None <> Panics.
Proof.
  apply (@runConnect_attaches_only_to_running plainRuntime oneSandbox "mcl-"
           (fun l => l) (fun s => s) (fun _ => None) [] None).
  intros l c H. exact H.
Defined.

Lemma runConnect_twice_witness :
  @runConnect plainRuntime oneSandbox "mcl-a" (fun l => l) (fun s => s) (fun _ => None)
    [] None = Fails "failed to read input".
Proof.
  apply (@runConnect_lists_twice_under_a_longer_prefix plainRuntime oneSandbox "mcl-a"
           (fun l => l) (fun s => s) (fun _ => None)
           (renderListing [row "mcl-a" "running"])
           (@basicOf plainRuntime (row "mcl-a" "running"))
           eq_refl eq_refl eq_refl eq_refl).
  discriminate.
Defined.

End ConnectSpec.
